(** * god.c: world state, transitions and the end-of-world calculator

    A shallow embedding of [god.c] and the properties of its world-state
    model.  C [double]s are IEEE binary64 values, embedded as Rocq's
    primitive floats; C [int], [long] and [size_t] are integers of the
    LP64 data model; the heap of [Universe] objects is a finite map from
    addresses to records, and every allocation request draws its outcome
    from a list carried in the state. *)

From Stdlib Require Import ZArith Lia Bool String Ascii List Floats.
From stdpp Require Import base option list gmap.
Import ListNotations.

Set Warnings "-inexact-float".
Local Open Scope Z_scope.

(** ** C integer types (LP64) *)

Module CInt.

Definition INT_MAX : Z := 2147483647.
Definition INT_MIN : Z := -2147483648.
Definition LONG_MAX : Z := 9223372036854775807.
Definition LONG_MIN : Z := -9223372036854775808.
Definition PTRDIFF_MAX : Z := 9223372036854775807.

(** Conversion to [size_t] and arithmetic on it: modulo [2^64]. *)
Definition to_size_t (z : Z) : Z := z mod 2 ^ 64.

(** [sizeof] of the objects the program allocates. *)
Definition sizeof_double : Z := 8.
Definition sizeof_pointer : Z := 8.
Definition sizeof_Universe : Z := 96.
Definition sizeof_ConsciousEntity : Z := 48.
Definition sizeof_God : Z := 224.

End CInt.
Export CInt.

(** ** C [double] operations used by the program *)

Module CDouble.

(** [(double)z] for an integer [z]: rounding to nearest, ties to even. *)
Definition of_Z (z : Z) : float :=
  SF2Prim (binary_normalize prec emax z 0 false).

(** The integer part of a finite double, truncated toward zero. *)
Definition trunc (f : float) : option Z :=
  match Prim2SF f with
  | S754_zero _ => Some 0
  | S754_finite s m e =>
      let v := if 0 <=? e then Z.pos m * 2 ^ e else Z.pos m / 2 ^ (- e) in
      Some (if s then - v else v)
  | S754_infinity _ | S754_nan => None
  end.

(** [(long)f]: the truncated value when it is representable in [long];
    the conversion has no defined result otherwise (C11 6.3.1.4). *)
Definition to_long (f : float) : option Z :=
  match trunc f with
  | Some z => if (LONG_MIN <=? z) && (z <=? LONG_MAX) then Some z else None
  | None => None
  end.

Definition fabs (x : float) : float := PrimFloat.abs x.

(** [fmax] and [fmin]: a NaN argument is treated as missing data. *)
Definition fmax (x y : float) : float :=
  if PrimFloat.is_nan x then y
  else if PrimFloat.is_nan y then x
  else if PrimFloat.ltb x y then y else x.

Definition fmin (x y : float) : float :=
  if PrimFloat.is_nan x then y
  else if PrimFloat.is_nan y then x
  else if PrimFloat.ltb y x then y else x.

(** [fmod x y]: [x - n*y] for the integer [n = trunc (x/y)], computed
    exactly; the result has the sign of [x]. *)
Definition fmod (x y : float) : float :=
  match Prim2SF x, Prim2SF y with
  | S754_nan, _ | _, S754_nan => nan
  | S754_infinity _, _ => nan
  | _, S754_zero _ => nan
  | S754_zero _, _ => x
  | S754_finite _ _ _, S754_infinity _ => x
  | S754_finite sx mx ex, S754_finite _ my ey =>
      let e := Z.min ex ey in
      let X := Z.pos mx * 2 ^ (ex - e) in
      let Y := Z.pos my * 2 ^ (ey - e) in
      let r := X mod Y in
      SF2Prim (binary_normalize prec emax (if sx then - r else r) e sx)
  end.

End CDouble.

(** ** Program data *)

(** The functions that the program stores in function-pointer fields. *)
Inductive code_ptr : Type :=
  | fn_universeEvolveFunction
  | fn_entityMakeChoice
  | fn_formPrayer.

Record TimePoint : Type := {
  temporalCoordinate : float;
  isInEternity : bool
}.

(** A C string is the sequence of its characters before the terminator.
    The two [double]s an entity points to are owned by it alone and are
    embedded as values. *)
Record ConsciousEntity : Type := {
  consciousness : float;
  freeWill : float;
  name : string;
  makeChoice : code_ptr;
  formPrayer_ptr : code_ptr;
  uniqueId : Z
}.

(** [physicalConstants], [spacetime], [matter], [energy] and the entity
    array are blocks owned by exactly one [Universe]; they are embedded as
    the values they hold.  [numConstants] and [numEntities] stay separate
    fields, as in the struct. *)
Record Universe : Type := {
  physicalConstants : list float;
  numConstants : Z;
  matter : float;
  energy : float;
  spacetime : list float;
  consciousEntities : list ConsciousEntity;
  numEntities : Z;
  naturalLaws_evolve : code_ptr;
  creationTime : Z;
  totalLifespanDays : Z;
  entropyLevel : float;
  maxEntropy : float
}.

(** The scalar attributes of the [God] object; its table of operations is
    fixed and is rendered by the functions below. *)
Record God : Type := {
  infinityMeasure : float;
  isSeparable : bool;
  entropy : float;
  value : float;
  trinity_count : Z
}.

(** ** Machine state *)

Definition addr := positive.

(** [heap]: the live [Universe] objects.  [outcomes]: the results of the
    coming allocation requests, [true] for memory granted; once the list
    is used up every request is granted.  [clock]: what [time()] reports. *)
Record machine : Type := {
  heap : gmap addr Universe;
  outcomes : list bool;
  clock : Z
}.

(** A computation either has no defined behaviour ([None]) or yields a
    value and the next machine state. *)
Definition M (A : Type) : Type := machine -> option (A * machine).

#[global] Instance M_ret : MRet M := fun A a m => Some (a, m).
#[global] Instance M_bind : MBind M := fun A B f c m =>
  match c m with
  | Some (a, m') => f a m'
  | None => None
  end.

Definition undefined {A} : M A := fun _ => None.

Definition time : M Z := fun m => Some (clock m, m).

(** Reading through a [Universe*]: defined for live objects only. *)
Definition load (p : addr) : M Universe := fun m =>
  match heap m !! p with
  | Some u => Some (u, m)
  | None => None
  end.

Definition store (p : addr) (u : Universe) : M unit := fun m =>
  Some (tt, {| heap := <[p := u]> (heap m); outcomes := outcomes m; clock := clock m |}).

(** A new object is placed at an address no live object occupies. *)
Definition new_object (u : Universe) : M addr := fun m =>
  let p := fresh (dom (heap m)) in
  Some (p, {| heap := <[p := u]> (heap m); outcomes := outcomes m; clock := clock m |}).

(** [malloc]/[realloc]/[strdup] of [size] bytes: [true] when the block is
    obtained.  No allocator satisfies a request above [PTRDIFF_MAX]; any
    other request takes the next outcome. *)
Definition consume (m : machine) : machine :=
  {| heap := heap m; outcomes := tail (outcomes m); clock := clock m |}.

Definition malloc (size : Z) : M bool := fun m =>
  if PTRDIFF_MAX <? size then Some (false, m)
  else Some (hd true (outcomes m), consume m).

Definition realloc (size : Z) : M bool := malloc size.

(** The next [n] allocation requests are granted. *)
Definition granted (n : nat) (m : machine) : bool :=
  forallb (fun b => b) (take n (outcomes m)).

(** Signed arithmetic whose result does not fit has no defined value. *)
Definition int_add (a b : Z) : M Z :=
  if (INT_MIN <=? a + b) && (a + b <=? INT_MAX) then mret (a + b) else undefined.
Definition long_add (a b : Z) : M Z :=
  if (LONG_MIN <=? a + b) && (a + b <=? LONG_MAX) then mret (a + b) else undefined.

Definition strlen (s : string) : Z := Z.of_nat (String.length s).

Definition MAX_PRAYER_LENGTH : Z := 1024.
Definition MAX_NAME_LENGTH : Z := 256.
Definition SECONDS_PER_DAY : Z := 24 * 60 * 60.
Definition INFINITY_REPRESENTATION : float := 0x1.fffffffffffffp+1023.

(** Field updates of a [Universe] object. *)
Definition set_entropyLevel (x : float) (u : Universe) : Universe :=
  {| physicalConstants := physicalConstants u; numConstants := numConstants u;
     matter := matter u; energy := energy u; spacetime := spacetime u;
     consciousEntities := consciousEntities u; numEntities := numEntities u;
     naturalLaws_evolve := naturalLaws_evolve u; creationTime := creationTime u;
     totalLifespanDays := totalLifespanDays u; entropyLevel := x;
     maxEntropy := maxEntropy u |}.

Definition set_totalLifespanDays (d : Z) (u : Universe) : Universe :=
  {| physicalConstants := physicalConstants u; numConstants := numConstants u;
     matter := matter u; energy := energy u; spacetime := spacetime u;
     consciousEntities := consciousEntities u; numEntities := numEntities u;
     naturalLaws_evolve := naturalLaws_evolve u; creationTime := creationTime u;
     totalLifespanDays := d; entropyLevel := entropyLevel u;
     maxEntropy := maxEntropy u |}.

Definition set_entities (es : list ConsciousEntity) (n : Z) (u : Universe) : Universe :=
  {| physicalConstants := physicalConstants u; numConstants := numConstants u;
     matter := matter u; energy := energy u; spacetime := spacetime u;
     consciousEntities := es; numEntities := n;
     naturalLaws_evolve := naturalLaws_evolve u; creationTime := creationTime u;
     totalLifespanDays := totalLifespanDays u; entropyLevel := entropyLevel u;
     maxEntropy := maxEntropy u |}.

Definition set_maxEntropy (x : float) (u : Universe) : Universe :=
  {| physicalConstants := physicalConstants u; numConstants := numConstants u;
     matter := matter u; energy := energy u; spacetime := spacetime u;
     consciousEntities := consciousEntities u; numEntities := numEntities u;
     naturalLaws_evolve := naturalLaws_evolve u; creationTime := creationTime u;
     totalLifespanDays := totalLifespanDays u; entropyLevel := entropyLevel u;
     maxEntropy := x |}.

(** ** The functions of god.c *)

Import CDouble.

(** [memcpy] of [n] doubles out of a block: reading past the end of the
    source block has no defined behaviour. *)
Definition memcpy_doubles (src : list float) (n : Z) : M (list float) :=
  if (0 <=? n) && (n <=? Z.of_nat (length src)) then mret (take (Z.to_nat n) src)
  else undefined.

(** [strstr haystack needle]: the suffix of [haystack] that starts at the
    first occurrence of [needle], [None] (NULL) when there is none. *)
Fixpoint strstr (haystack needle : string) : option string :=
  if String.prefix needle haystack then Some haystack
  else match haystack with
       | EmptyString => None
       | String _ rest => strstr rest needle
       end.

(** *** divinePhysicalConstants *)

(** The four assignments and the loop that fill the block [constants]. *)
Definition fill_constants (numConstants : Z) (constants : list float) : list float :=
  let constants := <[0%nat := 299792458%float]> constants in
  let constants :=
    if 1 <? numConstants then <[1%nat := 6.62607015e-34%float]> constants else constants in
  let constants :=
    if 2 <? numConstants then <[2%nat := 6.67430e-11%float]> constants else constants in
  let constants :=
    if 3 <? numConstants then <[3%nat := 8.8541878128e-12%float]> constants else constants in
  fold_left
    (fun constants i => <[i := (1 / of_Z (Z.of_nat i + 1))%float]> constants)
    (seq 4 (Z.to_nat numConstants - 4))
    constants.

(** A block fresh from [malloc]; its content is indeterminate, and
    [fill_constants] overwrites every cell of it. *)
Definition fresh_doubles (n : Z) : list float := replicate (Z.to_nat n) 0%float.

Definition divinePhysicalConstants (numConstants : Z) : M (option (list float)) :=
  if numConstants <=? 0 then mret None
  else
    ok ← malloc (to_size_t (sizeof_double * to_size_t numConstants));
    if negb ok then mret None
    else mret (Some (fill_constants numConstants (fresh_doubles numConstants))).

(** *** createGod *)

Definition createGod : M (option God) :=
  ok ← malloc sizeof_God;
  if negb ok then mret None else
  ok ← malloc 1;
  if negb ok then mret None else
  ok ← malloc 1;
  if negb ok then mret None else
  ok ← malloc 1;
  if negb ok then mret None else
  ok ← malloc 1;
  if negb ok then mret None else
  ok ← malloc 1;
  if negb ok then mret None else
  mret (Some {| infinityMeasure := INFINITY_REPRESENTATION;
                isSeparable := false;
                entropy := 0;
                value := INFINITY_REPRESENTATION;
                trinity_count := 1 |}).

(** *** divineCreateUniverse *)

Definition divineCreateUniverse : M (option addr) :=
  ok ← malloc sizeof_Universe;
  if negb ok then mret None else
  let numConstants := 30 in
  constants ← divinePhysicalConstants numConstants;
  match constants with
  | None => mret None
  | Some constants =>
      ok ← malloc (sizeof_double * 4);
      if negb ok then mret None else
      let spacetime := replicate 4 0%float in
      ok ← malloc sizeof_double;
      if negb ok then mret None else
      ok ← malloc sizeof_double;
      if negb ok then mret None else
      now ← time;
      p ← new_object
            {| physicalConstants := constants; numConstants := numConstants;
               matter := 1; energy := 1; spacetime := spacetime;
               consciousEntities := []; numEntities := 0;
               naturalLaws_evolve := fn_universeEvolveFunction;
               creationTime := now;
               totalLifespanDays := 5000 * 365;
               entropyLevel := 0.618;
               maxEntropy := 1 |};
      mret (Some p)
  end.

(** *** divineMiracle *)

(** Every failing path frees the blocks it obtained before it returns
    NULL, so the new object enters the heap only on the successful path. *)
Definition divineMiracle (u : option addr) (t : option TimePoint) : M (option addr) :=
  match u with
  | None => mret None
  | Some pu =>
      ok ← malloc sizeof_Universe;
      if negb ok then mret None else
      src ← load pu;
      ok ← malloc (to_size_t (sizeof_double * to_size_t (numConstants src)));
      if negb ok then mret None else
      constants ← memcpy_doubles (physicalConstants src) (numConstants src);
      ok ← malloc (sizeof_double * 4);
      if negb ok then mret None else
      spacetime ← memcpy_doubles (spacetime src) 4;
      ok ← malloc sizeof_double;
      if negb ok then mret None else
      ok ← malloc sizeof_double;
      if negb ok then mret None else
      let newUniverse :=
        {| physicalConstants := constants; numConstants := numConstants src;
           matter := matter src; energy := energy src; spacetime := spacetime;
           consciousEntities := []; numEntities := 0;
           naturalLaws_evolve := naturalLaws_evolve src;
           creationTime := creationTime src;
           totalLifespanDays := totalLifespanDays src;
           entropyLevel := entropyLevel src;
           maxEntropy := maxEntropy src |} in
      let newUniverse :=
        set_entropyLevel (entropyLevel newUniverse * 0.9)%float newUniverse in
      p ← new_object newUniverse;
      mret (Some p)
  end.

(** *** divinePrayerResponse *)

Definition divinePrayerResponse
    (pray_er : option ConsciousEntity) (prayer : option string) (u : option addr)
    : M (option addr) :=
  match pray_er, prayer, u with
  | Some _, Some prayer, Some _ =>
      newUniverse ← divineMiracle u None;
      match newUniverse with
      | Some p =>
          nu ← load p;
          days ← long_add (totalLifespanDays nu) 1;
          let nu := set_totalLifespanDays days nu in
          let nu :=
            match strstr prayer "guide me" with
            | Some _ => set_entropyLevel (entropyLevel nu * 0.99)%float nu
            | None => nu
            end in
          _ ← store p nu;
          mret (Some p)
      | None => mret None
      end
  | _, _, _ => mret None
  end.

(** *** divineCompletion *)

Definition divineCompletion (u : option addr) : M (option addr) :=
  match u with
  | None => mret None
  | Some _ =>
      completedUniverse ← divineMiracle u None;
      match completedUniverse with
      | None => mret None
      | Some p =>
          cu ← load p;
          _ ← store p (set_entropyLevel (maxEntropy cu) cu);
          mret (Some p)
      end
  end.

(** *** createConsciousEntity *)

(** The registry after [realloc] to [n + 1] slots and the write of
    [entity] into slot [n]: the first [n] slots keep their content.  A
    block that holds fewer than [n] entities cannot supply them. *)
Definition append_slot (es : list ConsciousEntity) (n : Z) (entity : ConsciousEntity)
    : M (list ConsciousEntity) :=
  if (0 <=? n) && (n <=? Z.of_nat (length es))
  then mret (take (Z.to_nat n) es ++ [entity])
  else undefined.

Definition createConsciousEntity
    (creator : option God) (universe : option addr) (name : option string)
    : M (option ConsciousEntity) :=
  match creator, universe, name with
  | Some _, Some pu, Some name =>
      if MAX_NAME_LENGTH <=? strlen name then mret None else
      ok ← malloc sizeof_ConsciousEntity;
      if negb ok then mret None else
      ok ← malloc sizeof_double;
      if negb ok then mret None else
      ok ← malloc sizeof_double;
      if negb ok then mret None else
      ok ← malloc (strlen name + 1);
      if negb ok then mret None else
      u ← load pu;
      id ← int_add (numEntities u) 1;
      let entity :=
        {| consciousness := 1; freeWill := 1; name := name;
           makeChoice := fn_entityMakeChoice; formPrayer_ptr := fn_formPrayer;
           uniqueId := id |} in
      slots ← int_add (numEntities u) 1;
      ok ← realloc (to_size_t (to_size_t slots * sizeof_pointer));
      if negb ok then mret None else
      newEntities ← append_slot (consciousEntities u) (numEntities u) entity;
      count ← int_add (numEntities u) 1;
      _ ← store pu (set_entities newEntities count u);
      mret (Some entity)
  | _, _, _ => mret None
  end.

(** One entity per name, created in order in the universe at [pu]. *)
Definition create_all (creator : option God) (pu : addr) (names : list string)
    : M (list (option ConsciousEntity)) :=
  mapM (fun name => createConsciousEntity creator (Some pu) (Some name)) names.

(** *** formPrayer *)

Definition formPrayer (entity : option ConsciousEntity) : M (option string) :=
  match entity with
  | None => mret None
  | Some e =>
      ok ← malloc MAX_PRAYER_LENGTH;
      if negb ok then mret None else
      let prayer := ("Prayer from " ++ name e ++ ": Please guide me.")%string in
      let result := strlen prayer in
      if (result <? 0) || (MAX_PRAYER_LENGTH <=? result) then mret None
      else mret (Some prayer)
  end.

(** *** calculateEndOfWorld *)

(** [difftime]: the difference of two calendar times, as a double. *)
Definition difftime (t1 t0 : Z) : float := of_Z (t1 - t0).

(** One round of the loop over the physical constants. *)
Definition influence_step (u : Universe) (acc : option float) (i : nat) : option float :=
  match acc, physicalConstants u !! i with
  | Some physicalInfluence, Some c =>
      let normalizedConstant := (c / (fabs c + 1))%float in
      Some (physicalInfluence + normalizedConstant / of_Z (Z.of_nat i + 1))%float
  | _, _ => None
  end.

(** The loop [for (i = 0; i < numConstants && i < 10; i++)]; reading a
    constant the block does not hold has no defined behaviour. *)
Definition influence_loop (u : Universe) : option float :=
  fold_left (influence_step u)
            (seq 0 (Z.to_nat (Z.min (numConstants u) 10)))
            (Some 0%float).

Definition lift {A} (o : option A) : M A := fun m =>
  match o with
  | Some a => Some (a, m)
  | None => None
  end.

Definition calculateEndOfWorld (universe : option addr) : M Z :=
  match universe with
  | None => mret (-1)
  | Some pu =>
      currentTime ← time;
      u ← load pu;
      let timeElapsedSeconds := difftime currentTime (creationTime u) in
      let daysSinceCreation := (timeElapsedSeconds / of_Z SECONDS_PER_DAY)%float in
      let entropyRatio := (entropyLevel u / maxEntropy u)%float in
      let daysRemaining :=
        fmax 0 (of_Z (totalLifespanDays u) - daysSinceCreation)%float in
      let ESCHATOLOGICAL_CONSTANT := 0.12345%float in
      physicalInfluence ← lift (influence_loop u);
      let physicalInfluence := fmod (fabs physicalInfluence) 100 in
      let consciousnessInfluence :=
        fmin 1000 (of_Z (numEntities u) * ESCHATOLOGICAL_CONSTANT)%float in
      let daysRemaining :=
        fmax 0 (daysRemaining * (1 - entropyRatio)
                - physicalInfluence * entropyRatio
                + consciousnessInfluence)%float in
      lift (to_long (fmin (of_Z LONG_MAX) daysRemaining))
  end.

(** *** The attribute functions *)

Record Proposition : Type := {
  statement : string;
  truthValue : bool
}.

Record State : Type := {
  state_universe : option addr;
  state_time : option TimePoint;
  isLogicallyConsistent : bool
}.

Definition universeEvolveFunction (t : option TimePoint) : float :=
  match t with
  | None => 0
  | Some t => (temporalCoordinate t * 0.1)%float
  end.

Definition entityMakeChoice (options : option State) : bool :=
  match options with
  | None => false
  | Some options => isLogicallyConsistent options
  end.

Definition alwaysTrue : bool := true.

Definition trinityEquality {A} (p1 p2 : option A) : bool := true.

Definition divineProjectIntoSpace {A} (space : option A) : M unit := mret tt.

Definition divineProjectIntoTime (t : option TimePoint) : M unit := mret tt.

Definition divineJusticeEvaluation {A} (moralFramework : option A) : float :=
  INFINITY_REPRESENTATION.

Definition divineFreeWillCompatibility {A}
    (e : option ConsciousEntity) (choice : option A) : bool := true.

Definition omniscienceFunction (p : option Proposition) : bool :=
  match p with
  | None => false
  | Some p => truthValue p
  end.

Definition omnipotenceFunction (s : option State) : bool :=
  match s with
  | None => false
  | Some s => isLogicallyConsistent s
  end.

Definition divineLove (e : option ConsciousEntity) : float :=
  match e with
  | None => 0
  | Some _ => INFINITY_REPRESENTATION
  end.

(** The revelation is a block that holds the double 1.0. *)
Definition divineRevelation (u : option addr) (t : option TimePoint) : M (option float) :=
  match u, t with
  | Some _, Some _ =>
      ok ← malloc sizeof_double;
      if negb ok then mret None else mret (Some 1%float)
  | _, _ => mret None
  end.

Definition divineOntoDependence {A} (existent : option A) : bool := true.

(** The projection is a block of pointer size that is never written. *)
Definition divineMultiverseProjection {A} (multiverse : option A) : M (option unit) :=
  match multiverse with
  | None => mret None
  | Some _ =>
      ok ← malloc sizeof_pointer;
      if negb ok then mret None else mret (Some tt)
  end.

(** *** freeUniverse and freeGod *)

(** [free] of a [Universe] object: it is live no longer.  Freeing what is
    not live has no defined behaviour. *)
Definition free_object (p : addr) : M unit := fun m =>
  match heap m !! p with
  | Some _ =>
      Some (tt, {| heap := delete p (heap m); outcomes := outcomes m; clock := clock m |})
  | None => None
  end.

(** The blocks a universe owns go with it; the loop over the registry
    reads [numEntities] slots of the entity array. *)
Definition freeUniverse (u : option addr) : M unit :=
  match u with
  | None => mret tt
  | Some pu =>
      obj ← load pu;
      if numEntities obj <=? Z.of_nat (length (consciousEntities obj))
      then free_object pu
      else undefined
  end.

(** The blocks of a [God] object, of a prayer, of a revelation and of a
    projection are not part of the heap of universes: releasing them
    leaves the machine as it is. *)
Definition freeGod (g : option God) : M unit := mret tt.

Definition freeRevelation (revelation : option float) : M unit := mret tt.

Definition freeProjection (projection : option unit) : M unit := mret tt.

Definition free_string (s : option string) : M unit := mret tt.

(** *** main *)

(** The exit status of [main]; the lines it writes to standard output
    are not part of the machine state.  The calls go through the function
    pointers [createGod] stores, which are the functions above. *)
Definition main : M Z :=
  omega ← createGod;
  match omega with
  | None => mret 1
  | Some _ =>
      universe ← divineCreateUniverse;
      match universe with
      | None => _ ← freeGod omega; mret 1
      | Some _ =>
          human1 ← createConsciousEntity omega universe (Some "Human1"%string);
          human2 ← createConsciousEntity omega universe (Some "Human2"%string);
          match human1, human2 with
          | Some _, Some _ =>
              let love := divineLove human1 in
              prayer ← formPrayer human1;
              match prayer with
              | None =>
                  _ ← freeUniverse universe; _ ← freeGod omega; mret 1
              | Some _ =>
                  updatedUniverse ← divinePrayerResponse human1 prayer universe;
                  match updatedUniverse with
                  | None =>
                      _ ← free_string prayer; _ ← freeUniverse universe;
                      _ ← freeGod omega; mret 1
                  | Some _ =>
                      daysRemaining ← calculateEndOfWorld universe;
                      completedUniverse ← divineCompletion universe;
                      match completedUniverse with
                      | None =>
                          _ ← free_string prayer; _ ← freeUniverse updatedUniverse;
                          _ ← freeUniverse universe; _ ← freeGod omega; mret 1
                      | Some _ =>
                          _ ← free_string prayer;
                          _ ← freeUniverse completedUniverse;
                          _ ← freeUniverse updatedUniverse;
                          _ ← freeUniverse universe;
                          _ ← freeGod omega;
                          mret 0
                      end
                  end
              end
          | _, _ => _ ← freeUniverse universe; _ ← freeGod omega; mret 1
          end
      end
  end.

(** ** The objects of [main] *)

(** The [God] object [createGod] builds. *)
Definition omega : God :=
  {| infinityMeasure := INFINITY_REPRESENTATION; isSeparable := false;
     entropy := 0; value := INFINITY_REPRESENTATION; trinity_count := 1 |}.

(** The entity [createConsciousEntity] builds first, for the name "Human1". *)
Definition human1 : ConsciousEntity :=
  {| consciousness := 1; freeWill := 1; name := "Human1";
     makeChoice := fn_entityMakeChoice; formPrayer_ptr := fn_formPrayer;
     uniqueId := 1 |}.

(** The universe [divineCreateUniverse] builds at time [now]. *)
Definition created_universe (now : Z) : Universe :=
  {| physicalConstants := fill_constants 30 (fresh_doubles 30); numConstants := 30;
     matter := 1; energy := 1; spacetime := replicate 4 0%float;
     consciousEntities := []; numEntities := 0;
     naturalLaws_evolve := fn_universeEvolveFunction;
     creationTime := now;
     totalLifespanDays := 5000 * 365;
     entropyLevel := 0.618;
     maxEntropy := 1 |}.

(** A machine whose only live object is [u], with memory to spare. *)
Definition world_of (u : Universe) (now : Z) : machine :=
  {| heap := {[1%positive := u]}; outcomes := []; clock := now |}.

(** ** Vocabulary of the properties *)

(** The value the generator places at index [i]. *)
Definition constant_at (i : nat) : float :=
  match i with
  | 0%nat => 299792458
  | 1%nat => 6.62607015e-34
  | 2%nat => 6.67430e-11
  | 3%nat => 8.8541878128e-12
  | _ => 1 / of_Z (Z.of_nat i + 1)
  end%float.

(** The representation invariant of a [Universe] object: the counters are
    [int]s that agree with the blocks they describe, the times are [long]s
    and the spacetime block holds its four coordinates. *)
Record well_formed (u : Universe) : Prop := {
  wf_numConstants : numConstants u = Z.of_nat (length (physicalConstants u));
  wf_numConstants_int : numConstants u <= INT_MAX;
  wf_spacetime : length (spacetime u) = 4%nat;
  wf_numEntities : numEntities u = Z.of_nat (length (consciousEntities u));
  wf_numEntities_int : numEntities u <= INT_MAX;
  wf_totalLifespanDays : LONG_MIN <= totalLifespanDays u <= LONG_MAX;
  wf_creationTime : LONG_MIN <= creationTime u <= LONG_MAX
}.

(** The object [divineMiracle] builds from the object [src]. *)
Definition miracle_of (src : Universe) : Universe :=
  {| physicalConstants := physicalConstants src; numConstants := numConstants src;
     matter := matter src; energy := energy src; spacetime := spacetime src;
     consciousEntities := []; numEntities := 0;
     naturalLaws_evolve := naturalLaws_evolve src;
     creationTime := creationTime src;
     totalLifespanDays := totalLifespanDays src;
     entropyLevel := (entropyLevel src * 0.9)%float;
     maxEntropy := maxEntropy src |}.

(** The machine after a granted [divineMiracle] on the object [W]. *)
Definition after_miracle (W : Universe) (m : machine) : machine :=
  {| heap := <[fresh (dom (heap m)) := miracle_of W]> (heap m);
     outcomes := drop 5 (outcomes m);
     clock := clock m |}.

(** [needle] occurs in [haystack]. *)
Definition contains (haystack needle : string) : Prop :=
  exists before after : string, haystack = (before ++ needle ++ after)%string.

(** The object a granted [divinePrayerResponse] builds from [W]. *)
Definition answer_of (prayer : string) (W : Universe) : Universe :=
  let nu := set_totalLifespanDays (totalLifespanDays W + 1) (miracle_of W) in
  match strstr prayer "guide me" with
  | Some _ => set_entropyLevel (entropyLevel nu * 0.99)%float nu
  | None => nu
  end.

(** The entity built for [name] in a registry of [count] entities. *)
Definition entity_of (name : string) (count : Z) : ConsciousEntity :=
  {| consciousness := 1; freeWill := 1; name := name;
     makeChoice := fn_entityMakeChoice; formPrayer_ptr := fn_formPrayer;
     uniqueId := count + 1 |}.

(** The universe [W] after the entity [e] is appended to its registry. *)
Definition appended (e : ConsciousEntity) (W : Universe) : Universe :=
  set_entities (consciousEntities W ++ [e]) (numEntities W + 1) W.

(** The machine after a successful [createConsciousEntity]. *)
Definition after_create (pu : addr) (name : string) (W : Universe) (m : machine) : machine :=
  {| heap := <[pu := appended (entity_of name (numEntities W)) W]> (heap m);
     outcomes := drop 5 (outcomes m);
     clock := clock m |}.

(** The computation [c] never changes the object [W] at [q]. *)
Definition keeps {A} (q : addr) (W : Universe) (c : M A) : Prop :=
  forall m a m', c m = Some (a, m') -> heap m !! q = Some W -> heap m' !! q = Some W.

(** The computation [c] never changes the heap. *)
Definition silent {A} (c : M A) : Prop :=
  forall m a m', c m = Some (a, m') -> heap m' = heap m.

(** The computation [c] leaves the heap as it was whenever it returns NULL. *)
Definition silent_on_null {A} (c : M (option A)) : Prop :=
  forall m m', c m = Some (None, m') -> heap m' = heap m.

(** Every live object is well formed. *)
Definition heap_wf (m : machine) : Prop :=
  forall (p : addr) (u : Universe), heap m !! p = Some u -> well_formed u.

(** The object [divineCompletion] builds from the object [W]. *)
Definition completion_of (W : Universe) : Universe :=
  set_entropyLevel (maxEntropy W) (miracle_of W).

(** The text [formPrayer] writes for the entity [e]. *)
Definition prayer_of (e : ConsciousEntity) : string :=
  ("Prayer from " ++ name e ++ ": Please guide me.")%string.

(** A machine in good order: its clock is a [time_t] value and every
    live object is well formed. *)
Definition machine_wf (m : machine) : Prop :=
  LONG_MIN <= clock m <= LONG_MAX /\ heap_wf m.

(** The computation [c] keeps machines in good order. *)
Definition preserves_wf {A} (c : M A) : Prop :=
  forall m a m', c m = Some (a, m') -> machine_wf m -> machine_wf m'.

(** The universe [u] with another block of constants. *)
Definition set_constants (cs : list float) (n : Z) (u : Universe) : Universe :=
  {| physicalConstants := cs; numConstants := n;
     matter := matter u; energy := energy u; spacetime := spacetime u;
     consciousEntities := consciousEntities u; numEntities := numEntities u;
     naturalLaws_evolve := naturalLaws_evolve u; creationTime := creationTime u;
     totalLifespanDays := totalLifespanDays u; entropyLevel := entropyLevel u;
     maxEntropy := maxEntropy u |}.

(** The days remaining that [calculateEndOfWorld] has computed for [u] at
    the time [currentTime] when it reaches its last line, before the
    clamp and the conversion to [long]. *)
Definition days_estimate (u : Universe) (currentTime : Z) : option float :=
  match influence_loop u with
  | Some physicalInfluence =>
      let daysSinceCreation :=
        (difftime currentTime (creationTime u) / of_Z SECONDS_PER_DAY)%float in
      let entropyRatio := (entropyLevel u / maxEntropy u)%float in
      let daysRemaining :=
        fmax 0 (of_Z (totalLifespanDays u) - daysSinceCreation)%float in
      let physicalInfluence := fmod (fabs physicalInfluence) 100 in
      let consciousnessInfluence :=
        fmin 1000 (of_Z (numEntities u) * 0.12345)%float in
      Some (fmax 0 (daysRemaining * (1 - entropyRatio)
                    - physicalInfluence * entropyRatio
                    + consciousnessInfluence)%float)
  | None => None
  end.

(** * Properties *)

(** ** Allocation *)

Lemma granted_S n m :
  granted (S n) m = true ->
  hd true (outcomes m) = true /\ granted n (consume m) = true.
Proof.
  unfold granted, consume. simpl. destruct (outcomes m) as [|b bs]; simpl.
  - intros _. split; [reflexivity|]. now rewrite take_nil.
  - intros H. apply andb_prop in H. exact H.
Qed.

Lemma bind_malloc_granted {A} (size : Z) (k : bool -> M A) (m : machine) :
  size <= PTRDIFF_MAX ->
  hd true (outcomes m) = true ->
  (malloc size ≫= k) m = k true (consume m).
Proof.
  intros Hsize Hhd. unfold mbind, M_bind, malloc.
  destruct (PTRDIFF_MAX <? size) eqn:E; [apply Z.ltb_lt in E; lia|].
  now rewrite Hhd.
Qed.

(** ** The table of constants *)

Section FoldInsert.
Context {A : Type} (f : nat -> A).

Lemma fold_insert_length (idx : list nat) (a : list A) :
  length (fold_left (fun a i => <[i := f i]> a) idx a) = length a.
Proof.
  revert a. induction idx as [|x idx IH]; intros a; simpl; [reflexivity|].
  rewrite IH. apply length_insert.
Qed.

Lemma fold_insert_lookup_notin (idx : list nat) (a : list A) (j : nat) :
  ~ In j idx ->
  fold_left (fun a i => <[i := f i]> a) idx a !! j = a !! j.
Proof.
  revert a. induction idx as [|x idx IH]; intros a Hnin; simpl; [reflexivity|].
  rewrite IH by (intros ?; apply Hnin; now right).
  apply list_lookup_insert_ne. intros ->. apply Hnin. now left.
Qed.

Lemma fold_insert_lookup_in (idx : list nat) (a : list A) (j : nat) :
  In j idx -> (j < length a)%nat ->
  fold_left (fun a i => <[i := f i]> a) idx a !! j = Some (f j).
Proof.
  revert a. induction idx as [|x idx IH]; intros a Hin Hlt; simpl; [destruct Hin|].
  destruct (in_dec Nat.eq_dec j idx) as [Hj|Hj].
  - apply IH; [exact Hj|]. now rewrite length_insert.
  - destruct Hin as [->|Hin]; [|contradiction].
    rewrite fold_insert_lookup_notin by exact Hj.
    now apply list_lookup_insert_eq.
Qed.
End FoldInsert.

Lemma fill_constants_length n a : length (fill_constants n a) = length a.
Proof.
  unfold fill_constants. rewrite fold_insert_length.
  repeat match goal with |- context [if ?c then _ else _] => destruct c end;
    now rewrite ?length_insert.
Qed.

Lemma fill_constants_lookup (n : Z) (a : list float) (i : nat) :
  length a = Z.to_nat n -> (i < Z.to_nat n)%nat ->
  fill_constants n a !! i = Some (constant_at i).
Proof.
  intros Hlen Hi. unfold fill_constants.
  destruct (le_lt_dec 4 i) as [Hge|Hlt].
  - rewrite (fold_insert_lookup_in (fun i => (1 / of_Z (Z.of_nat i + 1))%float)).
    + destruct i as [|[|[|[|i]]]]; try lia. reflexivity.
    + apply in_seq. lia.
    + repeat match goal with |- context [if ?c then _ else _] => destruct c end;
        rewrite ?length_insert; lia.
  - rewrite fold_insert_lookup_notin by (rewrite in_seq; lia).
    destruct i as [|[|[|[|i]]]]; try lia; simpl constant_at.
    + repeat match goal with |- context [if ?c then _ else _] => destruct c end;
        rewrite ?list_lookup_insert_ne by discriminate;
        apply list_lookup_insert_eq; rewrite ?length_insert; lia.
    + destruct (1 <? n) eqn:E1; [|apply Z.ltb_ge in E1; lia].
      repeat match goal with |- context [if ?c then _ else _] => destruct c end;
        rewrite ?list_lookup_insert_ne by discriminate;
        apply list_lookup_insert_eq; rewrite ?length_insert; lia.
    + destruct (2 <? n) eqn:E2; [|apply Z.ltb_ge in E2; lia].
      repeat match goal with |- context [if ?c then _ else _] => destruct c end;
        rewrite ?list_lookup_insert_ne by discriminate;
        apply list_lookup_insert_eq; rewrite ?length_insert; lia.
    + destruct (3 <? n) eqn:E3; [|apply Z.ltb_ge in E3; lia].
      apply list_lookup_insert_eq; rewrite ?length_insert.
      repeat match goal with |- context [if ?c then _ else _] => destruct c end;
        rewrite ?length_insert; lia.
Qed.

(** The content of the fresh block does not show in the result. *)
Lemma fill_constants_init (n : Z) (a b : list float) :
  length a = Z.to_nat n -> length b = Z.to_nat n -> 0 < n ->
  fill_constants n a = fill_constants n b.
Proof.
  intros Ha Hb Hn. apply list_eq. intros i.
  destruct (le_lt_dec (Z.to_nat n) i) as [Hge|Hlt].
  - rewrite !lookup_ge_None_2; rewrite ?fill_constants_length; try lia. reflexivity.
  - now rewrite !fill_constants_lookup.
Qed.

Lemma size_of_doubles (n : Z) :
  0 <= n <= INT_MAX ->
  to_size_t (sizeof_double * to_size_t n) = 8 * n /\ 8 * n <= PTRDIFF_MAX.
Proof.
  unfold to_size_t, sizeof_double, INT_MAX, PTRDIFF_MAX. intros H.
  rewrite (Z.mod_small n) by lia. rewrite Z.mod_small by lia. lia.
Qed.

Lemma divinePhysicalConstants_run (n : Z) (m : machine) :
  0 < n <= INT_MAX -> hd true (outcomes m) = true ->
  divinePhysicalConstants n m
    = Some (Some (fill_constants n (fresh_doubles n)), consume m).
Proof.
  intros Hn Hhd. destruct (size_of_doubles n) as [Hsz Hfit]; [lia|].
  unfold divinePhysicalConstants.
  destruct (n <=? 0) eqn:E; [apply Z.leb_le in E; lia|].
  rewrite bind_malloc_granted by (rewrite ?Hsz; assumption).
  reflexivity.
Qed.

(** C6.  For every count [n > 0] (an [int]) whose block is granted, the
    generator returns a sequence of length exactly [n] that holds the four
    reference constants at the indices 0 to 3 it has and [1/(i+1)] at every
    index [i >= 4]; for every [n <= 0] it returns NULL and requests no
    memory. *)
Theorem divinePhysicalConstants_table :
  (forall (n : Z) (m : machine),
      0 < n <= INT_MAX -> granted 1 m = true ->
      exists constants,
        divinePhysicalConstants n m = Some (Some constants, consume m) /\
        Z.of_nat (length constants) = n /\
        (forall i : nat, Z.of_nat i < n ->
           constants !! i =
             Some (match i with
                   | 0%nat => 299792458
                   | 1%nat => 6.62607015e-34
                   | 2%nat => 6.67430e-11
                   | 3%nat => 8.8541878128e-12
                   | _ => 1 / of_Z (Z.of_nat i + 1)
                   end)%float)) /\
  (forall (n : Z) (m : machine),
      n <= 0 -> divinePhysicalConstants n m = Some (None, m)).
Proof.
  split.
  - intros n m Hn Hg. apply granted_S in Hg as [Hhd _].
    exists (fill_constants n (fresh_doubles n)).
    split; [now apply divinePhysicalConstants_run|]. split.
    + rewrite fill_constants_length. unfold fresh_doubles.
      rewrite length_replicate. lia.
    + intros i Hi. apply fill_constants_lookup; [|lia].
      unfold fresh_doubles. apply length_replicate.
  - intros n m Hn. unfold divinePhysicalConstants.
    destruct (n <=? 0) eqn:E; [reflexivity|apply Z.leb_gt in E; lia].
Qed.

Lemma divinePhysicalConstants_table_witness :
  (exists constants,
     divinePhysicalConstants 30 {| heap := ∅; outcomes := [true]; clock := 0 |}
       = Some (Some constants, {| heap := ∅; outcomes := []; clock := 0 |}) /\
     Z.of_nat (length constants) = 30 /\
     constants !! 4%nat = Some (1 / 5)%float) /\
  divinePhysicalConstants 0 {| heap := ∅; outcomes := [true]; clock := 0 |}
    = Some (None, {| heap := ∅; outcomes := [true]; clock := 0 |}).
Proof.
  pose proof divinePhysicalConstants_table as (Htable & Hnone).
  split.
  - destruct (Htable 30 {| heap := ∅; outcomes := [true]; clock := 0 |})
      as (constants & Hrun & Hlen & Hat).
    + unfold INT_MAX. lia.
    + reflexivity.
    + exists constants. split; [exact Hrun|]. split; [exact Hlen|].
      apply (Hat 4%nat). lia.
  - apply Hnone. lia.
Defined.

Lemma fresh_not_live (m : machine) : heap m !! fresh (dom (heap m)) = None.
Proof. apply not_elem_of_dom. apply is_fresh. Qed.

(** ** divineMiracle *)

Lemma memcpy_doubles_all (src : list float) (n : Z) (m : machine) :
  n = Z.of_nat (length src) -> memcpy_doubles src n m = Some (src, m).
Proof.
  intros ->. unfold memcpy_doubles.
  rewrite (proj2 (Z.leb_le _ _)) by lia. rewrite Z.leb_refl. simpl.
  rewrite Nat2Z.id. now rewrite firstn_all.
Qed.

Lemma bind_load {A} (p : addr) (u : Universe) (k : Universe -> M A) (m : machine) :
  heap m !! p = Some u -> (load p ≫= k) m = k u m.
Proof. intros H. unfold mbind, M_bind, load. now rewrite H. Qed.

Lemma bind_memcpy_all {A} (src : list float) (n : Z) (k : list float -> M A) (m : machine) :
  n = Z.of_nat (length src) -> (memcpy_doubles src n ≫= k) m = k src m.
Proof. intros H. unfold mbind, M_bind. now rewrite memcpy_doubles_all. Qed.

Lemma divineMiracle_granted (m : machine) (pu : addr) (W : Universe) (t : option TimePoint) :
  heap m !! pu = Some W -> well_formed W -> granted 5 m = true ->
  divineMiracle (Some pu) t m =
    (new_object (miracle_of W) ≫= (fun p => mret (Some p)))
      (consume (consume (consume (consume (consume m))))).
Proof.
  intros Hpu Hwf Hg.
  apply granted_S in Hg as [H1 Hg]. apply granted_S in Hg as [H2 Hg].
  apply granted_S in Hg as [H3 Hg]. apply granted_S in Hg as [H4 Hg].
  apply granted_S in Hg as [H5 _].
  destruct (size_of_doubles (numConstants W)) as [Hsz Hfit].
  { destruct Hwf. lia. }
  unfold divineMiracle.
  rewrite bind_malloc_granted; [|unfold sizeof_Universe, PTRDIFF_MAX; lia|assumption].
  cbn [negb].
  rewrite (bind_load pu W) by assumption.
  rewrite bind_malloc_granted; [|rewrite Hsz; assumption|assumption].
  cbn [negb].
  rewrite bind_memcpy_all by apply Hwf.
  rewrite bind_malloc_granted; [|unfold sizeof_double, PTRDIFF_MAX; lia|assumption].
  cbn [negb].
  rewrite bind_memcpy_all by (now rewrite (wf_spacetime _ Hwf)).
  rewrite bind_malloc_granted; [|unfold sizeof_double, PTRDIFF_MAX; lia|assumption].
  cbn [negb].
  rewrite bind_malloc_granted; [|unfold sizeof_double, PTRDIFF_MAX; lia|assumption].
  cbn [negb].
  reflexivity.
Qed.

Lemma divineMiracle_run (m : machine) (pu : addr) (W : Universe) (t : option TimePoint) :
  heap m !! pu = Some W -> well_formed W -> granted 5 m = true ->
  divineMiracle (Some pu) t m = Some (Some (fresh (dom (heap m))), after_miracle W m).
Proof.
  intros Hpu Hwf Hg. rewrite (divineMiracle_granted m pu W t Hpu Hwf Hg).
  unfold mbind, M_bind, new_object, after_miracle, consume. simpl.
  repeat f_equal. now destruct (outcomes m) as [|? [|? [|? [|? [|? ?]]]]].
Qed.

(** *** Computations that leave the live objects alone *)

Section Keeps.
Context (q : addr) (W : Universe).

Lemma keeps_ret {A} (a : A) : keeps q W (mret a).
Proof. intros m a' m' [= _ <-]. trivial. Qed.

Lemma keeps_undefined {A} : keeps q W (@undefined A).
Proof. intros m a m' [=]. Qed.

Lemma keeps_bind {A B} (c : M A) (k : A -> M B) :
  keeps q W c -> (forall a, keeps q W (k a)) -> keeps q W (c ≫= k).
Proof.
  intros Hc Hk m b m' Hrun Hq. unfold mbind, M_bind in Hrun.
  destruct (c m) as [[a m1]|] eqn:E; [|discriminate].
  eapply Hk; [exact Hrun|]. eapply Hc; eassumption.
Qed.

Lemma keeps_malloc size : keeps q W (malloc size).
Proof.
  intros m a m' Hrun Hq. unfold malloc in Hrun.
  destruct (PTRDIFF_MAX <? size); injection Hrun as _ <-; exact Hq.
Qed.

Lemma keeps_load p : keeps q W (load p).
Proof.
  intros m a m' Hrun Hq. unfold load in Hrun.
  destruct (heap m !! p); [|discriminate]. now injection Hrun as _ <-.
Qed.

Lemma keeps_time : keeps q W time.
Proof. intros m a m' [= _ <-]. trivial. Qed.

Lemma keeps_lift {A} (o : option A) : keeps q W (lift o).
Proof. intros m a m' Hrun Hq. destruct o; [|discriminate]. now injection Hrun as _ <-. Qed.

Lemma keeps_memcpy src n : keeps q W (memcpy_doubles src n).
Proof.
  unfold memcpy_doubles. destruct (_ && _); [apply keeps_ret|apply keeps_undefined].
Qed.

Lemma keeps_long_add a b : keeps q W (long_add a b).
Proof. unfold long_add. destruct (_ && _); [apply keeps_ret|apply keeps_undefined]. Qed.

Lemma keeps_int_add a b : keeps q W (int_add a b).
Proof. unfold int_add. destruct (_ && _); [apply keeps_ret|apply keeps_undefined]. Qed.

Lemma keeps_new_object u : keeps q W (new_object u).
Proof.
  intros m a m' Hrun Hq. unfold new_object in Hrun. injection Hrun as _ <-. simpl.
  rewrite lookup_insert_ne; [exact Hq|].
  intros E. pose proof (fresh_not_live m) as Hf. rewrite E in Hf. congruence.
Qed.

Lemma keeps_store p u : p <> q -> keeps q W (store p u).
Proof.
  intros Hne m a m' Hrun Hq. unfold store in Hrun. injection Hrun as _ <-. simpl.
  now rewrite lookup_insert_ne.
Qed.
End Keeps.

Create HintDb keeps.
#[local] Hint Resolve keeps_ret keeps_undefined keeps_malloc keeps_load keeps_time
  keeps_lift keeps_memcpy keeps_long_add keeps_int_add keeps_new_object : keeps.

Ltac keeps_step :=
  first
    [ apply keeps_bind; [auto with keeps|intros ?]
    | match goal with |- keeps _ _ (if ?b then _ else _) => destruct b end
    | match goal with |- keeps _ _ (match ?o with _ => _ end) => destruct o end
    | solve [auto with keeps] ].

(** Whatever the allocator answers, [divineMiracle] leaves every live
    object as it was. *)
Lemma divineMiracle_keeps (q : addr) (W : Universe) u t : keeps q W (divineMiracle u t).
Proof. unfold divineMiracle. repeat keeps_step. Qed.

(** C1.  On a live, well-formed World State [W] with memory granted,
    [divineMiracle] returns a new object [W'] at an address that was not
    live before: its entropy level is that of [W] multiplied by 0.9, its
    registry is empty, its creation time, lifespan, maximal entropy and
    number of constants are those of [W], its constants are those of [W]
    element for element, and [W] and every other live object are left as
    they were. *)
Theorem divineMiracle_spec
    (m : machine) (pu : addr) (W : Universe) (t : option TimePoint) :
  heap m !! pu = Some W -> well_formed W -> granted 5 m = true ->
  exists (p : addr) (W' : Universe) (m' : machine),
    divineMiracle (Some pu) t m = Some (Some p, m') /\
    heap m !! p = None /\
    heap m' !! p = Some W' /\
    entropyLevel W' = (entropyLevel W * 0.9)%float /\
    consciousEntities W' = [] /\
    numEntities W' = 0 /\
    creationTime W' = creationTime W /\
    totalLifespanDays W' = totalLifespanDays W /\
    maxEntropy W' = maxEntropy W /\
    numConstants W' = numConstants W /\
    (forall i : nat, physicalConstants W' !! i = physicalConstants W !! i) /\
    heap m' !! pu = Some W /\
    (forall q : addr, q <> p -> heap m' !! q = heap m !! q).
Proof.
  intros Hpu Hwf Hg.
  exists (fresh (dom (heap m))), (miracle_of W), (after_miracle W m).
  pose proof (fresh_not_live m) as Hfresh.
  assert (fresh (dom (heap m)) <> pu) as Hne by congruence.
  split; [now apply divineMiracle_run|].
  split; [exact Hfresh|].
  split; [apply lookup_insert_eq|].
  repeat (split; [reflexivity|]).
  split; [simpl; now rewrite lookup_insert_ne|].
  intros q Hq. simpl. now rewrite lookup_insert_ne.
Qed.

Lemma divineMiracle_spec_witness :
  exists (p : addr) (W' : Universe) (m' : machine),
    divineMiracle (Some 1%positive) None (world_of (created_universe 0) 0)
      = Some (Some p, m') /\
    heap m' !! p = Some W' /\
    entropyLevel W' = (0.618 * 0.9)%float /\
    consciousEntities W' = [] /\
    heap m' !! 1%positive = Some (created_universe 0).
Proof.
  destruct (divineMiracle_spec (world_of (created_universe 0) 0) 1%positive
              (created_universe 0) None)
    as (p & W' & m' & Hrun & _ & Hnew & Hlevel & Hreg & _ & _ & _ & _ & _ & _ & Hold & _).
  - reflexivity.
  - constructor; simpl; try reflexivity; unfold INT_MAX, LONG_MIN, LONG_MAX; lia.
  - reflexivity.
  - exists p, W', m'.
    split; [exact Hrun|]. split; [exact Hnew|]. split; [exact Hlevel|].
    split; [exact Hreg|exact Hold].
Defined.

(** ** Substrings *)

Lemma append_String (c : ascii) (s t : string) :
  (String c s ++ t)%string = String c (s ++ t)%string.
Proof. reflexivity. Qed.

Lemma append_assoc (s t r : string) :
  ((s ++ t) ++ r)%string = (s ++ (t ++ r))%string.
Proof.
  induction s as [|c s IH]; [reflexivity|].
  rewrite !append_String. now rewrite IH.
Qed.

Lemma prefix_true_iff (s1 s2 : string) :
  String.prefix s1 s2 = true <-> exists rest, s2 = (s1 ++ rest)%string.
Proof.
  revert s2. induction s1 as [|c s1 IH]; intros s2.
  - split; [intros _; now exists s2|intros _; now destruct s2].
  - destruct s2 as [|c2 s2]; simpl; [split; [discriminate|intros [? [=]]]|].
    destruct (Ascii.ascii_dec c c2) as [->|Hne].
    + rewrite IH. split; intros [rest H]; exists rest; rewrite append_String in *;
        congruence.
    + split; [discriminate|intros [? H]; rewrite append_String in H; congruence].
Qed.

Lemma strstr_unfold (haystack needle : string) :
  strstr haystack needle =
    if String.prefix needle haystack then Some haystack
    else match haystack with
         | EmptyString => None
         | String _ rest => strstr rest needle
         end.
Proof. now destruct haystack. Qed.

Lemma strstr_Some (haystack needle : string) :
  contains haystack needle -> exists found, strstr haystack needle = Some found.
Proof.
  intros (before & after & ->).
  induction before as [|c before IH]; rewrite strstr_unfold.
  - assert (String.prefix needle ("" ++ needle ++ after) = true) as ->
      by (apply prefix_true_iff; now exists after).
    eauto.
  - destruct (String.prefix needle (String c before ++ needle ++ after));
      [eauto|exact IH].
Qed.

Lemma strstr_None (haystack needle : string) :
  ~ contains haystack needle -> strstr haystack needle = None.
Proof.
  induction haystack as [|c haystack IH]; intros Hno; rewrite strstr_unfold.
  - destruct (String.prefix needle "") eqn:Hp; [|reflexivity].
    apply prefix_true_iff in Hp as [rest Hrest]. exfalso. apply Hno.
    exists ""%string, rest. exact Hrest.
  - destruct (String.prefix needle (String c haystack)) eqn:Hp.
    + apply prefix_true_iff in Hp as [rest Hrest]. exfalso. apply Hno.
      exists ""%string, rest. exact Hrest.
    + apply IH. intros (before & after & ->). apply Hno.
      now exists (String c before), after.
Qed.

(** ** divineCompletion and divinePrayerResponse *)

Lemma bind_run {A B} (c : M A) (k : A -> M B) (m m1 : machine) (a : A) :
  c m = Some (a, m1) -> (c ≫= k) m = k a m1.
Proof. intros H. unfold mbind, M_bind. now rewrite H. Qed.

Lemma bind_long_add {A} (a b : Z) (k : Z -> M A) (m : machine) :
  LONG_MIN <= a + b <= LONG_MAX -> (long_add a b ≫= k) m = k (a + b) m.
Proof.
  intros H. unfold long_add.
  rewrite (proj2 (Z.leb_le _ _)) by lia. rewrite (proj2 (Z.leb_le _ _)) by lia.
  reflexivity.
Qed.

Lemma after_miracle_new (W : Universe) (m : machine) :
  heap (after_miracle W m) !! fresh (dom (heap m)) = Some (miracle_of W).
Proof. apply lookup_insert_eq. Qed.

(** C5.  On a live, well-formed World State [W] with memory granted,
    [divineCompletion] returns a new object whose entropy level is its
    own maximal entropy, which is that of [W], whatever the entropy level
    of [W] was; [W] is left as it was. *)
Theorem divineCompletion_saturates (m : machine) (pu : addr) (W : Universe) :
  heap m !! pu = Some W -> well_formed W -> granted 5 m = true ->
  exists (p : addr) (W' : Universe) (m' : machine),
    divineCompletion (Some pu) m = Some (Some p, m') /\
    heap m' !! p = Some W' /\
    entropyLevel W' = maxEntropy W' /\
    maxEntropy W' = maxEntropy W /\
    heap m' !! pu = Some W.
Proof.
  intros Hpu Hwf Hg.
  pose proof (fresh_not_live m) as Hfresh.
  assert (fresh (dom (heap m)) <> pu) as Hne by congruence.
  eexists _, _, _. unfold divineCompletion.
  rewrite (bind_run _ _ _ _ _ (divineMiracle_run m pu W None Hpu Hwf Hg)).
  rewrite (bind_load _ _ _ _ (after_miracle_new W m)).
  unfold store, mbind, M_bind, mret, M_ret.
  split; [reflexivity|]. simpl.
  split; [apply lookup_insert_eq|].
  split; [reflexivity|]. split; [reflexivity|].
  now rewrite !lookup_insert_ne.
Qed.

Lemma divineCompletion_saturates_witness :
  exists (p : addr) (W' : Universe) (m' : machine),
    divineCompletion (Some 1%positive) (world_of (created_universe 0) 0)
      = Some (Some p, m') /\
    heap m' !! p = Some W' /\
    entropyLevel W' = maxEntropy W' /\
    maxEntropy W' = 1%float.
Proof.
  destruct (divineCompletion_saturates (world_of (created_universe 0) 0) 1%positive
              (created_universe 0))
    as (p & W' & m' & Hrun & Hnew & Hlevel & Hmax & _).
  - reflexivity.
  - constructor; simpl; try reflexivity; unfold INT_MAX, LONG_MIN, LONG_MAX; lia.
  - reflexivity.
  - exists p, W', m'.
    split; [exact Hrun|]. split; [exact Hnew|]. split; [exact Hlevel|exact Hmax].
Defined.

Lemma divinePrayerResponse_run
    (m : machine) (pu : addr) (W : Universe) (e : ConsciousEntity) (prayer : string) :
  heap m !! pu = Some W -> well_formed W -> granted 5 m = true ->
  totalLifespanDays W < LONG_MAX ->
  divinePrayerResponse (Some e) (Some prayer) (Some pu) m =
    Some (Some (fresh (dom (heap m))),
          {| heap := <[fresh (dom (heap m)) := answer_of prayer W]>
                       (heap (after_miracle W m));
             outcomes := drop 5 (outcomes m);
             clock := clock m |}).
Proof.
  intros Hpu Hwf Hg Hdays. unfold divinePrayerResponse.
  rewrite (bind_run _ _ _ _ _ (divineMiracle_run m pu W None Hpu Hwf Hg)).
  rewrite (bind_load _ _ _ _ (after_miracle_new W m)).
  rewrite bind_long_add
    by (pose proof (wf_totalLifespanDays _ Hwf); simpl; unfold LONG_MAX in *; lia).
  reflexivity.
Qed.

(** C3.  On a live, well-formed World State [W] whose lifespan is below
    [LONG_MAX], with a non-null entity, a non-null message and memory
    granted, [divinePrayerResponse] returns a new object whose lifespan is
    that of [W] plus 1 and whose entropy level is that of [W] multiplied
    by 0.9 and then by 0.99 when the message contains "guide me", and
    multiplied by 0.9 only when it does not. *)
Theorem divinePrayerResponse_spec
    (m : machine) (pu : addr) (W : Universe) (e : ConsciousEntity) (prayer : string) :
  heap m !! pu = Some W -> well_formed W -> granted 5 m = true ->
  totalLifespanDays W < LONG_MAX ->
  exists (p : addr) (W' : Universe) (m' : machine),
    divinePrayerResponse (Some e) (Some prayer) (Some pu) m = Some (Some p, m') /\
    heap m' !! p = Some W' /\
    totalLifespanDays W' = totalLifespanDays W + 1 /\
    (contains prayer "guide me" ->
       entropyLevel W' = (entropyLevel W * 0.9 * 0.99)%float) /\
    (~ contains prayer "guide me" ->
       entropyLevel W' = (entropyLevel W * 0.9)%float).
Proof.
  intros Hpu Hwf Hg Hdays.
  exists (fresh (dom (heap m))), (answer_of prayer W).
  eexists. split; [exact (divinePrayerResponse_run m pu W e prayer Hpu Hwf Hg Hdays)|].
  simpl.
  split; [apply lookup_insert_eq|]. unfold answer_of.
  split; [|split].
  - now destruct (strstr prayer "guide me").
  - intros Hin. apply strstr_Some in Hin as [found ->]. reflexivity.
  - intros Hout. now rewrite (strstr_None _ _ Hout).
Qed.

Lemma created_universe_well_formed (now : Z) :
  LONG_MIN <= now <= LONG_MAX -> well_formed (created_universe now).
Proof.
  intros Hnow. constructor; simpl; try reflexivity; try exact Hnow;
    unfold INT_MAX, LONG_MIN, LONG_MAX; lia.
Qed.

Lemma divinePrayerResponse_spec_witness :
  exists (p : addr) (W' : Universe) (m' : machine),
    divinePrayerResponse (Some human1) (Some "please guide me"%string) (Some 1%positive)
      (world_of (created_universe 0) 0) = Some (Some p, m') /\
    heap m' !! p = Some W' /\
    totalLifespanDays W' = 1825001 /\
    entropyLevel W' = (0.618 * 0.9 * 0.99)%float.
Proof.
  destruct (divinePrayerResponse_spec (world_of (created_universe 0) 0) 1%positive
              (created_universe 0) human1 "please guide me")
    as (p & W' & m' & Hrun & Hnew & Hdays & Hguide & _).
  - reflexivity.
  - apply created_universe_well_formed. unfold LONG_MIN, LONG_MAX. lia.
  - reflexivity.
  - unfold LONG_MAX. simpl. lia.
  - exists p, W', m'.
    split; [exact Hrun|]. split; [exact Hnew|]. split; [exact Hdays|].
    apply Hguide. now exists "please "%string, ""%string.
Defined.

(** The claim of C3 as worded fails at the largest lifespan: the
    increment overflows [long] and the call has no defined result. *)
Lemma divinePrayerResponse_lifespan_overflow :
  let W := set_totalLifespanDays LONG_MAX (created_universe 0) in
  let m := world_of W 0 in
  heap m !! 1%positive = Some W /\ well_formed W /\ granted 5 m = true /\
  ~ exists (p : addr) (W' : Universe) (m' : machine),
      divinePrayerResponse (Some human1) (Some "please guide me"%string)
        (Some 1%positive) m = Some (Some p, m') /\
      heap m' !! p = Some W' /\
      totalLifespanDays W' = totalLifespanDays W + 1.
Proof.
  intros W m. split; [reflexivity|]. split.
  - constructor; simpl; try reflexivity; unfold INT_MAX, LONG_MIN, LONG_MAX; lia.
  - split; [reflexivity|]. intros (p & W' & m' & Hrun & _).
    vm_compute in Hrun. discriminate.
Qed.

(** ** createConsciousEntity *)

Lemma bind_inv {A B} (c : M A) (k : A -> M B) (m : machine) (r : B * machine) :
  (c ≫= k) m = Some r -> exists a m1, c m = Some (a, m1) /\ k a m1 = Some r.
Proof.
  unfold mbind, M_bind. destruct (c m) as [[a m1]|]; [eauto|discriminate].
Qed.

Lemma bind_malloc_checked {A} (size : Z) (k : M (option A)) (m m' : machine) (a : A) :
  (malloc size ≫= fun ok => if negb ok then mret None else k) m = Some (Some a, m') ->
  hd true (outcomes m) = true /\ size <= PTRDIFF_MAX /\ k (consume m) = Some (Some a, m').
Proof.
  unfold mbind, M_bind, malloc.
  destruct (PTRDIFF_MAX <? size) eqn:E; [discriminate|]. apply Z.ltb_ge in E.
  destruct (hd true (outcomes m)); [auto|discriminate].
Qed.

Lemma bind_int_add {A} (a b : Z) (k : Z -> M A) (m : machine) :
  INT_MIN <= a + b <= INT_MAX -> (int_add a b ≫= k) m = k (a + b) m.
Proof.
  intros H. unfold int_add.
  rewrite (proj2 (Z.leb_le _ _)) by lia. rewrite (proj2 (Z.leb_le _ _)) by lia.
  reflexivity.
Qed.

Lemma bind_int_add_inv {A} (a b : Z) (k : Z -> M A) (m : machine) (r : A * machine) :
  (int_add a b ≫= k) m = Some r -> INT_MIN <= a + b <= INT_MAX /\ k (a + b) m = Some r.
Proof.
  unfold int_add.
  destruct (INT_MIN <=? a + b) eqn:E1; [|discriminate].
  destruct (a + b <=? INT_MAX) eqn:E2; [|discriminate].
  apply Z.leb_le in E1, E2. simpl. auto.
Qed.

Lemma bind_append_slot {A} (W : Universe) (e : ConsciousEntity)
    (k : list ConsciousEntity -> M A) (m : machine) :
  well_formed W ->
  (append_slot (consciousEntities W) (numEntities W) e ≫= k) m
    = k (consciousEntities W ++ [e]) m.
Proof.
  intros Hwf. unfold append_slot. rewrite (wf_numEntities _ Hwf).
  rewrite (proj2 (Z.leb_le _ _)) by lia. rewrite Z.leb_refl. simpl.
  rewrite Nat2Z.id. now rewrite firstn_all.
Qed.

Lemma size_of_slots (n : Z) :
  0 <= n <= INT_MAX ->
  to_size_t (to_size_t n * sizeof_pointer) = 8 * n /\ 8 * n <= PTRDIFF_MAX.
Proof.
  unfold to_size_t, sizeof_pointer, INT_MAX, PTRDIFF_MAX. intros H.
  rewrite (Z.mod_small n) by lia. rewrite Z.mod_small by lia. lia.
Qed.

Lemma drop_5_consume (m : machine) :
  outcomes (consume (consume (consume (consume (consume m))))) = drop 5 (outcomes m).
Proof. simpl. now destruct (outcomes m) as [|? [|? [|? [|? [|? ?]]]]]. Qed.

(** With memory granted, a short enough name and room in the counter,
    the entity is created and appended. *)
Lemma createConsciousEntity_run
    (m : machine) (pu : addr) (W : Universe) (g : God) (name : string) :
  heap m !! pu = Some W -> well_formed W -> granted 5 m = true ->
  strlen name < MAX_NAME_LENGTH -> numEntities W < INT_MAX ->
  createConsciousEntity (Some g) (Some pu) (Some name) m =
    Some (Some (entity_of name (numEntities W)), after_create pu name W m).
Proof.
  intros Hpu Hwf Hg Hname Hroom.
  apply granted_S in Hg as [H1 Hg]. apply granted_S in Hg as [H2 Hg].
  apply granted_S in Hg as [H3 Hg]. apply granted_S in Hg as [H4 Hg].
  apply granted_S in Hg as [H5 _].
  pose proof (wf_numEntities _ Hwf) as Hcount.
  assert (INT_MIN <= numEntities W + 1 <= INT_MAX) as Hin
    by (unfold INT_MIN, INT_MAX in *; lia).
  destruct (size_of_slots (numEntities W + 1)) as [Hsz Hfit];
    [unfold INT_MAX in *; lia|].
  unfold createConsciousEntity.
  rewrite (proj2 (Z.leb_gt _ _)) by lia.
  rewrite bind_malloc_granted;
    [|unfold sizeof_ConsciousEntity, PTRDIFF_MAX; lia|assumption].
  cbn [negb].
  rewrite bind_malloc_granted; [|unfold sizeof_double, PTRDIFF_MAX; lia|assumption].
  cbn [negb].
  rewrite bind_malloc_granted; [|unfold sizeof_double, PTRDIFF_MAX; lia|assumption].
  cbn [negb].
  rewrite bind_malloc_granted;
    [|unfold MAX_NAME_LENGTH, PTRDIFF_MAX in *; lia|assumption].
  cbn [negb].
  rewrite (bind_load pu W) by assumption.
  rewrite bind_int_add by assumption. rewrite bind_int_add by assumption.
  unfold realloc.
  rewrite bind_malloc_granted; [|rewrite Hsz; assumption|assumption].
  cbn [negb].
  rewrite bind_append_slot by assumption.
  rewrite bind_int_add by assumption.
  unfold store, mbind, M_bind, mret, M_ret, after_create.
  rewrite drop_5_consume. reflexivity.
Qed.

(** Every call that returns an entity has taken that path. *)
Lemma createConsciousEntity_inv
    (m m' : machine) (pu : addr) (W : Universe) (creator : option God)
    (name : string) (e : ConsciousEntity) :
  heap m !! pu = Some W -> well_formed W ->
  createConsciousEntity creator (Some pu) (Some name) m = Some (Some e, m') ->
  e = entity_of name (numEntities W) /\ m' = after_create pu name W m /\
  numEntities W < INT_MAX /\ strlen name < MAX_NAME_LENGTH.
Proof.
  intros Hpu Hwf Hrun. unfold createConsciousEntity in Hrun.
  destruct creator as [g|]; [|discriminate].
  destruct (MAX_NAME_LENGTH <=? strlen name) eqn:Hname; [discriminate|].
  apply Z.leb_gt in Hname.
  apply bind_malloc_checked in Hrun as (_ & _ & Hrun).
  apply bind_malloc_checked in Hrun as (_ & _ & Hrun).
  apply bind_malloc_checked in Hrun as (_ & _ & Hrun).
  apply bind_malloc_checked in Hrun as (_ & _ & Hrun).
  rewrite (bind_load pu W) in Hrun by assumption.
  apply bind_int_add_inv in Hrun as [Hin Hrun].
  apply bind_int_add_inv in Hrun as [_ Hrun].
  unfold realloc in Hrun.
  apply bind_malloc_checked in Hrun as (_ & _ & Hrun).
  rewrite bind_append_slot in Hrun by assumption.
  apply bind_int_add_inv in Hrun as [_ Hrun].
  unfold store, mbind, M_bind, mret, M_ret in Hrun.
  injection Hrun as <- <-.
  split; [reflexivity|]. split; [|split; [lia|assumption]].
  unfold after_create. rewrite <- drop_5_consume. reflexivity.
Qed.

Lemma appended_well_formed (e : ConsciousEntity) (W : Universe) :
  well_formed W -> numEntities W < INT_MAX -> well_formed (appended e W).
Proof.
  intros [] Hroom. constructor; simpl; try assumption.
  - rewrite length_app. simpl. lia.
  - lia.
Qed.

Lemma after_create_lookup (pu : addr) (name : string) (W : Universe) (m : machine) :
  heap (after_create pu name W m) !! pu
    = Some (appended (entity_of name (numEntities W)) W).
Proof. apply lookup_insert_eq. Qed.

Lemma granted_add (a b : nat) (m : machine) :
  granted (a + b) m = true ->
  granted a m = true /\
  granted b {| heap := heap m; outcomes := drop a (outcomes m); clock := clock m |} = true.
Proof.
  unfold granted. simpl. rewrite <- take_take_drop, forallb_app.
  intros H. apply andb_prop in H. exact H.
Qed.

(** Every run of [create_all] in which each call returned an entity has
    numbered the entities consecutively, after those already present. *)
Lemma create_all_ids (creator : option God) (pu : addr) (names : list string) :
  forall (m m' : machine) (W : Universe) (ents : list ConsciousEntity),
    heap m !! pu = Some W -> well_formed W ->
    create_all creator pu names m = Some (Some <$> ents, m') ->
    uniqueId <$> ents = seqZ (numEntities W + 1) (Z.of_nat (length names)) /\
    exists W', heap m' !! pu = Some W' /\ well_formed W' /\
               consciousEntities W' = consciousEntities W ++ ents.
Proof.
  induction names as [|name names IH]; intros m m' W ents Hpu Hwf Hrun.
  - injection Hrun as Hents <-. symmetry in Hents. apply fmap_nil_inv in Hents as ->.
    split; [reflexivity|]. exists W. now rewrite app_nil_r.
  - unfold create_all in Hrun. simpl in Hrun.
    apply bind_inv in Hrun as (y & m1 & Hfirst & Hrun).
    apply bind_inv in Hrun as (k & m2 & Hrest & Hrun).
    injection Hrun as Hents <-.
    destruct ents as [|e ents]; [discriminate|].
    injection Hents as -> ->.
    apply (createConsciousEntity_inv _ _ _ W) in Hfirst as (-> & -> & Hroom & _);
      [|assumption..].
    destruct (IH _ _ (appended (entity_of name (numEntities W)) W) ents
                (after_create_lookup _ _ _ _)
                (appended_well_formed _ _ Hwf Hroom) Hrest)
      as (Hids & W' & Hpu' & Hwf' & Hreg).
    split.
    + rewrite fmap_cons, Hids. simpl.
      rewrite (seqZ_cons (numEntities W + 1)) by lia.
      f_equal. f_equal; lia.
    + exists W'. split; [exact Hpu'|]. split; [exact Hwf'|].
      rewrite Hreg. simpl. now rewrite <- app_assoc.
Qed.

(** With memory granted, short names and room in the counter, every call
    of [create_all] returns an entity. *)
Lemma create_all_run (g : God) (pu : addr) (names : list string) :
  forall (m : machine) (W : Universe),
    heap m !! pu = Some W -> well_formed W ->
    Forall (fun name => strlen name < MAX_NAME_LENGTH) names ->
    numEntities W + Z.of_nat (length names) <= INT_MAX ->
    granted (5 * length names) m = true ->
    exists (ents : list ConsciousEntity) (m' : machine),
      create_all (Some g) pu names m = Some (Some <$> ents, m').
Proof.
  induction names as [|name names IH]; intros m W Hpu Hwf Hnames Hroom Hg.
  - exists [], m. reflexivity.
  - apply Forall_cons in Hnames as [Hname Hnames].
    simpl length in *.
    replace (5 * S (length names))%nat with (5 + 5 * length names)%nat in Hg by lia.
    apply granted_add in Hg as [Hg5 Hg].
    assert (numEntities W < INT_MAX) as Hlt by lia.
    destruct (IH (after_create pu name W m)
                (appended (entity_of name (numEntities W)) W)
                (after_create_lookup _ _ _ _)
                (appended_well_formed _ _ Hwf Hlt) Hnames)
      as (ents & m' & Hrest).
    + simpl. lia.
    + exact Hg.
    + exists (entity_of name (numEntities W) :: ents), m'.
      unfold create_all. simpl.
      rewrite (bind_run _ _ _ _ _
                 (createConsciousEntity_run m pu W g name Hpu Hwf Hg5 Hname Hlt)).
      unfold create_all in Hrest.
      rewrite (bind_run _ _ _ _ _ Hrest). reflexivity.
Qed.

(** *** Failing calls leave the heap alone *)

Lemma silent_malloc size : silent (malloc size).
Proof.
  intros m a m' Hrun. unfold malloc in Hrun.
  destruct (PTRDIFF_MAX <? size); now injection Hrun as _ <-.
Qed.

Lemma silent_load p : silent (load p).
Proof.
  intros m a m' Hrun. unfold load in Hrun.
  destruct (heap m !! p); [|discriminate]. now injection Hrun as _ <-.
Qed.

Lemma silent_int_add a b : silent (int_add a b).
Proof.
  intros m r m' Hrun. unfold int_add in Hrun.
  destruct (_ && _); [|discriminate]. now injection Hrun as _ <-.
Qed.

Lemma silent_append_slot es n e : silent (append_slot es n e).
Proof.
  intros m r m' Hrun. unfold append_slot in Hrun.
  destruct (_ && _); [|discriminate]. now injection Hrun as _ <-.
Qed.

Lemma silent_on_null_ret_None {A} : silent_on_null (mret (@None A)).
Proof. now intros m m' [= <-]. Qed.

Lemma silent_on_null_bind {A B} (c : M A) (k : A -> M (option B)) :
  silent c -> (forall a, silent_on_null (k a)) -> silent_on_null (c ≫= k).
Proof.
  intros Hc Hk m m' Hrun. apply bind_inv in Hrun as (a & m1 & Hfirst & Hrest).
  rewrite (Hk _ _ _ Hrest). exact (Hc _ _ _ Hfirst).
Qed.

(** Whenever [createConsciousEntity] returns NULL, for whatever reason,
    every universe and its registry are as they were. *)
Lemma createConsciousEntity_failure_silent creator universe name :
  silent_on_null (createConsciousEntity creator universe name).
Proof.
  unfold createConsciousEntity.
  destruct creator as [g|], universe as [pu|], name as [name|];
    try apply silent_on_null_ret_None.
  destruct (MAX_NAME_LENGTH <=? strlen name); [apply silent_on_null_ret_None|].
  repeat first
    [ apply silent_on_null_ret_None
    | apply silent_on_null_bind;
        [first [apply silent_malloc|apply silent_load|apply silent_int_add
               |apply silent_append_slot]
        |intros ?]
    | match goal with
      | |- silent_on_null (if ?b then _ else _) => destruct b
      end ].
  intros m m' Hrun. apply bind_inv in Hrun as (? & ? & _ & [=]).
Qed.

(** C9.  Entities appended one after another to a World State with an
    empty registry get the ids 1, 2, ..., k in the order of the calls, the
    registry then holds exactly these entities, and the ids are pairwise
    distinct; each single append gives the id "entities already in the
    registry, plus 1"; and with memory granted, names below the length
    bound and at most [INT_MAX] of them, every one of the calls does
    return its entity. *)
Theorem createConsciousEntity_ids :
  (forall (creator : option God) (pu : addr) (names : list string)
          (m m' : machine) (W : Universe) (ents : list ConsciousEntity),
      heap m !! pu = Some W -> well_formed W -> consciousEntities W = [] ->
      create_all creator pu names m = Some (Some <$> ents, m') ->
      uniqueId <$> ents = seqZ 1 (Z.of_nat (length names)) /\
      NoDup (uniqueId <$> ents) /\
      exists W', heap m' !! pu = Some W' /\ consciousEntities W' = ents) /\
  (forall (creator : option God) (pu : addr) (name : string)
          (m m' : machine) (W : Universe) (e : ConsciousEntity),
      heap m !! pu = Some W -> well_formed W ->
      createConsciousEntity creator (Some pu) (Some name) m = Some (Some e, m') ->
      uniqueId e = Z.of_nat (length (consciousEntities W)) + 1 /\
      exists W', heap m' !! pu = Some W' /\
                 consciousEntities W' = consciousEntities W ++ [e]) /\
  (forall (g : God) (pu : addr) (names : list string) (m : machine) (W : Universe),
      heap m !! pu = Some W -> well_formed W -> consciousEntities W = [] ->
      Forall (fun name => strlen name < MAX_NAME_LENGTH) names ->
      Z.of_nat (length names) <= INT_MAX ->
      granted (5 * length names) m = true ->
      exists (ents : list ConsciousEntity) (m' : machine),
        create_all (Some g) pu names m = Some (Some <$> ents, m')).
Proof.
  split; [|split].
  - intros creator pu names m m' W ents Hpu Hwf Hempty Hrun.
    destruct (create_all_ids creator pu names m m' W ents Hpu Hwf Hrun)
      as (Hids & W' & Hpu' & _ & Hreg).
    pose proof (wf_numEntities _ Hwf) as Hcount. rewrite Hempty in Hcount, Hreg.
    simpl in Hcount, Hreg. rewrite Hcount in Hids. simpl in Hids.
    split; [exact Hids|]. split; [rewrite Hids; apply NoDup_seqZ|].
    exists W'. now split.
  - intros creator pu name m m' W e Hpu Hwf Hrun.
    apply (createConsciousEntity_inv _ _ _ W) in Hrun as (-> & -> & _ & _);
      [|assumption..].
    split; [simpl; now rewrite <- (wf_numEntities _ Hwf)|].
    eexists. split; [apply after_create_lookup|reflexivity].
  - intros g pu names m W Hpu Hwf Hempty Hnames Hk Hg.
    apply (create_all_run g pu names m W); try assumption.
    rewrite (wf_numEntities _ Hwf), Hempty. simpl. lia.
Qed.

Lemma createConsciousEntity_ids_witness :
  exists (ents : list ConsciousEntity) (m' : machine),
    create_all (Some omega) 1%positive ["Human1"; "Human2"; "Human3"]%string
      (world_of (created_universe 0) 0) = Some (Some <$> ents, m') /\
    uniqueId <$> ents = [1; 2; 3].
Proof.
  pose proof createConsciousEntity_ids as (Hids & _ & Hruns).
  assert (well_formed (created_universe 0)) as Hwf
    by (apply created_universe_well_formed; unfold LONG_MIN, LONG_MAX; lia).
  destruct (Hruns omega 1%positive ["Human1"; "Human2"; "Human3"]%string
              (world_of (created_universe 0) 0) (created_universe 0))
    as (ents & m' & Hrun).
  - reflexivity.
  - exact Hwf.
  - reflexivity.
  - repeat constructor.
  - unfold INT_MAX. simpl. lia.
  - reflexivity.
  - exists ents, m'. split; [exact Hrun|].
    destruct (Hids (Some omega) 1%positive ["Human1"; "Human2"; "Human3"]%string
                (world_of (created_universe 0) 0) m' (created_universe 0) ents)
      as (Hseq & _); [reflexivity|exact Hwf|reflexivity|exact Hrun|exact Hseq].
Defined.

(** C10.  [createConsciousEntity] returns NULL when the creator is NULL,
    whatever the universe and the name, and leaves the machine, hence
    every registry, as it was; the creator is what decides: on a live,
    well-formed universe with room in the counter, a name below the length
    bound and memory granted, the same call with a creator returns an
    entity. *)
Theorem createConsciousEntity_null_creator :
  (forall (universe : option addr) (name : option string) (m : machine),
      createConsciousEntity None universe name m = Some (None, m)) /\
  (forall (g : God) (pu : addr) (W : Universe) (name : string) (m : machine),
      heap m !! pu = Some W -> well_formed W -> granted 5 m = true ->
      strlen name < MAX_NAME_LENGTH -> numEntities W < INT_MAX ->
      createConsciousEntity None (Some pu) (Some name) m = Some (None, m) /\
      exists (e : ConsciousEntity) (m' : machine),
        createConsciousEntity (Some g) (Some pu) (Some name) m = Some (Some e, m')).
Proof.
  split.
  - intros universe name m. reflexivity.
  - intros g pu W name m Hpu Hwf Hg Hname Hroom.
    split; [reflexivity|].
    exists (entity_of name (numEntities W)), (after_create pu name W m).
    now apply createConsciousEntity_run.
Qed.

Lemma createConsciousEntity_null_creator_witness :
  createConsciousEntity None (Some 1%positive) (Some "Human1"%string)
    (world_of (created_universe 0) 0)
    = Some (None, world_of (created_universe 0) 0) /\
  exists (e : ConsciousEntity) (m' : machine),
    createConsciousEntity (Some omega) (Some 1%positive) (Some "Human1"%string)
      (world_of (created_universe 0) 0) = Some (Some e, m').
Proof.
  apply (proj2 createConsciousEntity_null_creator omega 1%positive
           (created_universe 0) "Human1"%string (world_of (created_universe 0) 0)).
  - reflexivity.
  - apply created_universe_well_formed. unfold LONG_MIN, LONG_MAX. lia.
  - reflexivity.
  - reflexivity.
  - unfold INT_MAX. simpl. lia.
Defined.

(** C8.  [createConsciousEntity] returns NULL, and leaves the machine
    and so the registry as they were, when the name is NULL and when its
    length is 256 or more; whenever it returns NULL, for whatever reason,
    the heap and so every registry are as they were; an empty name is
    accepted: with memory granted and room in the counter the entity is
    created, with the empty name and the next id, and appended to the
    registry. *)
Theorem createConsciousEntity_name_check :
  (forall (creator : option God) (universe : option addr) (m : machine),
      createConsciousEntity creator universe None m = Some (None, m)) /\
  (forall (creator : option God) (universe : option addr) (name : string)
          (m : machine),
      MAX_NAME_LENGTH <= strlen name ->
      createConsciousEntity creator universe (Some name) m = Some (None, m)) /\
  (forall (creator : option God) (universe : option addr) (name : option string)
          (m m' : machine),
      createConsciousEntity creator universe name m = Some (None, m') ->
      heap m' = heap m) /\
  (forall (g : God) (pu : addr) (W : Universe) (m : machine),
      heap m !! pu = Some W -> well_formed W -> granted 5 m = true ->
      numEntities W < INT_MAX ->
      exists (e : ConsciousEntity) (W' : Universe) (m' : machine),
        createConsciousEntity (Some g) (Some pu) (Some ""%string) m
          = Some (Some e, m') /\
        name e = ""%string /\ uniqueId e = numEntities W + 1 /\
        heap m' !! pu = Some W' /\
        consciousEntities W' = consciousEntities W ++ [e] /\
        numEntities W' = numEntities W + 1).
Proof.
  split; [|split; [|split]].
  - intros [g|] [pu|] m; reflexivity.
  - intros creator universe name m Hlong. unfold createConsciousEntity.
    apply Z.leb_le in Hlong. rewrite Hlong.
    now destruct creator, universe.
  - intros creator universe name m m'.
    apply createConsciousEntity_failure_silent.
  - intros g pu W m Hpu Hwf Hg Hroom.
    exists (entity_of "" (numEntities W)),
           (appended (entity_of "" (numEntities W)) W),
           (after_create pu "" W m).
    split; [apply createConsciousEntity_run; try assumption; reflexivity|].
    split; [reflexivity|]. split; [reflexivity|].
    split; [apply after_create_lookup|]. split; reflexivity.
Qed.

Lemma createConsciousEntity_name_check_witness :
  createConsciousEntity (Some omega) (Some 1%positive)
    (Some (string_of_list_ascii (repeat "a"%char 300)))
    (world_of (created_universe 0) 0)
    = Some (None, world_of (created_universe 0) 0) /\
  exists (e : ConsciousEntity) (m' : machine),
    createConsciousEntity (Some omega) (Some 1%positive) (Some ""%string)
      (world_of (created_universe 0) 0) = Some (Some e, m') /\
    uniqueId e = 1.
Proof.
  pose proof createConsciousEntity_name_check as (_ & Hlong & _ & Hempty).
  split.
  - apply Hlong. vm_compute. discriminate.
  - destruct (Hempty omega 1%positive (created_universe 0)
                (world_of (created_universe 0) 0))
      as (e & W' & m' & Hrun & _ & Hid & _).
    + reflexivity.
    + apply created_universe_well_formed. unfold LONG_MIN, LONG_MAX. lia.
    + reflexivity.
    + unfold INT_MAX. simpl. lia.
    + exists e, m'. split; [exact Hrun|exact Hid].
Defined.

(** The claim of C8 as worded fails for the empty name: the entity is
    created and the registry grows. *)
Lemma createConsciousEntity_empty_name_accepted :
  exists (e : ConsciousEntity) (m' : machine) (W' : Universe),
    createConsciousEntity (Some omega) (Some 1%positive) (Some ""%string)
      (world_of (created_universe 0) 0) = Some (Some e, m') /\
    heap m' !! 1%positive = Some W' /\
    consciousEntities W' = [e] /\ numEntities W' = 1.
Proof. eexists _, _, _. vm_compute. repeat split. Qed.

(** ** Arguments of divinePrayerResponse *)

(** C4.  [divinePrayerResponse] returns NULL, and produces no object,
    whenever the entity, the message or the source universe is NULL; an
    empty message is accepted and answered like any message without
    "guide me". *)
Theorem divinePrayerResponse_null_arguments :
  (forall (pray_er : option ConsciousEntity) (prayer : option string)
          (u : option addr) (m : machine),
      pray_er = None \/ prayer = None \/ u = None ->
      divinePrayerResponse pray_er prayer u m = Some (None, m)) /\
  (forall (m : machine) (pu : addr) (W : Universe) (e : ConsciousEntity),
      heap m !! pu = Some W -> well_formed W -> granted 5 m = true ->
      totalLifespanDays W < LONG_MAX ->
      exists (p : addr) (W' : Universe) (m' : machine),
        divinePrayerResponse (Some e) (Some ""%string) (Some pu) m
          = Some (Some p, m') /\
        heap m !! p = None /\
        heap m' !! p = Some W' /\
        totalLifespanDays W' = totalLifespanDays W + 1 /\
        entropyLevel W' = (entropyLevel W * 0.9)%float).
Proof.
  split.
  - intros pray_er prayer u m [-> | [-> | ->]].
    + reflexivity.
    + now destruct pray_er.
    + now destruct pray_er, prayer.
  - intros m pu W e Hpu Hwf Hg Hdays.
    exists (fresh (dom (heap m))), (answer_of "" W). eexists.
    split; [exact (divinePrayerResponse_run m pu W e "" Hpu Hwf Hg Hdays)|].
    split; [apply fresh_not_live|]. simpl.
    split; [apply lookup_insert_eq|]. split; reflexivity.
Qed.

Lemma divinePrayerResponse_null_arguments_witness :
  divinePrayerResponse None (Some "please guide me"%string) (Some 1%positive)
    (world_of (created_universe 0) 0)
    = Some (None, world_of (created_universe 0) 0) /\
  exists (p : addr) (m' : machine),
    divinePrayerResponse (Some human1) (Some ""%string) (Some 1%positive)
      (world_of (created_universe 0) 0) = Some (Some p, m').
Proof.
  pose proof divinePrayerResponse_null_arguments as (Hnull & Hempty).
  split.
  - apply Hnull. left. reflexivity.
  - destruct (Hempty (world_of (created_universe 0) 0) 1%positive
                (created_universe 0) human1)
      as (p & W' & m' & Hrun & _).
    + reflexivity.
    + apply created_universe_well_formed. unfold LONG_MIN, LONG_MAX. lia.
    + reflexivity.
    + unfold LONG_MAX. simpl. lia.
    + exists p, m'. exact Hrun.
Defined.

(** The claim of C4 as worded fails for the empty message: a new object
    is produced. *)
Lemma divinePrayerResponse_empty_message_accepted :
  exists (m' : machine) (W' : Universe),
    divinePrayerResponse (Some human1) (Some ""%string) (Some 1%positive)
      (world_of (created_universe 0) 0) = Some (Some 2%positive, m') /\
    heap m' !! 2%positive = Some W' /\
    totalLifespanDays W' = 1825001.
Proof. eexists _, _. vm_compute. repeat split. Qed.

(** ** Doubles: not-a-number and the infinities *)

Section Doubles.
Local Open Scope float_scope.

Lemma float_is_nan (x : float) : Prim2SF x = S754_nan -> x = nan.
Proof. intros H. apply Prim2SF_inj. now rewrite H. Qed.

Lemma float_is_infinity (x : float) (s : bool) :
  Prim2SF x = S754_infinity s -> x = if s then neg_infinity else infinity.
Proof. intros H. apply Prim2SF_inj. rewrite H. now destruct s. Qed.

Lemma mul_nan_r (x : float) : x * nan = nan.
Proof.
  apply float_is_nan. rewrite mul_spec. unfold SF64mul.
  change (Prim2SF nan) with S754_nan. now destruct (Prim2SF x).
Qed.

Lemma add_nan_l (x : float) : nan + x = nan.
Proof. apply float_is_nan. rewrite add_spec. reflexivity. Qed.

Lemma mul_infinity_cases (x : float) :
  x * infinity = nan \/ x * infinity = infinity \/ x * infinity = neg_infinity.
Proof.
  pose proof (mul_spec x infinity) as H. unfold SF64mul in H.
  change (Prim2SF infinity) with (S754_infinity false) in H.
  destruct (Prim2SF x) as [s|s| |s mx ex]; simpl in H.
  - left. now apply float_is_nan.
  - right. apply float_is_infinity in H. destruct s; auto.
  - left. now apply float_is_nan.
  - right. apply float_is_infinity in H. destruct s; auto.
Qed.

Lemma add_neg_infinity_cases (x : float) :
  neg_infinity + x = nan \/ neg_infinity + x = neg_infinity.
Proof.
  pose proof (add_spec neg_infinity x) as H. unfold SF64add in H.
  change (Prim2SF neg_infinity) with (S754_infinity true) in H.
  destruct (Prim2SF x) as [s|s| |s mx ex]; simpl in H.
  - right. now apply float_is_infinity in H.
  - destruct s; [right; now apply float_is_infinity in H|left; now apply float_is_nan].
  - left. now apply float_is_nan.
  - right. now apply float_is_infinity in H.
Qed.

(** A double that [fmax 0 _] yields is [+0] or positive. *)
Lemma fmax_zero_cases (x : float) :
  fmax 0 x = 0 \/
  (fmax 0 x = x /\
   exists mx ex, Prim2SF x = S754_infinity false \/ Prim2SF x = S754_finite false mx ex).
Proof.
  unfold fmax. change (is_nan 0) with false. cbv iota.
  destruct (is_nan x); [now left|].
  destruct (0 <? x) eqn:Hlt; [|now left].
  right. split; [reflexivity|].
  rewrite FloatAxioms.ltb_spec in Hlt. change (Prim2SF 0) with (S754_zero false) in Hlt.
  unfold SFltb in Hlt.
  destruct (Prim2SF x) as [s|s| |s mx ex]; simpl in Hlt; try discriminate.
  - destruct s; [discriminate|]. exists 1%positive, 0%Z. now left.
  - destruct s; [discriminate|]. exists mx, ex. now right.
Qed.

Lemma fmax_zero_mul_neg_infinity (x : float) :
  fmax 0 x * neg_infinity = nan \/ fmax 0 x * neg_infinity = neg_infinity.
Proof.
  destruct (fmax_zero_cases x) as [->|[-> (mx & ex & Hx)]]; [now left|].
  right. change neg_infinity with (if true then neg_infinity else infinity) at 2.
  apply float_is_infinity. rewrite mul_spec. unfold SF64mul.
  change (Prim2SF neg_infinity) with (S754_infinity true).
  destruct Hx as [-> | ->]; reflexivity.
Qed.

(** Dividing a non-negative double by [+0]. *)
Lemma div_zero_cases (e : float) :
  (0 <=? e) = true -> e / 0 = nan \/ e / 0 = infinity.
Proof.
  intros Hle. rewrite FloatAxioms.leb_spec in Hle.
  change (Prim2SF 0) with (S754_zero false) in Hle. unfold SFleb in Hle.
  pose proof (div_spec e 0) as H. unfold SF64div in H.
  change (Prim2SF 0) with (S754_zero false) in H.
  destruct (Prim2SF e) as [s|s| |s mx ex]; simpl in H, Hle.
  - left. now apply float_is_nan.
  - destruct s; [discriminate|]. right. now apply float_is_infinity in H.
  - discriminate.
  - destruct s; [discriminate|]. right. now apply float_is_infinity in H.
Qed.
End Doubles.

(** ** calculateEndOfWorld *)

Lemma bind_time {A} (k : Z -> M A) (m : machine) : (time ≫= k) m = k (clock m) m.
Proof. reflexivity. Qed.

Lemma bind_lift {A B} (a : A) (k : A -> M B) (m : machine) :
  (lift (Some a) ≫= k) m = k a m.
Proof. reflexivity. Qed.

Lemma influence_fold_defined (u : Universe) (idx : list nat) :
  Forall (fun i => (i < length (physicalConstants u))%nat) idx ->
  forall acc : float, exists r : float,
    fold_left (influence_step u) idx (Some acc) = Some r.
Proof.
  induction idx as [|i idx IH]; intros Hidx acc; simpl; [eauto|].
  apply Forall_cons in Hidx as [Hi Hidx].
  destruct (lookup_lt_is_Some_2 _ _ Hi) as [c Hc]. rewrite Hc.
  apply IH. exact Hidx.
Qed.

(** In a well-formed universe the loop reads constants the block holds. *)
Lemma influence_loop_defined (u : Universe) :
  well_formed u -> exists r : float, influence_loop u = Some r.
Proof.
  intros Hwf. apply influence_fold_defined. apply Forall_forall.
  intros i Hi. apply elem_of_seq in Hi. pose proof (wf_numConstants _ Hwf). lia.
Qed.

Lemma remaining_at_zero_maxEntropy (x p c e : float) :
  (0 <=? e)%float = true ->
  fmax 0 (fmax 0 x * (1 - e / 0) - p * (e / 0) + c)%float = 0%float.
Proof.
  intros He. destruct (div_zero_cases e He) as [-> | ->].
  - change (1 - nan)%float with nan. rewrite !mul_nan_r.
    change (nan - nan)%float with nan. now rewrite add_nan_l.
  - change (1 - infinity)%float with neg_infinity.
    destruct (fmax_zero_mul_neg_infinity x) as [-> | ->];
      destruct (mul_infinity_cases p) as [-> | [-> | ->]];
      first
        [ rewrite (eq_refl : (nan - nan)%float = nan)
        | rewrite (eq_refl : (nan - infinity)%float = nan)
        | rewrite (eq_refl : (nan - neg_infinity)%float = nan)
        | rewrite (eq_refl : (neg_infinity - nan)%float = nan)
        | rewrite (eq_refl : (neg_infinity - neg_infinity)%float = nan)
        | rewrite (eq_refl : (neg_infinity - infinity)%float = neg_infinity) ];
      rewrite ?add_nan_l; try reflexivity;
      destruct (add_neg_infinity_cases c) as [-> | ->]; reflexivity.
Qed.

(** C7.  For a live, well-formed World State whose maximal entropy is
    (positive) zero and whose entropy level is not negative, the
    calculator does not fail: the entropy ratio is the double NaN or
    +infinity, and the value returned is the number 0. *)
Theorem calculateEndOfWorld_zero_maxEntropy (m : machine) (pu : addr) (W : Universe) :
  heap m !! pu = Some W -> well_formed W ->
  maxEntropy W = 0%float -> (0 <=? entropyLevel W)%float = true ->
  calculateEndOfWorld (Some pu) m = Some (0, m).
Proof.
  intros Hpu Hwf Hmax Hlevel. unfold calculateEndOfWorld.
  rewrite bind_time. rewrite (bind_load pu W) by assumption.
  destruct (influence_loop_defined W Hwf) as [r Hr]. rewrite Hr, bind_lift.
  rewrite Hmax. rewrite remaining_at_zero_maxEntropy by assumption.
  reflexivity.
Qed.

Lemma calculateEndOfWorld_zero_maxEntropy_witness :
  calculateEndOfWorld (Some 1%positive)
    (world_of (set_maxEntropy 0 (created_universe 0)) 0)
    = Some (0, world_of (set_maxEntropy 0 (created_universe 0)) 0).
Proof.
  apply (calculateEndOfWorld_zero_maxEntropy _ _ (set_maxEntropy 0 (created_universe 0))).
  - reflexivity.
  - constructor; simpl; try reflexivity; unfold INT_MAX, LONG_MIN, LONG_MAX; lia.
  - reflexivity.
  - reflexivity.
Defined.

(** The claim of C7 as worded fails: with a maximal entropy of zero the
    calculator returns a number. *)
Lemma calculateEndOfWorld_no_division_error :
  let W := set_maxEntropy 0 (created_universe 0) in
  maxEntropy W = 0%float /\
  exists days : Z, calculateEndOfWorld (Some 1%positive) (world_of W 0)
                   = Some (days, world_of W 0).
Proof. split; [reflexivity|]. exists 0. vm_compute. reflexivity. Qed.

(** The clamp of the calculator: [(double)LONG_MAX] is [2^63], one more
    than [LONG_MAX]. *)
Lemma LONG_MAX_as_double :
  of_Z LONG_MAX = 0x1p+63%float /\ trunc (of_Z LONG_MAX) = Some (LONG_MAX + 1).
Proof. split; reflexivity. Qed.

(** C2.  The World State with entropy level 0, maximal entropy 1, no
    entity, the thirty constants of [divineCreateUniverse] and a lifespan
    of [LONG_MAX] days meets the conditions of the claim; evaluated at its
    creation time, the calculator clamps the days remaining to
    [(double)LONG_MAX], which is [2^63], and the conversion of that double
    to [long] has no defined result: no value in [0, LONG_MAX] is
    returned. *)
Theorem calculateEndOfWorld_clamp_overflows :
  let W := set_totalLifespanDays LONG_MAX (set_entropyLevel 0 (created_universe 0)) in
  well_formed W /\
  (0 <=? entropyLevel W)%float = true /\
  (entropyLevel W <=? maxEntropy W)%float = true /\
  0 <= numEntities W /\
  Forall (fun c => is_finite c = true) (physicalConstants W) /\
  calculateEndOfWorld (Some 1%positive) (world_of W 0) = None /\
  ~ exists (days : Z) (m' : machine),
      calculateEndOfWorld (Some 1%positive) (world_of W 0) = Some (days, m') /\
      0 <= days <= LONG_MAX.
Proof.
  intros W. split.
  { constructor; simpl; try reflexivity; unfold INT_MAX, LONG_MIN, LONG_MAX; lia. }
  split; [reflexivity|]. split; [reflexivity|]. split; [simpl; lia|].
  split; [vm_compute; repeat constructor|].
  assert (calculateEndOfWorld (Some 1%positive) (world_of W 0) = None) as Hrun
    by (vm_compute; reflexivity).
  split; [exact Hrun|]. intros (days & m' & Hsome & _). congruence.
Qed.

(** Every value the calculator returns for a universe lies between 0 and
    [LONG_MAX]; what can go wrong is that the conversion to [long] is not
    defined. *)
Lemma trunc_fmax_zero (x : float) (z : Z) : trunc (fmax 0 x) = Some z -> 0 <= z.
Proof.
  destruct (fmax_zero_cases x) as [->|[-> (mx & ex & [Hx|Hx])]]; unfold trunc.
  - intros [= <-]. lia.
  - now rewrite Hx.
  - rewrite Hx. intros [= <-].
    destruct (0 <=? ex) eqn:Hex.
    + apply Z.mul_nonneg_nonneg; [lia|]. apply Z.pow_nonneg. lia.
    + apply Z.leb_gt in Hex. apply Z.div_pos; [lia|].
      apply Z.pow_pos_nonneg; lia.
Qed.



(** ** The run of [main] *)

Lemma createGod_run (m : machine) :
  granted 6 m = true ->
  exists m', createGod m = Some (Some omega, m') /\ heap m' = heap m.
Proof.
  intros Hg.
  apply granted_S in Hg as [H1 Hg]. apply granted_S in Hg as [H2 Hg].
  apply granted_S in Hg as [H3 Hg]. apply granted_S in Hg as [H4 Hg].
  apply granted_S in Hg as [H5 Hg]. apply granted_S in Hg as [H6 _].
  eexists. unfold createGod.
  rewrite bind_malloc_granted; [|unfold sizeof_God, PTRDIFF_MAX; lia|assumption].
  cbn [negb].
  do 5 (rewrite bind_malloc_granted; [|unfold PTRDIFF_MAX; lia|assumption];
        cbn [negb]).
  split; reflexivity.
Qed.

Lemma divineCreateUniverse_run (m : machine) :
  granted 5 m = true ->
  divineCreateUniverse m =
    Some (Some (fresh (dom (heap m))),
          {| heap := <[fresh (dom (heap m)) := created_universe (clock m)]> (heap m);
             outcomes := drop 5 (outcomes m);
             clock := clock m |}).
Proof.
  intros Hg.
  apply granted_S in Hg as [H1 Hg]. apply granted_S in Hg as [H2 Hg].
  apply granted_S in Hg as [H3 Hg]. apply granted_S in Hg as [H4 Hg].
  apply granted_S in Hg as [H5 _].
  unfold divineCreateUniverse.
  rewrite bind_malloc_granted; [|unfold sizeof_Universe, PTRDIFF_MAX; lia|assumption].
  cbn [negb].
  rewrite (bind_run _ _ _ _ _ (divinePhysicalConstants_run 30 (consume m)
                                 ltac:(unfold INT_MAX; lia) H2)).
  do 3 (rewrite bind_malloc_granted;
          [|unfold sizeof_double, PTRDIFF_MAX; lia|assumption];
        cbn [negb]).
  rewrite bind_time.
  unfold new_object, mbind, M_bind, mret, M_ret. rewrite <- drop_5_consume.
  reflexivity.
Qed.

(** The prayer an entity forms asks for guidance. *)
Lemma formPrayer_asks_guidance (e : ConsciousEntity) (m m' : machine) (prayer : string) :
  formPrayer (Some e) m = Some (Some prayer, m') -> contains prayer "guide me".
Proof.
  unfold formPrayer. intros Hrun.
  apply bind_malloc_checked in Hrun as (_ & _ & Hrun).
  destruct (_ || _); [discriminate|]. injection Hrun as <- _.
  exists ("Prayer from " ++ name e ++ ": Please ")%string, "."%string.
  rewrite !append_assoc. reflexivity.
Qed.

(** The scenario of [main]: a universe created at time 0, two humans, and
    the days to the end of the world asked in the same second. *)
Example main_daysToEndOfWorld :
  (omega ← createGod;
   universe ← divineCreateUniverse;
   human1 ← createConsciousEntity omega universe (Some "Human1"%string);
   human2 ← createConsciousEntity omega universe (Some "Human2"%string);
   prayer ← formPrayer human1;
   updatedUniverse ← divinePrayerResponse human1 prayer universe;
   daysRemaining ← calculateEndOfWorld universe;
   mret (uniqueId <$> human1, uniqueId <$> human2, prayer, updatedUniverse, daysRemaining))
    {| heap := ∅; outcomes := []; clock := 0 |}
  ≫= (fun r => Some (fst r))
  = Some (Some 1, Some 2, Some "Prayer from Human1: Please guide me."%string,
          Some 2%positive, 697149).
Proof. vm_compute. reflexivity. Qed.

(** * Further properties *)

(** ** Allocation requests, one by one *)

Lemma granted_S_eq (n : nat) (m : machine) :
  granted (S n) m = hd true (outcomes m) && granted n (consume m).
Proof.
  unfold granted, consume. simpl. destruct (outcomes m) as [|b bs]; simpl.
  - now rewrite take_nil.
  - reflexivity.
Qed.

Lemma granted_0 (m : machine) : granted 0 m = true.
Proof. reflexivity. Qed.

Lemma bind_malloc_small {A} (size : Z) (k : bool -> M A) (m : machine) :
  size <= PTRDIFF_MAX ->
  (malloc size ≫= k) m = k (hd true (outcomes m)) (consume m).
Proof.
  intros Hsize. unfold mbind, M_bind, malloc.
  destruct (PTRDIFF_MAX <? size) eqn:E; [apply Z.ltb_lt in E; lia|reflexivity].
Qed.

Lemma silent_memcpy src n : silent (memcpy_doubles src n).
Proof.
  intros m r m' Hrun. unfold memcpy_doubles in Hrun.
  destruct (_ && _); [|discriminate]. now injection Hrun as _ <-.
Qed.

Lemma silent_time : silent time.
Proof. now intros m r m' [= _ <-]. Qed.

Lemma silent_on_null_new_object (u : Universe) :
  silent_on_null (new_object u ≫= fun p => mret (Some p)).
Proof. intros m m' [=]. Qed.

Ltac silent_on_null_step :=
  first
    [ apply silent_on_null_ret_None
    | apply silent_on_null_new_object
    | apply silent_on_null_bind;
        [first [apply silent_malloc|apply silent_load|apply silent_int_add
               |apply silent_append_slot|apply silent_memcpy|apply silent_time]
        |intros ?]
    | match goal with
      | |- silent_on_null (if ?b then _ else _) => destruct b
      | |- silent_on_null (match ?o with _ => _ end) => destruct o
      end ].

(** ** divineMiracle, whatever the allocator answers *)

Lemma divineMiracle_null_silent u t : silent_on_null (divineMiracle u t).
Proof. unfold divineMiracle. repeat silent_on_null_step. Qed.

Lemma divineMiracle_refused (m : machine) (pu : addr) (W : Universe) (t : option TimePoint) :
  heap m !! pu = Some W -> well_formed W -> granted 5 m = false ->
  exists m', divineMiracle (Some pu) t m = Some (None, m').
Proof.
  intros Hpu Hwf Hg.
  destruct (size_of_doubles (numConstants W)) as [Hsz Hfit].
  { destruct Hwf. lia. }
  rewrite !granted_S_eq, granted_0 in Hg.
  unfold divineMiracle.
  rewrite bind_malloc_small by (unfold sizeof_Universe, PTRDIFF_MAX; lia).
  destruct (hd true (outcomes m)); cbn [negb]; [|eexists; reflexivity].
  rewrite (bind_load pu W) by assumption.
  rewrite bind_malloc_small by (rewrite Hsz; assumption).
  destruct (hd true (outcomes (consume m))); cbn [negb]; [|eexists; reflexivity].
  rewrite bind_memcpy_all by apply Hwf.
  rewrite bind_malloc_small by (unfold sizeof_double, PTRDIFF_MAX; lia).
  destruct (hd true (outcomes (consume (consume m)))); cbn [negb];
    [|eexists; reflexivity].
  rewrite bind_memcpy_all by (now rewrite (wf_spacetime _ Hwf)).
  rewrite bind_malloc_small by (unfold sizeof_double, PTRDIFF_MAX; lia).
  destruct (hd true (outcomes (consume (consume (consume m))))); cbn [negb];
    [|eexists; reflexivity].
  rewrite bind_malloc_small by (unfold sizeof_double, PTRDIFF_MAX; lia).
  destruct (hd true (outcomes (consume (consume (consume (consume m)))))); cbn [negb];
    [|eexists; reflexivity].
  discriminate Hg.
Qed.

(** X1. On a live, well-formed object [divineMiracle] always returns; it
    returns NULL exactly when one of its five allocation requests is
    refused, and then the heap is as it was; otherwise the object returned
    is the copy, at an address that was not live. *)
Theorem divineMiracle_outcome
    (m : machine) (pu : addr) (W : Universe) (t : option TimePoint) :
  heap m !! pu = Some W -> well_formed W ->
  exists (r : option addr) (m' : machine),
    divineMiracle (Some pu) t m = Some (r, m') /\
    (r = None <-> granted 5 m = false) /\
    (r = None -> heap m' = heap m) /\
    (forall p, r = Some p ->
       heap m !! p = None /\ heap m' = <[p := miracle_of W]> (heap m)).
Proof.
  intros Hpu Hwf. destruct (granted 5 m) eqn:Hg.
  - exists (Some (fresh (dom (heap m)))), (after_miracle W m).
    split; [now apply divineMiracle_run|].
    split; [split; discriminate|]. split; [discriminate|].
    intros p [= <-]. split; [apply fresh_not_live|reflexivity].
  - destruct (divineMiracle_refused m pu W t Hpu Hwf Hg) as [m' Hrun].
    exists None, m'. split; [exact Hrun|]. split; [tauto|].
    split; [intros _; exact (divineMiracle_null_silent _ _ _ _ Hrun)|discriminate].
Qed.

Lemma divineMiracle_outcome_witness :
  exists m',
    divineMiracle (Some 1%positive) None
      {| heap := {[1%positive := created_universe 0]};
         outcomes := [true; true; false]; clock := 0 |} = Some (None, m') /\
    heap m' = {[1%positive := created_universe 0]}.
Proof.
  destruct (divineMiracle_outcome
              {| heap := {[1%positive := created_universe 0]};
                 outcomes := [true; true; false]; clock := 0 |}
              1%positive (created_universe 0) None)
    as (r & m' & Hrun & Hnull & Hsame & _).
  - reflexivity.
  - apply created_universe_well_formed. unfold LONG_MIN, LONG_MAX. lia.
  - assert (r = None) as -> by (apply Hnull; reflexivity).
    exists m'. split; [exact Hrun|]. now apply Hsame.
Defined.

Lemma load_inv (p : addr) (m m1 : machine) (u : Universe) :
  load p m = Some (u, m1) -> m1 = m /\ heap m !! p = Some u.
Proof.
  unfold load. destruct (heap m !! p); [|discriminate]. now intros [= <- <-].
Qed.

Lemma memcpy_doubles_inv (src r : list float) (n : Z) (m m1 : machine) :
  memcpy_doubles src n m = Some (r, m1) -> m1 = m.
Proof.
  unfold memcpy_doubles. destruct (_ && _); [|discriminate]. now intros [= _ <-].
Qed.

Lemma granted_S_intro (n : nat) (m : machine) :
  hd true (outcomes m) = true -> granted n (consume m) = true ->
  granted (S n) m = true.
Proof. intros H1 H2. now rewrite granted_S_eq, H1, H2. Qed.

(** A call that returns an object has read a live source and has had its
    five requests granted. *)
Lemma divineMiracle_Some_inv
    (m m' : machine) (pu p : addr) (t : option TimePoint) :
  divineMiracle (Some pu) t m = Some (Some p, m') ->
  (exists W, heap m !! pu = Some W) /\ granted 5 m = true /\
  p = fresh (dom (heap m)).
Proof.
  unfold divineMiracle. intros Hrun.
  apply bind_malloc_checked in Hrun as (H1 & _ & Hrun).
  apply bind_inv in Hrun as (src & m1 & Hload & Hrun).
  apply load_inv in Hload as [-> Hsrc].
  apply bind_malloc_checked in Hrun as (H2 & _ & Hrun).
  apply bind_inv in Hrun as (cs & m1 & Hcopy & Hrun).
  apply memcpy_doubles_inv in Hcopy as ->.
  apply bind_malloc_checked in Hrun as (H3 & _ & Hrun).
  apply bind_inv in Hrun as (st & m1 & Hcopy & Hrun).
  apply memcpy_doubles_inv in Hcopy as ->.
  apply bind_malloc_checked in Hrun as (H4 & _ & Hrun).
  apply bind_malloc_checked in Hrun as (H5 & _ & Hrun).
  unfold new_object, mbind, M_bind, mret, M_ret in Hrun.
  injection Hrun as <- _.
  split; [eauto|]. split; [|reflexivity].
  repeat (apply granted_S_intro; [assumption|]). reflexivity.
Qed.

Lemma divineMiracle_returns_fresh
    (m m' : machine) (u : option addr) (p : addr) (t : option TimePoint) :
  divineMiracle u t m = Some (Some p, m') -> heap m !! p = None.
Proof.
  destruct u as [pu|]; [|discriminate]. intros Hrun.
  apply divineMiracle_Some_inv in Hrun as (_ & _ & ->). apply fresh_not_live.
Qed.

(** ** Existing objects are never written by a transition *)

#[local] Hint Resolve keeps_store : keeps.

Lemma divinePhysicalConstants_keeps q W n : keeps q W (divinePhysicalConstants n).
Proof. unfold divinePhysicalConstants. repeat keeps_step. Qed.

#[local] Hint Resolve divinePhysicalConstants_keeps divineMiracle_keeps : keeps.

Lemma divineCreateUniverse_keeps q W : keeps q W divineCreateUniverse.
Proof. unfold divineCreateUniverse. repeat keeps_step. Qed.

Lemma calculateEndOfWorld_keeps q W u : keeps q W (calculateEndOfWorld u).
Proof. unfold calculateEndOfWorld. repeat keeps_step. Qed.

Lemma divinePrayerResponse_keeps q W e prayer u :
  keeps q W (divinePrayerResponse e prayer u).
Proof.
  unfold divinePrayerResponse.
  destruct e as [e|], prayer as [prayer|], u as [pu|]; try apply keeps_ret.
  intros m r m' Hrun Hq.
  apply bind_inv in Hrun as (nu & m1 & Hmiracle & Hrun).
  pose proof (divineMiracle_keeps q W _ _ _ _ _ Hmiracle Hq) as Hq1.
  destruct nu as [p|]; [|now injection Hrun as _ <-].
  apply divineMiracle_returns_fresh in Hmiracle.
  assert (p <> q) as Hne by congruence.
  revert Hrun Hq1. generalize m1 r m'. change (keeps q W
    (nu ← load p;
     days ← long_add (totalLifespanDays nu) 1;
     let nu := set_totalLifespanDays days nu in
     let nu :=
       match strstr prayer "guide me" with
       | Some _ => set_entropyLevel (entropyLevel nu * 0.99)%float nu
       | None => nu
       end in
     _ ← store p nu; mret (Some p))).
  repeat keeps_step.
Qed.

Lemma divineCompletion_keeps q W u : keeps q W (divineCompletion u).
Proof.
  unfold divineCompletion. destruct u as [pu|]; [|apply keeps_ret].
  intros m r m' Hrun Hq.
  apply bind_inv in Hrun as (cu & m1 & Hmiracle & Hrun).
  pose proof (divineMiracle_keeps q W _ _ _ _ _ Hmiracle Hq) as Hq1.
  destruct cu as [p|]; [|now injection Hrun as _ <-].
  apply divineMiracle_returns_fresh in Hmiracle.
  assert (p <> q) as Hne by congruence.
  revert Hrun Hq1. generalize m1 r m'. change (keeps q W
    (cu ← load p;
     _ ← store p (set_entropyLevel (maxEntropy cu) cu); mret (Some p))).
  repeat keeps_step.
Qed.

Lemma keeps_append_slot q W es n e : keeps q W (append_slot es n e).
Proof. unfold append_slot. destruct (_ && _); [apply keeps_ret|apply keeps_undefined]. Qed.

#[local] Hint Resolve keeps_append_slot : keeps.

Lemma createConsciousEntity_keeps q W creator pu name :
  pu <> q -> keeps q W (createConsciousEntity creator (Some pu) name).
Proof.
  intros Hne. unfold createConsciousEntity, realloc.
  destruct creator as [g|], name as [name|]; try apply keeps_ret.
  repeat keeps_step.
Qed.

Lemma freeUniverse_keeps q W pu : pu <> q -> keeps q W (freeUniverse (Some pu)).
Proof.
  intros Hne. unfold freeUniverse. apply keeps_bind; [auto with keeps|intros obj].
  destruct (_ <=? _); [|apply keeps_undefined].
  intros m r m' Hrun Hq. unfold free_object in Hrun.
  destruct (heap m !! pu); [|discriminate]. injection Hrun as _ <-. simpl.
  now rewrite lookup_delete_ne.
Qed.

(** X2. The constructor, the three transitions and the calculator never
    write into an object that is already live, whatever the allocator
    answers and whatever their arguments are; [createConsciousEntity] and
    [freeUniverse] touch no object but the one they are given. *)
Theorem existing_objects_untouched (q : addr) (W : Universe) :
  keeps q W divineCreateUniverse /\
  (forall u t, keeps q W (divineMiracle u t)) /\
  (forall e prayer u, keeps q W (divinePrayerResponse e prayer u)) /\
  (forall u, keeps q W (divineCompletion u)) /\
  (forall u, keeps q W (calculateEndOfWorld u)) /\
  (forall creator pu name, pu <> q ->
     keeps q W (createConsciousEntity creator (Some pu) name)) /\
  (forall pu, pu <> q -> keeps q W (freeUniverse (Some pu))).
Proof.
  split; [apply divineCreateUniverse_keeps|].
  split; [intros; apply divineMiracle_keeps|].
  split; [intros; apply divinePrayerResponse_keeps|].
  split; [intros; apply divineCompletion_keeps|].
  split; [intros; apply calculateEndOfWorld_keeps|].
  split; [intros; now apply createConsciousEntity_keeps|].
  intros; now apply freeUniverse_keeps.
Qed.

Lemma existing_objects_untouched_witness :
  keeps 2%positive (created_universe 7)
    (createConsciousEntity (Some omega) (Some 1%positive) (Some "Human1"%string)).
Proof.
  apply (existing_objects_untouched 2%positive (created_universe 7)).
  discriminate.
Defined.

(** ** Good order is an invariant *)

Section PreservesWf.

Lemma preserves_wf_ret {A} (a : A) : preserves_wf (mret a).
Proof. now intros m a' m' [= _ <-]. Qed.

Lemma preserves_wf_undefined {A} : preserves_wf (@undefined A).
Proof. intros m a m' [=]. Qed.

Lemma preserves_wf_bind {A B} (c : M A) (k : A -> M B) :
  preserves_wf c -> (forall a, preserves_wf (k a)) -> preserves_wf (c ≫= k).
Proof.
  intros Hc Hk m b m' Hrun Hwf. apply bind_inv in Hrun as (a & m1 & H1 & H2).
  eapply Hk; [exact H2|]. eapply Hc; eassumption.
Qed.

Lemma preserves_wf_malloc size : preserves_wf (malloc size).
Proof.
  intros m a m' Hrun Hwf. unfold malloc in Hrun.
  destruct (PTRDIFF_MAX <? size); injection Hrun as _ <-; exact Hwf.
Qed.

Lemma preserves_wf_load p : preserves_wf (load p).
Proof. intros m a m' Hrun Hwf. now apply load_inv in Hrun as [-> _]. Qed.

Lemma preserves_wf_time : preserves_wf time.
Proof. now intros m a m' [= _ <-]. Qed.

Lemma preserves_wf_lift {A} (o : option A) : preserves_wf (lift o).
Proof. intros m a m' Hrun Hwf. destruct o; [|discriminate]. now injection Hrun as _ <-. Qed.

Lemma preserves_wf_memcpy src n : preserves_wf (memcpy_doubles src n).
Proof. intros m a m' Hrun Hwf. now apply memcpy_doubles_inv in Hrun as ->. Qed.

Lemma preserves_wf_int_add a b : preserves_wf (int_add a b).
Proof.
  unfold int_add. destruct (_ && _); [apply preserves_wf_ret|apply preserves_wf_undefined].
Qed.

Lemma preserves_wf_long_add a b : preserves_wf (long_add a b).
Proof.
  unfold long_add. destruct (_ && _); [apply preserves_wf_ret|apply preserves_wf_undefined].
Qed.

Lemma preserves_wf_append_slot es n e : preserves_wf (append_slot es n e).
Proof.
  unfold append_slot. destruct (_ && _); [apply preserves_wf_ret|apply preserves_wf_undefined].
Qed.

Lemma machine_wf_insert (m : machine) (p : addr) (u : Universe) (o : list bool) :
  machine_wf m -> well_formed u ->
  machine_wf {| heap := <[p := u]> (heap m); outcomes := o; clock := clock m |}.
Proof.
  intros [Hclock Hheap] Hu. split; [exact Hclock|]. intros q v. simpl.
  destruct (decide (p = q)) as [->|Hne].
  - rewrite lookup_insert_eq. now intros [= <-].
  - rewrite lookup_insert_ne by exact Hne. apply Hheap.
Qed.

Lemma preserves_wf_store p u : well_formed u -> preserves_wf (store p u).
Proof.
  intros Hu m a m' Hrun Hwf. unfold store in Hrun. injection Hrun as _ <-.
  now apply machine_wf_insert.
Qed.

Lemma preserves_wf_new_object u : well_formed u -> preserves_wf (new_object u).
Proof.
  intros Hu m a m' Hrun Hwf. unfold new_object in Hrun. injection Hrun as _ <-.
  now apply machine_wf_insert.
Qed.

Lemma preserves_wf_free_object p : preserves_wf (free_object p).
Proof.
  intros m a m' Hrun [Hclock Hheap]. unfold free_object in Hrun.
  destruct (heap m !! p); [|discriminate]. injection Hrun as _ <-.
  split; [exact Hclock|]. intros q v. simpl. intros Hq.
  apply lookup_delete_Some in Hq as [_ Hq]. now apply (Hheap q).
Qed.

End PreservesWf.

Lemma preserves_wf_bind_load {A} (p : addr) (k : Universe -> M A) :
  (forall u, well_formed u -> preserves_wf (k u)) -> preserves_wf (load p ≫= k).
Proof.
  intros Hk m a m' Hrun Hwf. apply bind_inv in Hrun as (u & m1 & Hload & Hrun).
  apply load_inv in Hload as [-> Hu].
  eapply Hk; [|exact Hrun|exact Hwf]. now apply (proj2 Hwf p).
Qed.

Lemma preserves_wf_bind_memcpy {A} (src : list float) (n : Z) (k : list float -> M A) :
  (forall r, Z.of_nat (length r) = n -> preserves_wf (k r)) ->
  preserves_wf (memcpy_doubles src n ≫= k).
Proof.
  intros Hk m a m' Hrun Hwf. apply bind_inv in Hrun as (r & m1 & Hcopy & Hrun).
  unfold memcpy_doubles in Hcopy.
  destruct (0 <=? n) eqn:H0; [|discriminate].
  destruct (n <=? Z.of_nat (length src)) eqn:H1; [|discriminate].
  apply Z.leb_le in H0, H1. injection Hcopy as <- <-.
  eapply Hk; [|exact Hrun|exact Hwf]. rewrite length_take. lia.
Qed.

Lemma preserves_wf_bind_long_add {A} (a b : Z) (k : Z -> M A) :
  (forall d, LONG_MIN <= d <= LONG_MAX -> d = a + b -> preserves_wf (k d)) ->
  preserves_wf (long_add a b ≫= k).
Proof.
  intros Hk m r m' Hrun Hwf. unfold long_add in Hrun.
  destruct (LONG_MIN <=? a + b) eqn:H0; [|discriminate].
  destruct (a + b <=? LONG_MAX) eqn:H1; [|discriminate].
  apply Z.leb_le in H0, H1. eapply (Hk (a + b)); [lia|reflexivity|exact Hrun|exact Hwf].
Qed.

Lemma preserves_wf_bind_int_add {A} (a b : Z) (k : Z -> M A) :
  (forall d, INT_MIN <= d <= INT_MAX -> d = a + b -> preserves_wf (k d)) ->
  preserves_wf (int_add a b ≫= k).
Proof.
  intros Hk m r m' Hrun Hwf. unfold int_add in Hrun.
  destruct (INT_MIN <=? a + b) eqn:H0; [|discriminate].
  destruct (a + b <=? INT_MAX) eqn:H1; [|discriminate].
  apply Z.leb_le in H0, H1. eapply (Hk (a + b)); [lia|reflexivity|exact Hrun|exact Hwf].
Qed.

Lemma preserves_wf_bind_time {A} (k : Z -> M A) :
  (forall now, LONG_MIN <= now <= LONG_MAX -> preserves_wf (k now)) ->
  preserves_wf (time ≫= k).
Proof.
  intros Hk m r m' Hrun Hwf. rewrite bind_time in Hrun.
  eapply Hk; [|exact Hrun|exact Hwf]. apply Hwf.
Qed.

Lemma preserves_wf_bind_append_slot {A}
    (es : list ConsciousEntity) (n : Z) (e : ConsciousEntity)
    (k : list ConsciousEntity -> M A) :
  (forall r, Z.of_nat (length r) = n + 1 -> preserves_wf (k r)) ->
  preserves_wf (append_slot es n e ≫= k).
Proof.
  intros Hk m a m' Hrun Hwf. apply bind_inv in Hrun as (r & m1 & Happ & Hrun).
  unfold append_slot in Happ.
  destruct (0 <=? n) eqn:H0; [|discriminate].
  destruct (n <=? Z.of_nat (length es)) eqn:H1; [|discriminate].
  apply Z.leb_le in H0, H1. injection Happ as <- <-.
  eapply Hk; [|exact Hrun|exact Hwf]. rewrite length_app, length_take. simpl. lia.
Qed.

Lemma preserves_wf_bind_malloc {A} (size : Z) (k : bool -> M A) :
  (forall ok, preserves_wf (k ok)) -> preserves_wf (malloc size ≫= k).
Proof. intros Hk. apply preserves_wf_bind; [apply preserves_wf_malloc|exact Hk]. Qed.

Lemma divineMiracle_preserves_wf u t : preserves_wf (divineMiracle u t).
Proof.
  unfold divineMiracle. destruct u as [pu|]; [|apply preserves_wf_ret].
  apply preserves_wf_bind_malloc. intros [|]; [|apply preserves_wf_ret]. cbn [negb].
  apply preserves_wf_bind_load. intros src Hsrc.
  apply preserves_wf_bind_malloc. intros [|]; [|apply preserves_wf_ret]. cbn [negb].
  apply preserves_wf_bind_memcpy. intros constants Hconstants.
  apply preserves_wf_bind_malloc. intros [|]; [|apply preserves_wf_ret]. cbn [negb].
  apply preserves_wf_bind_memcpy. intros coordinates Hcoordinates.
  apply preserves_wf_bind_malloc. intros [|]; [|apply preserves_wf_ret]. cbn [negb].
  apply preserves_wf_bind_malloc. intros [|]; [|apply preserves_wf_ret]. cbn [negb].
  apply preserves_wf_bind; [|intros p; apply preserves_wf_ret].
  apply preserves_wf_new_object. destruct Hsrc.
  constructor; simpl; try assumption; try lia.
Qed.

Lemma divinePrayerResponse_preserves_wf e prayer u :
  preserves_wf (divinePrayerResponse e prayer u).
Proof.
  unfold divinePrayerResponse.
  destruct e as [e|], prayer as [prayer|], u as [pu|]; try apply preserves_wf_ret.
  apply preserves_wf_bind; [apply divineMiracle_preserves_wf|].
  intros [p|]; [|apply preserves_wf_ret].
  apply preserves_wf_bind_load. intros nu Hnu.
  apply preserves_wf_bind_long_add. intros days Hdays _.
  apply preserves_wf_bind; [|intros _; apply preserves_wf_ret].
  apply preserves_wf_store.
  destruct Hnu. destruct (strstr prayer "guide me");
    constructor; simpl; assumption.
Qed.

Lemma divineCompletion_preserves_wf u : preserves_wf (divineCompletion u).
Proof.
  unfold divineCompletion. destruct u as [pu|]; [|apply preserves_wf_ret].
  apply preserves_wf_bind; [apply divineMiracle_preserves_wf|].
  intros [p|]; [|apply preserves_wf_ret].
  apply preserves_wf_bind_load. intros cu Hcu.
  apply preserves_wf_bind; [|intros _; apply preserves_wf_ret].
  apply preserves_wf_store. destruct Hcu. constructor; simpl; assumption.
Qed.

Lemma createConsciousEntity_preserves_wf creator universe name :
  preserves_wf (createConsciousEntity creator universe name).
Proof.
  unfold createConsciousEntity, realloc.
  destruct creator as [g|], universe as [pu|], name as [name|];
    try apply preserves_wf_ret.
  destruct (MAX_NAME_LENGTH <=? strlen name); [apply preserves_wf_ret|].
  do 4 (apply preserves_wf_bind_malloc; intros [|]; [|apply preserves_wf_ret];
        cbn [negb]).
  apply preserves_wf_bind_load. intros u Hu.
  apply preserves_wf_bind_int_add. intros id Hid Hid_eq.
  apply preserves_wf_bind_int_add. intros slots Hslots _.
  apply preserves_wf_bind_malloc. intros [|]; [|apply preserves_wf_ret]. cbn [negb].
  apply preserves_wf_bind_append_slot. intros newEntities Hlen.
  apply preserves_wf_bind_int_add. intros count Hcount Hcount_eq.
  apply preserves_wf_bind; [|intros _; apply preserves_wf_ret].
  apply preserves_wf_store. destruct Hu.
  constructor; simpl; try assumption; lia.
Qed.

Lemma divinePhysicalConstants_length (n : Z) (m m' : machine) (cs : list float) :
  divinePhysicalConstants n m = Some (Some cs, m') ->
  0 < n /\ length cs = Z.to_nat n.
Proof.
  unfold divinePhysicalConstants. destruct (n <=? 0) eqn:Hn; [discriminate|].
  apply Z.leb_gt in Hn. intros Hrun.
  apply bind_inv in Hrun as ([|] & m1 & _ & Hrun); [|discriminate].
  injection Hrun as <- _. split; [exact Hn|].
  rewrite fill_constants_length. apply length_replicate.
Qed.

Lemma divinePhysicalConstants_preserves_wf n : preserves_wf (divinePhysicalConstants n).
Proof.
  unfold divinePhysicalConstants. destruct (n <=? 0); [apply preserves_wf_ret|].
  apply preserves_wf_bind_malloc. intros [|]; apply preserves_wf_ret.
Qed.

Lemma divineCreateUniverse_preserves_wf : preserves_wf divineCreateUniverse.
Proof.
  unfold divineCreateUniverse.
  apply preserves_wf_bind_malloc. intros [|]; [|apply preserves_wf_ret]. cbn [negb].
  intros m r m' Hrun Hwf.
  apply bind_inv in Hrun as (constants & m1 & Hconstants & Hrun).
  pose proof (divinePhysicalConstants_preserves_wf _ _ _ _ Hconstants Hwf) as Hwf1.
  destruct constants as [constants|]; [|now injection Hrun as _ <-].
  apply divinePhysicalConstants_length in Hconstants as [_ Hlen].
  revert Hrun Hwf1. generalize m1 r m'. change (preserves_wf
    (ok ← malloc (sizeof_double * 4);
     if negb ok then mret None else
     ok ← malloc sizeof_double;
     if negb ok then mret None else
     ok ← malloc sizeof_double;
     if negb ok then mret None else
     now ← time;
     p ← new_object
           {| physicalConstants := constants; numConstants := 30;
              matter := 1; energy := 1; spacetime := replicate 4 0%float;
              consciousEntities := []; numEntities := 0;
              naturalLaws_evolve := fn_universeEvolveFunction;
              creationTime := now;
              totalLifespanDays := 5000 * 365;
              entropyLevel := 0.618;
              maxEntropy := 1 |};
     mret (Some p))).
  do 3 (apply preserves_wf_bind_malloc; intros [|]; [|apply preserves_wf_ret];
        cbn [negb]).
  apply preserves_wf_bind_time. intros now Hnow.
  apply preserves_wf_bind; [|intros p; apply preserves_wf_ret].
  apply preserves_wf_new_object.
  constructor; simpl; try reflexivity; try assumption;
    rewrite ?Hlen; unfold INT_MAX, LONG_MIN, LONG_MAX; lia.
Qed.

Lemma freeUniverse_preserves_wf u : preserves_wf (freeUniverse u).
Proof.
  unfold freeUniverse. destruct u as [pu|]; [|apply preserves_wf_ret].
  apply preserves_wf_bind_load. intros obj _.
  destruct (_ <=? _); [apply preserves_wf_free_object|apply preserves_wf_undefined].
Qed.

Lemma calculateEndOfWorld_preserves_wf u : preserves_wf (calculateEndOfWorld u).
Proof.
  unfold calculateEndOfWorld. destruct u as [pu|]; [|apply preserves_wf_ret].
  apply preserves_wf_bind; [apply preserves_wf_time|intros now].
  apply preserves_wf_bind; [apply preserves_wf_load|intros obj].
  apply preserves_wf_bind; [apply preserves_wf_lift|intros x].
  apply preserves_wf_lift.
Qed.

(** X3. Whatever the allocator answers and whatever the arguments are, every
    operation on universes takes a machine in good order (clock within
    [time_t], counters equal to the lengths of their blocks and within
    [int], lifespans within [long], four spacetime coordinates) to a machine
    in good order. *)
Theorem good_order_invariant :
  preserves_wf divineCreateUniverse /\
  (forall u t, preserves_wf (divineMiracle u t)) /\
  (forall e prayer u, preserves_wf (divinePrayerResponse e prayer u)) /\
  (forall u, preserves_wf (divineCompletion u)) /\
  (forall creator universe name,
     preserves_wf (createConsciousEntity creator universe name)) /\
  (forall u, preserves_wf (calculateEndOfWorld u)) /\
  (forall u, preserves_wf (freeUniverse u)).
Proof.
  split; [apply divineCreateUniverse_preserves_wf|].
  split; [apply divineMiracle_preserves_wf|].
  split; [apply divinePrayerResponse_preserves_wf|].
  split; [apply divineCompletion_preserves_wf|].
  split; [apply createConsciousEntity_preserves_wf|].
  split; [apply calculateEndOfWorld_preserves_wf|apply freeUniverse_preserves_wf].
Qed.


Lemma good_order_invariant_witness :
  exists (p : addr) (m' : machine),
    divineCreateUniverse {| heap := ∅; outcomes := []; clock := 0 |}
      = Some (Some p, m') /\ machine_wf m'.
Proof.
  eexists _, _. split; [apply divineCreateUniverse_run; reflexivity|].
  eapply (proj1 good_order_invariant
            {| heap := ∅; outcomes := []; clock := 0 |}).
  - apply divineCreateUniverse_run. reflexivity.
  - split; [simpl; unfold LONG_MIN, LONG_MAX; lia|].
    intros p u Hp. simpl in Hp. now rewrite lookup_empty in Hp.
Defined.

(** ** Construction, whatever the allocator answers *)

Lemma createGod_silent : silent createGod.
Proof.
  intros m r m' Hrun. unfold createGod in Hrun.
  apply bind_inv in Hrun as ([|] & m1 & H1%silent_malloc & Hrun); cbn [negb] in Hrun;
    [|injection Hrun as _ <-; congruence].
  apply bind_inv in Hrun as ([|] & m2 & H2%silent_malloc & Hrun); cbn [negb] in Hrun;
    [|injection Hrun as _ <-; congruence].
  apply bind_inv in Hrun as ([|] & m3 & H3%silent_malloc & Hrun); cbn [negb] in Hrun;
    [|injection Hrun as _ <-; congruence].
  apply bind_inv in Hrun as ([|] & m4 & H4%silent_malloc & Hrun); cbn [negb] in Hrun;
    [|injection Hrun as _ <-; congruence].
  apply bind_inv in Hrun as ([|] & m5 & H5%silent_malloc & Hrun); cbn [negb] in Hrun;
    [|injection Hrun as _ <-; congruence].
  apply bind_inv in Hrun as ([|] & m6 & H6%silent_malloc & Hrun); cbn [negb] in Hrun;
    [|injection Hrun as _ <-; congruence].
  injection Hrun as _ <-. congruence.
Qed.

Lemma createGod_cases (m : machine) :
  exists (r : option God) (m' : machine),
    createGod m = Some (r, m') /\
    r = (if granted 6 m then Some omega else None).
Proof.
  rewrite !granted_S_eq, granted_0. unfold createGod.
  rewrite bind_malloc_small by (unfold sizeof_God, PTRDIFF_MAX; lia).
  destruct (hd true (outcomes m)); cbn [negb andb]; [|eauto].
  rewrite bind_malloc_small by (unfold PTRDIFF_MAX; lia).
  destruct (hd true (outcomes (consume m))); cbn [negb andb]; [|eauto].
  rewrite bind_malloc_small by (unfold PTRDIFF_MAX; lia).
  destruct (hd true (outcomes (consume (consume m)))); cbn [negb andb]; [|eauto].
  rewrite bind_malloc_small by (unfold PTRDIFF_MAX; lia).
  destruct (hd true (outcomes (consume (consume (consume m)))));
    cbn [negb andb]; [|eauto].
  rewrite bind_malloc_small by (unfold PTRDIFF_MAX; lia).
  destruct (hd true (outcomes (consume (consume (consume (consume m))))));
    cbn [negb andb]; [|eauto].
  rewrite bind_malloc_small by (unfold PTRDIFF_MAX; lia).
  destruct (hd true (outcomes (consume (consume (consume (consume (consume m)))))));
    cbn [negb andb]; eauto.
Qed.

(** X4. [createGod] always returns and never touches the universes; what it
    returns is the object with the fixed attributes when its six allocation
    requests are granted, and NULL as soon as one is refused. *)
Theorem createGod_outcome (m : machine) :
  exists (r : option God) (m' : machine),
    createGod m = Some (r, m') /\
    heap m' = heap m /\
    r = (if granted 6 m
         then Some {| infinityMeasure := INFINITY_REPRESENTATION;
                      isSeparable := false; entropy := 0;
                      value := INFINITY_REPRESENTATION; trinity_count := 1 |}
         else None).
Proof.
  destruct (createGod_cases m) as (r & m' & Hrun & Hr).
  exists r, m'. split; [exact Hrun|]. split; [|exact Hr].
  exact (createGod_silent _ _ _ Hrun).
Qed.

Lemma divinePhysicalConstants_null_silent n : silent_on_null (divinePhysicalConstants n).
Proof. unfold divinePhysicalConstants. repeat silent_on_null_step. now intros m m' [=]. Qed.

Lemma divinePhysicalConstants_silent n : silent (divinePhysicalConstants n).
Proof.
  intros m r m' Hrun. unfold divinePhysicalConstants in Hrun.
  destruct (n <=? 0); [now injection Hrun as _ <-|].
  apply bind_inv in Hrun as ([|] & m1 & H1%silent_malloc & Hrun);
    injection Hrun as _ <-; exact H1.
Qed.

Lemma divineCreateUniverse_null_silent : silent_on_null divineCreateUniverse.
Proof.
  unfold divineCreateUniverse.
  apply silent_on_null_bind; [apply silent_malloc|intros [|]]; cbn [negb];
    [|apply silent_on_null_ret_None].
  apply silent_on_null_bind; [apply divinePhysicalConstants_silent|intros [cs|]];
    [|apply silent_on_null_ret_None].
  do 3 (apply silent_on_null_bind; [apply silent_malloc|intros [|]]; cbn [negb];
        [|apply silent_on_null_ret_None]).
  apply silent_on_null_bind; [apply silent_time|intros now].
  apply silent_on_null_new_object.
Qed.

Lemma divinePhysicalConstants_refused (n : Z) (m : machine) :
  0 < n -> hd true (outcomes m) = false ->
  divinePhysicalConstants n m = Some (None, consume m) \/
  divinePhysicalConstants n m = Some (None, m).
Proof.
  intros Hn Hhd. unfold divinePhysicalConstants, mbind, M_bind, malloc.
  destruct (n <=? 0) eqn:E; [apply Z.leb_le in E; lia|].
  destruct (PTRDIFF_MAX <? _); [now right|]. rewrite Hhd. now left.
Qed.

Lemma divineCreateUniverse_refused (m : machine) :
  granted 5 m = false -> exists m', divineCreateUniverse m = Some (None, m').
Proof.
  intros Hg. rewrite !granted_S_eq, granted_0 in Hg. unfold divineCreateUniverse.
  rewrite bind_malloc_small by (unfold sizeof_Universe, PTRDIFF_MAX; lia).
  destruct (hd true (outcomes m)); cbn [negb]; [|eexists; reflexivity].
  destruct (hd true (outcomes (consume m))) eqn:H2.
  - rewrite (bind_run _ _ _ _ _ (divinePhysicalConstants_run 30 (consume m)
                                   ltac:(unfold INT_MAX; lia) H2)).
    rewrite bind_malloc_small by (unfold sizeof_double, PTRDIFF_MAX; lia).
    destruct (hd true (outcomes (consume (consume m)))); cbn [negb];
      [|eexists; reflexivity].
    rewrite bind_malloc_small by (unfold sizeof_double, PTRDIFF_MAX; lia).
    destruct (hd true (outcomes (consume (consume (consume m))))); cbn [negb];
      [|eexists; reflexivity].
    rewrite bind_malloc_small by (unfold sizeof_double, PTRDIFF_MAX; lia).
    destruct (hd true (outcomes (consume (consume (consume (consume m))))));
      cbn [negb]; [|eexists; reflexivity].
    discriminate Hg.
  - destruct (divinePhysicalConstants_refused 30 (consume m) ltac:(lia) H2) as [H|H];
      rewrite (bind_run _ _ _ _ _ H); eexists; reflexivity.
Qed.

(** X5. [divineCreateUniverse] always returns. With its five allocation
    requests granted it returns a new object at an address that was not
    live: thirty constants, empty registry, creation time read from the
    clock, 1825000 days of lifespan, entropy 0.618 of 1. As soon as one
    request is refused it returns NULL and the heap is as it was. *)
Theorem divineCreateUniverse_outcome (m : machine) :
  exists (r : option addr) (m' : machine),
    divineCreateUniverse m = Some (r, m') /\
    (r = None <-> granted 5 m = false) /\
    (r = None -> heap m' = heap m) /\
    (forall p, r = Some p ->
       heap m !! p = None /\
       heap m' = <[p := created_universe (clock m)]> (heap m) /\
       (LONG_MIN <= clock m <= LONG_MAX -> well_formed (created_universe (clock m)))).
Proof.
  destruct (granted 5 m) eqn:Hg.
  - eexists _, _. split; [now apply divineCreateUniverse_run|].
    split; [split; discriminate|]. split; [discriminate|].
    intros p [= <-]. split; [apply fresh_not_live|]. split; [reflexivity|].
    apply created_universe_well_formed.
  - destruct (divineCreateUniverse_refused m Hg) as [m' Hrun].
    exists None, m'. split; [exact Hrun|]. split; [tauto|].
    split; [intros _; exact (divineCreateUniverse_null_silent _ _ Hrun)|discriminate].
Qed.

Lemma divineCreateUniverse_outcome_witness :
  well_formed (created_universe 0).
Proof.
  destruct (divineCreateUniverse_outcome {| heap := ∅; outcomes := []; clock := 0 |})
    as (r & m' & Hrun & Hnull & _ & Hsome).
  destruct r as [p|].
  - apply (Hsome p eq_refl). simpl. unfold LONG_MIN, LONG_MAX. lia.
  - exfalso. assert (granted 5 {| heap := ∅; outcomes := []; clock := 0 |} = false)
      as H by now apply Hnull.
    discriminate H.
Defined.

(** ** formPrayer *)

Lemma strlen_append (s t : string) : strlen (s ++ t) = strlen s + strlen t.
Proof.
  unfold strlen. induction s as [|c s IH].
  - change ("" ++ t)%string with t. simpl. lia.
  - rewrite append_String. simpl String.length. lia.
Qed.

Lemma strlen_prayer_of (e : ConsciousEntity) :
  strlen (prayer_of e) = strlen (name e) + 30.
Proof.
  unfold prayer_of. rewrite !strlen_append.
  change (strlen "Prayer from ") with 12.
  change (strlen ": Please guide me.") with 18. lia.
Qed.

Lemma strlen_nonneg (s : string) : 0 <= strlen s.
Proof. unfold strlen. lia. Qed.

(** X6. [formPrayer] always returns and never touches the universes. Its
    text is "Prayer from <name>: Please guide me.", 30 characters longer
    than the name; it returns NULL exactly when its buffer is refused or the
    text does not fit the 1024 bytes of the buffer, that is when the name
    has 994 characters or more. *)
Theorem formPrayer_outcome (e : ConsciousEntity) (m : machine) :
  exists (r : option string) (m' : machine),
    formPrayer (Some e) m = Some (r, m') /\
    heap m' = heap m /\
    (r = None <-> hd true (outcomes m) = false \/ 994 <= strlen (name e)) /\
    (forall prayer, r = Some prayer ->
       prayer = ("Prayer from " ++ name e ++ ": Please guide me.")%string /\
       strlen prayer = strlen (name e) + 30 /\
       strlen prayer < MAX_PRAYER_LENGTH).
Proof.
  pose proof (strlen_prayer_of e) as Hlen. pose proof (strlen_nonneg (name e)) as Hpos.
  unfold formPrayer.
  change ("Prayer from " ++ name e ++ ": Please guide me.")%string with (prayer_of e).
  rewrite bind_malloc_small by (unfold MAX_PRAYER_LENGTH, PTRDIFF_MAX; lia).
  destruct (hd true (outcomes m)); cbn [negb].
  - destruct (strlen (prayer_of e) <? 0) eqn:Hneg; [apply Z.ltb_lt in Hneg; lia|].
    destruct (MAX_PRAYER_LENGTH <=? strlen (prayer_of e)) eqn:Hfit; cbn [orb].
    + apply Z.leb_le in Hfit. unfold MAX_PRAYER_LENGTH in Hfit.
      exists None, (consume m). split; [reflexivity|]. split; [reflexivity|].
      split; [split; [intros _; right; lia|reflexivity]|discriminate].
    + apply Z.leb_gt in Hfit.
      exists (Some (prayer_of e)), (consume m).
      split; [reflexivity|]. split; [reflexivity|].
      split.
      * split; [discriminate|]. unfold MAX_PRAYER_LENGTH in Hfit.
        intros [H|H]; [discriminate|lia].
      * intros prayer [= <-]. split; [reflexivity|]. split; [exact Hlen|exact Hfit].
  - exists None, (consume m). split; [reflexivity|]. split; [reflexivity|].
    split; [split; [intros _; now left|reflexivity]|discriminate].
Qed.

(** X7. A name that [createConsciousEntity] accepts never makes [formPrayer]
    fail: with the buffer granted, the prayer of an entity whose name is
    below the 256-character bound is returned, and it asks for guidance. *)
Theorem formPrayer_of_accepted_name (e : ConsciousEntity) (m : machine) :
  strlen (name e) < MAX_NAME_LENGTH -> hd true (outcomes m) = true ->
  formPrayer (Some e) m = Some (Some (prayer_of e), consume m) /\
  contains (prayer_of e) "guide me".
Proof.
  intros Hname Hhd. pose proof (strlen_prayer_of e) as Hlen.
  pose proof (strlen_nonneg (name e)) as Hpos. split.
  - unfold formPrayer.
    change ("Prayer from " ++ name e ++ ": Please guide me.")%string with (prayer_of e).
    rewrite bind_malloc_small by (unfold MAX_PRAYER_LENGTH, PTRDIFF_MAX; lia).
    rewrite Hhd. cbn [negb].
    rewrite (proj2 (Z.ltb_ge _ _)) by lia.
    rewrite (proj2 (Z.leb_gt _ _)) by (unfold MAX_NAME_LENGTH, MAX_PRAYER_LENGTH in *; lia).
    reflexivity.
  - exists ("Prayer from " ++ name e ++ ": Please ")%string, "."%string.
    unfold prayer_of. rewrite !append_assoc. reflexivity.
Qed.

Lemma formPrayer_of_accepted_name_witness :
  formPrayer (Some human1) {| heap := ∅; outcomes := []; clock := 0 |}
    = Some (Some "Prayer from Human1: Please guide me."%string,
            {| heap := ∅; outcomes := []; clock := 0 |}).
Proof.
  apply (formPrayer_of_accepted_name human1 {| heap := ∅; outcomes := []; clock := 0 |}).
  - reflexivity.
  - reflexivity.
Defined.

(** X8. The answer to a prayer that [formPrayer] has formed always takes the
    guidance branch: on a live, well-formed source with lifespan below
    [LONG_MAX] and memory granted, the object returned has the entropy level
    of the source multiplied by 0.9 and then by 0.99. *)
Theorem formed_prayer_is_guided
    (e : ConsciousEntity) (prayer : string) (m0 m1 m : machine)
    (pu : addr) (W : Universe) :
  formPrayer (Some e) m0 = Some (Some prayer, m1) ->
  heap m !! pu = Some W -> well_formed W -> granted 5 m = true ->
  totalLifespanDays W < LONG_MAX ->
  exists (p : addr) (W' : Universe) (m' : machine),
    divinePrayerResponse (Some e) (Some prayer) (Some pu) m = Some (Some p, m') /\
    heap m' !! p = Some W' /\
    entropyLevel W' = (entropyLevel W * 0.9 * 0.99)%float /\
    totalLifespanDays W' = totalLifespanDays W + 1.
Proof.
  intros Hformed Hpu Hwf Hg Hdays.
  apply formPrayer_asks_guidance in Hformed. apply strstr_Some in Hformed as [found Hfound].
  exists (fresh (dom (heap m))), (answer_of prayer W). eexists.
  split; [exact (divinePrayerResponse_run m pu W e prayer Hpu Hwf Hg Hdays)|].
  simpl. split; [apply lookup_insert_eq|].
  unfold answer_of. rewrite Hfound. split; reflexivity.
Qed.

Lemma formed_prayer_is_guided_witness :
  exists (p : addr) (W' : Universe) (m' : machine),
    divinePrayerResponse (Some human1)
      (Some "Prayer from Human1: Please guide me."%string) (Some 1%positive)
      (world_of (created_universe 0) 0) = Some (Some p, m') /\
    heap m' !! p = Some W' /\
    entropyLevel W' = (0.618 * 0.9 * 0.99)%float /\
    totalLifespanDays W' = 1825001.
Proof.
  apply (formed_prayer_is_guided human1 _
           {| heap := ∅; outcomes := []; clock := 0 |}
           {| heap := ∅; outcomes := []; clock := 0 |}
           (world_of (created_universe 0) 0) 1%positive (created_universe 0)).
  - reflexivity.
  - reflexivity.
  - apply created_universe_well_formed. unfold LONG_MIN, LONG_MAX. lia.
  - reflexivity.
  - unfold LONG_MAX. simpl. lia.
Defined.

(** ** The other transitions, whatever the allocator answers *)

Lemma divineCompletion_run (m : machine) (pu : addr) (W : Universe) :
  heap m !! pu = Some W -> well_formed W -> granted 5 m = true ->
  divineCompletion (Some pu) m =
    Some (Some (fresh (dom (heap m))),
          {| heap := <[fresh (dom (heap m)) := completion_of W]>
                       (heap (after_miracle W m));
             outcomes := drop 5 (outcomes m);
             clock := clock m |}).
Proof.
  intros Hpu Hwf Hg. unfold divineCompletion.
  rewrite (bind_run _ _ _ _ _ (divineMiracle_run m pu W None Hpu Hwf Hg)).
  rewrite (bind_load _ _ _ _ (after_miracle_new W m)).
  reflexivity.
Qed.

(** X9. On a live, well-formed source [divineCompletion] always returns, and
    [divinePrayerResponse] does when the lifespan is below [LONG_MAX]. Each
    returns NULL exactly when one of the five allocation requests of the
    copy is refused, and then the heap is as it was. Otherwise the heap
    gains one object, at an address that was not live: the copy with the
    entropy level set to the maximal entropy, or the copy with one more day
    of lifespan and the entropy level reduced for the prayer; its registry
    is empty whatever the registry of the source holds. *)
Theorem transition_outcomes
    (m : machine) (pu : addr) (W : Universe) (e : ConsciousEntity) (prayer : string) :
  heap m !! pu = Some W -> well_formed W ->
  (exists (r : option addr) (m' : machine),
     divineCompletion (Some pu) m = Some (r, m') /\
     (r = None <-> granted 5 m = false) /\
     (r = None -> heap m' = heap m) /\
     (forall p, r = Some p ->
        heap m !! p = None /\
        heap m' = <[p := set_entropyLevel (maxEntropy W) (miracle_of W)]> (heap m) /\
        consciousEntities (set_entropyLevel (maxEntropy W) (miracle_of W)) = [])) /\
  (totalLifespanDays W < LONG_MAX ->
   exists (r : option addr) (m' : machine),
     divinePrayerResponse (Some e) (Some prayer) (Some pu) m = Some (r, m') /\
     (r = None <-> granted 5 m = false) /\
     (r = None -> heap m' = heap m) /\
     (forall p, r = Some p ->
        heap m !! p = None /\
        heap m' = <[p := answer_of prayer W]> (heap m) /\
        consciousEntities (answer_of prayer W) = [])).
Proof.
  intros Hpu Hwf. split; [|intros Hdays]; destruct (granted 5 m) eqn:Hg.
  - eexists _, _. split; [exact (divineCompletion_run m pu W Hpu Hwf Hg)|].
    split; [split; discriminate|]. split; [discriminate|].
    intros p [= <-]. split; [apply fresh_not_live|]. simpl.
    split; [apply insert_insert_eq|reflexivity].
  - destruct (divineMiracle_refused m pu W None Hpu Hwf Hg) as [m' Hrun].
    exists None, m'. unfold divineCompletion. rewrite (bind_run _ _ _ _ _ Hrun).
    split; [reflexivity|]. split; [tauto|].
    split; [intros _; exact (divineMiracle_null_silent _ _ _ _ Hrun)|discriminate].
  - eexists _, _.
    split; [exact (divinePrayerResponse_run m pu W e prayer Hpu Hwf Hg Hdays)|].
    split; [split; discriminate|]. split; [discriminate|].
    intros p [= <-]. split; [apply fresh_not_live|]. simpl.
    split; [apply insert_insert_eq|].
    unfold answer_of. now destruct (strstr prayer "guide me").
  - destruct (divineMiracle_refused m pu W None Hpu Hwf Hg) as [m' Hrun].
    exists None, m'. unfold divinePrayerResponse. rewrite (bind_run _ _ _ _ _ Hrun).
    split; [reflexivity|]. split; [tauto|].
    split; [intros _; exact (divineMiracle_null_silent _ _ _ _ Hrun)|discriminate].
Qed.

Lemma transition_outcomes_witness :
  exists m',
    divineCompletion (Some 1%positive)
      {| heap := {[1%positive := created_universe 0]};
         outcomes := [true; false]; clock := 0 |} = Some (None, m') /\
    heap m' = {[1%positive := created_universe 0]}.
Proof.
  destruct (transition_outcomes
              {| heap := {[1%positive := created_universe 0]};
                 outcomes := [true; false]; clock := 0 |}
              1%positive (created_universe 0) human1 "")
    as [(r & m' & Hrun & Hnull & Hsame & _) _].
  - reflexivity.
  - apply created_universe_well_formed. unfold LONG_MIN, LONG_MAX. lia.
  - assert (r = None) as -> by (apply Hnull; reflexivity).
    exists m'. split; [exact Hrun|]. now apply Hsame.
Defined.

(** ** Identifiers start again in a transitioned universe *)

(** X10. An entity created in the object that [divineMiracle] returns gets
    the id 1, however many entities the source holds; the source and its
    registry are as they were. Identifiers are therefore unique within one
    universe only. *)
Theorem ids_restart_after_transition
    (m : machine) (pu : addr) (W : Universe) (g : God) (name : string) :
  heap m !! pu = Some W -> well_formed W -> granted 10 m = true ->
  strlen name < MAX_NAME_LENGTH ->
  exists (p : addr) (e : ConsciousEntity) (W' : Universe) (m' : machine),
    (p ← divineMiracle (Some pu) None;
     e ← createConsciousEntity (Some g) p (Some name);
     mret (p, e)) m = Some ((Some p, Some e), m') /\
    uniqueId e = 1 /\
    heap m' !! p = Some W' /\ consciousEntities W' = [e] /\
    heap m' !! pu = Some W.
Proof.
  intros Hpu Hwf Hg Hname.
  apply (granted_add 5 5) in Hg as [Hg1 Hg2].
  pose proof (fresh_not_live m) as Hfresh.
  assert (fresh (dom (heap m)) <> pu) as Hne by congruence.
  assert (well_formed (miracle_of W)) as Hwf'.
  { destruct Hwf. constructor; simpl; try assumption; try reflexivity.
    unfold INT_MAX. lia. }
  exists (fresh (dom (heap m))), (entity_of name 0),
         (appended (entity_of name 0) (miracle_of W)).
  eexists. split.
  - rewrite (bind_run _ _ _ _ _ (divineMiracle_run m pu W None Hpu Hwf Hg1)).
    rewrite (bind_run _ _ _ _ _
               (createConsciousEntity_run (after_miracle W m) (fresh (dom (heap m)))
                  (miracle_of W) g name (after_miracle_new W m) Hwf' Hg2 Hname
                  ltac:(simpl; unfold INT_MAX; lia))).
    reflexivity.
  - split; [reflexivity|]. simpl.
    split; [apply lookup_insert_eq|]. split; [reflexivity|].
    now rewrite !lookup_insert_ne.
Qed.

Lemma ids_restart_after_transition_witness :
  exists (p : addr) (e : ConsciousEntity) (m' : machine),
    (p ← divineMiracle (Some 1%positive) None;
     e ← createConsciousEntity (Some omega) p (Some "Human3"%string);
     mret (p, e))
      (world_of (appended human1 (created_universe 0)) 0)
      = Some ((Some p, Some e), m') /\
    uniqueId e = 1.
Proof.
  destruct (ids_restart_after_transition
              (world_of (appended human1 (created_universe 0)) 0) 1%positive
              (appended human1 (created_universe 0)) omega "Human3")
    as (p & e & W' & m' & Hrun & Hid & _).
  - reflexivity.
  - apply appended_well_formed; [|simpl; unfold INT_MAX; lia].
    apply created_universe_well_formed. unfold LONG_MIN, LONG_MAX. lia.
  - reflexivity.
  - reflexivity.
  - exists p, e, m'. split; [exact Hrun|exact Hid].
Defined.

(** ** freeUniverse *)

Lemma freeUniverse_live (m : machine) (pu : addr) (W : Universe) :
  heap m !! pu = Some W -> well_formed W ->
  freeUniverse (Some pu) m =
    Some (tt, {| heap := delete pu (heap m); outcomes := outcomes m; clock := clock m |}).
Proof.
  intros Hpu Hwf. unfold freeUniverse. rewrite (bind_load pu W) by assumption.
  rewrite (wf_numEntities _ Hwf), Z.leb_refl. unfold free_object. now rewrite Hpu.
Qed.

(** X11. [freeUniverse] of NULL does nothing. Of a live, well-formed object
    it removes that object and no other; the object is then not live: a
    second [freeUniverse] of the same address and a call of the calculator
    on it have no defined behaviour, and [divineMiracle] on it either has
    none or returns NULL because its first request was refused. *)
Theorem freeUniverse_releases (m : machine) (pu : addr) (W : Universe) :
  heap m !! pu = Some W -> well_formed W ->
  freeUniverse None m = Some (tt, m) /\
  exists m',
    freeUniverse (Some pu) m = Some (tt, m') /\
    heap m' !! pu = None /\
    (forall q, q <> pu -> heap m' !! q = heap m !! q) /\
    freeUniverse (Some pu) m' = None /\
    (forall t, divineMiracle (Some pu) t m' = None \/
               exists m'', divineMiracle (Some pu) t m' = Some (None, m'')) /\
    calculateEndOfWorld (Some pu) m' = None.
Proof.
  intros Hpu Hwf. split; [reflexivity|].
  eexists. split; [exact (freeUniverse_live m pu W Hpu Hwf)|]. simpl.
  assert (delete pu (heap m) !! pu = None) as Hgone by apply lookup_delete_eq.
  split; [exact Hgone|].
  split; [intros q Hq; now apply lookup_delete_ne|].
  split; [unfold freeUniverse, mbind, M_bind, load; simpl; now rewrite Hgone|].
  split.
  - intros t. unfold divineMiracle, mbind, M_bind, malloc, load. simpl.
    destruct (hd true (outcomes m)); simpl; [left|right; eauto].
    now rewrite Hgone.
  - unfold calculateEndOfWorld, mbind, M_bind, time, load. simpl. now rewrite Hgone.
Qed.

Lemma freeUniverse_releases_witness :
  freeUniverse (Some 1%positive) (world_of (created_universe 0) 0)
    = Some (tt, {| heap := ∅; outcomes := []; clock := 0 |}).
Proof.
  destruct (freeUniverse_releases (world_of (created_universe 0) 0) 1%positive
              (created_universe 0))
    as (_ & m' & Hrun & _).
  - reflexivity.
  - apply created_universe_well_formed. unfold LONG_MIN, LONG_MAX. lia.
  - rewrite (freeUniverse_live _ _ (created_universe 0)) in Hrun |- *;
      [|reflexivity|apply created_universe_well_formed; unfold LONG_MIN, LONG_MAX; lia
       |reflexivity|apply created_universe_well_formed; unfold LONG_MIN, LONG_MAX; lia].
    reflexivity.
Defined.

Lemma delete_insert_fresh (h : gmap addr Universe) (p : addr) (u : Universe) :
  h !! p = None -> delete p (<[p := u]> h) = h.
Proof. intros Hp. rewrite delete_insert_eq. now apply delete_id. Qed.

(** X12. Creating and releasing is a round trip on the heap: after a
    transition has returned an object, [freeUniverse] of that object leaves
    exactly the objects that were live before the transition. *)
Theorem transition_then_free_round_trip
    (m : machine) (pu : addr) (W : Universe) (e : ConsciousEntity) (prayer : string) :
  heap m !! pu = Some W -> well_formed W -> granted 5 m = true ->
  (exists m',
     (p ← divineMiracle (Some pu) None; freeUniverse p) m = Some (tt, m') /\
     heap m' = heap m) /\
  (exists m',
     (p ← divineCompletion (Some pu); freeUniverse p) m = Some (tt, m') /\
     heap m' = heap m) /\
  (totalLifespanDays W < LONG_MAX ->
   exists m',
     (p ← divinePrayerResponse (Some e) (Some prayer) (Some pu); freeUniverse p) m
       = Some (tt, m') /\
     heap m' = heap m).
Proof.
  intros Hpu Hwf Hg. pose proof (fresh_not_live m) as Hfresh.
  assert (well_formed (miracle_of W)) as Hwf'.
  { destruct Hwf. constructor; simpl; try assumption; try reflexivity.
    unfold INT_MAX. lia. }
  split; [|split; [|intros Hdays]].
  - eexists. rewrite (bind_run _ _ _ _ _ (divineMiracle_run m pu W None Hpu Hwf Hg)).
    rewrite (freeUniverse_live _ _ (miracle_of W)) by
      (assumption || apply after_miracle_new).
    split; [reflexivity|]. simpl. now apply delete_insert_fresh.
  - eexists. rewrite (bind_run _ _ _ _ _ (divineCompletion_run m pu W Hpu Hwf Hg)).
    rewrite (freeUniverse_live _ _ (completion_of W)).
    + split; [reflexivity|]. simpl. rewrite insert_insert_eq.
      now apply delete_insert_fresh.
    + simpl. apply lookup_insert_eq.
    + destruct Hwf'. constructor; simpl; assumption.
  - eexists.
    rewrite (bind_run _ _ _ _ _ (divinePrayerResponse_run m pu W e prayer Hpu Hwf Hg Hdays)).
    rewrite (freeUniverse_live _ _ (answer_of prayer W)).
    + split; [reflexivity|]. simpl. rewrite insert_insert_eq.
      now apply delete_insert_fresh.
    + simpl. apply lookup_insert_eq.
    + pose proof (wf_totalLifespanDays _ Hwf) as Hrange.
      unfold answer_of. destruct Hwf'.
      destruct (strstr prayer "guide me"); constructor; simpl; try assumption;
        unfold LONG_MIN, LONG_MAX in *; lia.
Qed.

Lemma transition_then_free_round_trip_witness :
  exists m',
    (p ← divineMiracle (Some 1%positive) None; freeUniverse p)
      (world_of (created_universe 0) 0) = Some (tt, m') /\
    heap m' = {[1%positive := created_universe 0]}.
Proof.
  destruct (transition_then_free_round_trip (world_of (created_universe 0) 0)
              1%positive (created_universe 0) human1 "")
    as ((m' & Hrun & Hheap) & _).
  - reflexivity.
  - apply created_universe_well_formed. unfold LONG_MIN, LONG_MAX. lia.
  - reflexivity.
  - exists m'. split; [exact Hrun|exact Hheap].
Defined.

(** ** The registry at its bound *)

(** X13. A registry of [INT_MAX] entities is full: with a short name and the
    first four requests granted, the next append computes [numEntities + 1]
    beyond [int], and the call has no defined result; it is not turned into
    an error return. *)
Theorem createConsciousEntity_counter_overflow
    (m : machine) (pu : addr) (W : Universe) (g : God) (name : string) :
  heap m !! pu = Some W -> numEntities W = INT_MAX -> granted 4 m = true ->
  strlen name < MAX_NAME_LENGTH ->
  createConsciousEntity (Some g) (Some pu) (Some name) m = None.
Proof.
  intros Hpu Hfull Hg Hname.
  apply granted_S in Hg as [H1 Hg]. apply granted_S in Hg as [H2 Hg].
  apply granted_S in Hg as [H3 Hg]. apply granted_S in Hg as [H4 _].
  unfold createConsciousEntity.
  rewrite (proj2 (Z.leb_gt _ _)) by lia.
  rewrite bind_malloc_granted;
    [|unfold sizeof_ConsciousEntity, PTRDIFF_MAX; lia|assumption].
  cbn [negb].
  rewrite bind_malloc_granted; [|unfold sizeof_double, PTRDIFF_MAX; lia|assumption].
  cbn [negb].
  rewrite bind_malloc_granted; [|unfold sizeof_double, PTRDIFF_MAX; lia|assumption].
  cbn [negb].
  rewrite bind_malloc_granted;
    [|unfold MAX_NAME_LENGTH, PTRDIFF_MAX in *; lia|assumption].
  cbn [negb].
  rewrite (bind_load pu W) by assumption.
  rewrite Hfull. reflexivity.
Qed.

Lemma createConsciousEntity_counter_overflow_witness :
  createConsciousEntity (Some omega) (Some 1%positive) (Some "Human1"%string)
    (world_of (set_entities [] INT_MAX (created_universe 0)) 0) = None.
Proof.
  apply (createConsciousEntity_counter_overflow _ _
           (set_entities [] INT_MAX (created_universe 0))).
  - reflexivity.
  - reflexivity.
  - reflexivity.
  - reflexivity.
Defined.

(** ** The table of constants does not depend on its length *)

(** X14. Two tables of different lengths agree wherever both are defined:
    the constant at an index does not depend on how many were asked for. *)
Theorem divinePhysicalConstants_prefix
    (n n' : Z) (m m1 m' m1' : machine) (cs cs' : list float) (i : nat) :
  divinePhysicalConstants n m = Some (Some cs, m1) ->
  divinePhysicalConstants n' m' = Some (Some cs', m1') ->
  Z.of_nat i < n -> Z.of_nat i < n' ->
  cs !! i = cs' !! i /\ is_Some (cs !! i).
Proof.
  intros Hrun Hrun' Hi Hi'.
  assert (forall k mk mk' ck, divinePhysicalConstants k mk = Some (Some ck, mk') ->
            Z.of_nat i < k -> ck !! i = Some (constant_at i)) as Hat.
  { intros k mk mk' ck Hk Hik. unfold divinePhysicalConstants in Hk.
    destruct (k <=? 0); [discriminate|].
    apply bind_inv in Hk as ([|] & m2 & _ & Hk); [|discriminate].
    injection Hk as <- _. apply fill_constants_lookup; [|lia].
    apply length_replicate. }
  rewrite (Hat _ _ _ _ Hrun Hi), (Hat _ _ _ _ Hrun' Hi'). split; [reflexivity|eauto].
Qed.

Lemma divinePhysicalConstants_prefix_witness :
  exists cs cs' m1 m1',
    divinePhysicalConstants 5 {| heap := ∅; outcomes := []; clock := 0 |}
      = Some (Some cs, m1) /\
    divinePhysicalConstants 30 {| heap := ∅; outcomes := []; clock := 0 |}
      = Some (Some cs', m1') /\
    cs !! 4%nat = cs' !! 4%nat.
Proof.
  pose proof (divinePhysicalConstants_run 5 {| heap := ∅; outcomes := []; clock := 0 |}
                ltac:(unfold INT_MAX; lia) eq_refl) as H5.
  pose proof (divinePhysicalConstants_run 30 {| heap := ∅; outcomes := []; clock := 0 |}
                ltac:(unfold INT_MAX; lia) eq_refl) as H30.
  eexists _, _, _, _. split; [exact H5|]. split; [exact H30|].
  apply (divinePhysicalConstants_prefix 5 30 _ _ _ _ _ _ 4%nat H5 H30); lia.
Defined.

(** ** More on calculateEndOfWorld *)

Lemma calculateEndOfWorld_estimate (m : machine) (pu : addr) (W : Universe) :
  heap m !! pu = Some W ->
  calculateEndOfWorld (Some pu) m =
    match days_estimate W (clock m) with
    | Some x =>
        match to_long (fmin (of_Z LONG_MAX) x) with
        | Some days => Some (days, m)
        | None => None
        end
    | None => None
    end.
Proof.
  intros Hpu. unfold calculateEndOfWorld, days_estimate.
  rewrite bind_time, (bind_load pu W) by assumption.
  unfold mbind, M_bind, lift. now destruct (influence_loop W).
Qed.



Lemma fold_left_ext_in {A B} (f g : A -> B -> A) (l : list B) (a : A) :
  (forall x b, In b l -> f x b = g x b) -> fold_left f l a = fold_left g l a.
Proof.
  revert a. induction l as [|b l IH]; intros a H; simpl; [reflexivity|].
  rewrite (H a b) by now left. apply IH. intros x b' Hb'. apply H. now right.
Qed.

Lemma influence_loop_first_ten (u v : Universe) :
  10 <= numConstants u -> 10 <= numConstants v ->
  take 10 (physicalConstants u) = take 10 (physicalConstants v) ->
  influence_loop u = influence_loop v.
Proof.
  intros Hu Hv Hten. unfold influence_loop.
  rewrite !Z.min_r by assumption. apply fold_left_ext_in.
  intros acc i Hi. apply in_seq in Hi. unfold influence_step.
  assert (physicalConstants u !! i = physicalConstants v !! i) as ->; [|reflexivity].
  rewrite <- (lookup_take_lt (physicalConstants u) 10 i) by (simpl in Hi; lia).
  rewrite <- (lookup_take_lt (physicalConstants v) 10 i) by (simpl in Hi; lia).
  now rewrite Hten.
Qed.

(** X16. Only the first ten constants count: replacing the block of
    constants of a universe that holds at least ten by another block with
    the same first ten entries, of whatever length, does not change what the
    calculator returns. *)
Theorem calculateEndOfWorld_first_ten_constants
    (m : machine) (pu : addr) (W : Universe) (cs : list float) (n : Z) :
  heap m !! pu = Some W ->
  10 <= numConstants W -> 10 <= n ->
  take 10 cs = take 10 (physicalConstants W) ->
  fst <$> calculateEndOfWorld (Some pu)
            {| heap := <[pu := set_constants cs n W]> (heap m);
               outcomes := outcomes m; clock := clock m |}
    = fst <$> calculateEndOfWorld (Some pu) m.
Proof.
  intros Hpu HW Hn Hten.
  rewrite (calculateEndOfWorld_estimate m pu W Hpu).
  rewrite (calculateEndOfWorld_estimate _ pu (set_constants cs n W))
    by (simpl; apply lookup_insert_eq).
  assert (days_estimate (set_constants cs n W) (clock m) = days_estimate W (clock m))
    as Hsame.
  { unfold days_estimate.
    rewrite (influence_loop_first_ten (set_constants cs n W) W) by assumption.
    reflexivity. }
  simpl clock. rewrite Hsame.
  destruct (days_estimate W (clock m)) as [x|]; [|reflexivity].
  now destruct (to_long (fmin (of_Z LONG_MAX) x)).
Qed.

Lemma calculateEndOfWorld_first_ten_constants_witness :
  fst <$> calculateEndOfWorld (Some 1%positive)
            {| heap := <[1%positive :=
                          set_constants (take 10 (fill_constants 30 (fresh_doubles 30)))
                            10 (created_universe 0)]>
                         (heap (world_of (created_universe 0) 0));
               outcomes := []; clock := 0 |}
    = Some 697149.
Proof.
  rewrite (calculateEndOfWorld_first_ten_constants (world_of (created_universe 0) 0)
             1%positive (created_universe 0)).
  - vm_compute. reflexivity.
  - reflexivity.
  - simpl. lia.
  - lia.
  - reflexivity.
Defined.

(** *** When the conversion to [long] is defined *)

Lemma digits2_pos_bound (p : positive) : Z.pos p < 2 ^ Z.pos (digits2_pos p).
Proof.
  induction p as [p IH|p IH|]; simpl digits2_pos;
    rewrite ?Pos2Z.inj_succ, ?Z.pow_succ_r by lia; lia.
Qed.

Lemma valid_mantissa_bound (s : bool) (mx : positive) (ex : Z) :
  valid_binary (S754_finite s mx ex) = true -> Z.pos mx < 2 ^ 53.
Proof.
  unfold SpecFloat.valid_binary, bounded, canonical_mantissa, fexp, SpecFloat.emin.
  intros H. apply andb_prop in H as [H _]. apply Z.eqb_eq in H.
  pose proof (digits2_pos_bound mx) as Hd.
  assert (Z.pos (digits2_pos mx) <= 53) as Hle
    by (unfold prec, emax in H; lia).
  apply Z.lt_le_trans with (1 := Hd). apply Z.pow_le_mono_r; lia.
Qed.

Lemma ltb_not_nan (x y : float) : (x <? y)%float = true -> is_nan x = false.
Proof.
  rewrite FloatAxioms.ltb_spec. unfold is_nan. rewrite FloatAxioms.eqb_spec.
  unfold SFltb, SFeqb.
  destruct (Prim2SF x) as [s|s| |s mx ex]; simpl; try discriminate;
    intros _; try (now destruct s).
  change PosDef.Pos.compare_cont with Pos.compare_cont.
  destruct s; rewrite Z.compare_refl, Pos.compare_cont_refl; reflexivity.
Qed.

Lemma trunc_below_clamp (x : float) (z : Z) :
  (fmax 0 x <? of_Z LONG_MAX)%float = true ->
  trunc (fmax 0 x) = Some z -> 0 <= z <= LONG_MAX.
Proof.
  intros Hlt Hz. split; [exact (trunc_fmax_zero x z Hz)|].
  revert Hlt Hz.
  destruct (fmax_zero_cases x) as [->|[-> (mx & ex & [Hx|Hx])]].
  - intros _ [= <-]. unfold LONG_MAX. lia.
  - rewrite FloatAxioms.ltb_spec, Hx. discriminate.
  - pose proof (Prim2SF_valid x) as Hvalid. rewrite Hx in Hvalid.
    apply valid_mantissa_bound in Hvalid.
    rewrite FloatAxioms.ltb_spec, Hx.
    change (Prim2SF (of_Z LONG_MAX)) with (S754_finite false 4503599627370496 11).
    unfold trunc. rewrite Hx. unfold SFltb, SFcompare.
    intros Hlt [= <-]. unfold LONG_MAX.
    destruct (ex ?= 11) eqn:Hcmp; [| |discriminate].
    + apply Z.compare_eq in Hcmp. subst ex.
      change PosDef.Pos.compare_cont with Pos.compare_cont in Hlt.
      rewrite Pos.compare_cont_spec in Hlt.
      destruct (mx ?= 4503599627370496)%positive eqn:Hm;
        cbn [Pos.switch_Eq] in Hlt; try discriminate.
      assert (Z.pos mx < 4503599627370496) as Hmx
        by (apply Pos2Z.pos_lt_pos; exact Hm).
      change (0 <=? 11) with true. cbv iota.
      change (2 ^ 11) with 2048. lia.
    + assert (ex < 11) as Hex11 by exact Hcmp. destruct (0 <=? ex) eqn:Hex.
      * apply Z.leb_le in Hex.
        assert (2 ^ ex <= 2 ^ 10) as Hpow by (apply Z.pow_le_mono_r; lia).
        change (2 ^ 53) with 9007199254740992 in Hvalid.
        change (2 ^ 10) with 1024 in Hpow.
        assert (Z.pos mx * 2 ^ ex <= 9007199254740991 * 1024) as Hmul
          by (apply Z.mul_le_mono_nonneg; [lia|lia|apply Z.pow_nonneg; lia|exact Hpow]).
        lia.
      * apply Z.leb_gt in Hex.
        assert (0 < 2 ^ (- ex)) as Hpos by (apply Z.pow_pos_nonneg; lia).
        assert (Z.pos mx / 2 ^ (- ex) <= Z.pos mx) as Hdiv.
        { apply Z.div_le_upper_bound; [exact Hpos|].
          rewrite <- (Z.mul_1_l (Z.pos mx)) at 1.
          apply Z.mul_le_mono_nonneg_r; lia. }
        change (2 ^ 53) with 9007199254740992 in Hvalid. lia.
Qed.

Lemma trunc_fmax_zero_defined (x : float) :
  (fmax 0 x <? of_Z LONG_MAX)%float = true -> exists z, trunc (fmax 0 x) = Some z.
Proof.
  destruct (fmax_zero_cases x) as [->|[-> (mx & ex & [Hx|Hx])]]; unfold trunc.
  - eauto.
  - rewrite FloatAxioms.ltb_spec, Hx. discriminate.
  - rewrite Hx. eauto.
Qed.

(** X17. The clamp to [(double)LONG_MAX] never changes a value that is
    returned. If the days remaining computed before the clamp are below
    [(double)LONG_MAX], the calculator returns them truncated toward zero;
    if they are not, the clamp yields [(double)LONG_MAX] itself and the
    conversion to [long] has no defined result. *)
Theorem calculateEndOfWorld_defined_iff
    (m : machine) (pu : addr) (W : Universe) (x : float) :
  heap m !! pu = Some W -> days_estimate W (clock m) = Some x ->
  ((x <? of_Z LONG_MAX)%float = true ->
     exists days, calculateEndOfWorld (Some pu) m = Some (days, m) /\
                  trunc x = Some days /\ 0 <= days <= LONG_MAX) /\
  ((x <? of_Z LONG_MAX)%float = false ->
     calculateEndOfWorld (Some pu) m = None).
Proof.
  intros Hpu Hx. rewrite (calculateEndOfWorld_estimate m pu W Hpu), Hx.
  assert (exists z, x = fmax 0 z) as [z ->].
  { unfold days_estimate in Hx. destruct (influence_loop W); [|discriminate].
    injection Hx as <-. eauto. }
  split; intros Hlt.
  - destruct (trunc_fmax_zero_defined z Hlt) as [days Hdays].
    pose proof (trunc_below_clamp z days Hlt Hdays) as Hrange.
    exists days. unfold to_long, fmin.
    change (is_nan (of_Z LONG_MAX)) with false. cbv iota.
    rewrite (ltb_not_nan _ _ Hlt), Hlt, Hdays.
    rewrite (proj2 (Z.leb_le LONG_MIN days)) by (unfold LONG_MIN; lia).
    rewrite (proj2 (Z.leb_le days LONG_MAX)) by lia.
    auto.
  - unfold fmin. change (is_nan (of_Z LONG_MAX)) with false. cbv iota.
    rewrite Hlt. now destruct (is_nan (fmax 0 z)).
Qed.

Lemma calculateEndOfWorld_defined_iff_witness :
  calculateEndOfWorld (Some 1%positive)
    (world_of (set_totalLifespanDays LONG_MAX
                 (set_entropyLevel 0 (created_universe 0))) 0) = None.
Proof.
  apply (calculateEndOfWorld_defined_iff _ 1%positive
           (set_totalLifespanDays LONG_MAX (set_entropyLevel 0 (created_universe 0)))
           (of_Z LONG_MAX)).
  - reflexivity.
  - vm_compute. reflexivity.
  - reflexivity.
Defined.

(** ** The whole of [main] *)

Lemma granted_split (a b : nat) (m m' : machine) :
  outcomes m' = drop a (outcomes m) ->
  granted (a + b) m = granted a m && granted b m'.
Proof.
  intros Hm'. unfold granted. rewrite Hm', <- take_take_drop. apply forallb_app.
Qed.

Lemma drop_6_consume (m : machine) :
  outcomes (consume (consume (consume (consume (consume (consume m))))))
    = drop 6 (outcomes m).
Proof. simpl. now destruct (outcomes m) as [|? [|? [|? [|? [|? [|? ?]]]]]]. Qed.

Lemma createGod_granted (m : machine) :
  granted 6 m = true ->
  createGod m =
    Some (Some omega, consume (consume (consume (consume (consume (consume m)))))).
Proof.
  intros Hg.
  apply granted_S in Hg as [H1 Hg]. apply granted_S in Hg as [H2 Hg].
  apply granted_S in Hg as [H3 Hg]. apply granted_S in Hg as [H4 Hg].
  apply granted_S in Hg as [H5 Hg]. apply granted_S in Hg as [H6 _].
  unfold createGod.
  rewrite bind_malloc_granted; [|unfold sizeof_God, PTRDIFF_MAX; lia|assumption].
  cbn [negb].
  do 5 (rewrite bind_malloc_granted; [|unfold PTRDIFF_MAX; lia|assumption];
        cbn [negb]).
  reflexivity.
Qed.

Lemma createGod_refused (m : machine) :
  granted 6 m = false ->
  exists m', createGod m = Some (None, m') /\ heap m' = heap m.
Proof.
  intros Hg. destruct (createGod_cases m) as (r & m' & Hrun & Hr).
  rewrite Hg in Hr. subst r. exists m'. split; [exact Hrun|].
  exact (createGod_silent _ _ _ Hrun).
Qed.

Lemma createConsciousEntity_refused
    (m : machine) (pu : addr) (W : Universe) (g : God) (name : string) :
  heap m !! pu = Some W -> well_formed W -> granted 5 m = false ->
  strlen name < MAX_NAME_LENGTH -> numEntities W < INT_MAX ->
  exists m', createConsciousEntity (Some g) (Some pu) (Some name) m = Some (None, m') /\
             heap m' = heap m.
Proof.
  intros Hpu Hwf Hg Hname Hroom.
  assert (exists m', createConsciousEntity (Some g) (Some pu) (Some name) m
                     = Some (None, m')) as [m' Hrun].
  { pose proof (wf_numEntities _ Hwf) as Hcount.
    assert (INT_MIN <= numEntities W + 1 <= INT_MAX) as Hin
      by (unfold INT_MIN, INT_MAX in *; lia).
    destruct (size_of_slots (numEntities W + 1)) as [Hsz Hfit];
      [unfold INT_MAX in *; lia|].
    rewrite !granted_S_eq, granted_0 in Hg.
    unfold createConsciousEntity.
    rewrite (proj2 (Z.leb_gt _ _)) by lia.
    rewrite bind_malloc_small by (unfold sizeof_ConsciousEntity, PTRDIFF_MAX; lia).
    destruct (hd true (outcomes m)); cbn [negb]; [|eexists; reflexivity].
    rewrite bind_malloc_small by (unfold sizeof_double, PTRDIFF_MAX; lia).
    destruct (hd true (outcomes (consume m))); cbn [negb]; [|eexists; reflexivity].
    rewrite bind_malloc_small by (unfold sizeof_double, PTRDIFF_MAX; lia).
    destruct (hd true (outcomes (consume (consume m)))); cbn [negb];
      [|eexists; reflexivity].
    rewrite bind_malloc_small by (unfold MAX_NAME_LENGTH, PTRDIFF_MAX in *; lia).
    destruct (hd true (outcomes (consume (consume (consume m))))); cbn [negb];
      [|eexists; reflexivity].
    rewrite (bind_load pu W) by assumption.
    rewrite bind_int_add by assumption. rewrite bind_int_add by assumption.
    unfold realloc.
    rewrite bind_malloc_small by (rewrite Hsz; assumption).
    destruct (hd true (outcomes (consume (consume (consume (consume m))))));
      cbn [negb]; [|eexists; reflexivity].
    discriminate Hg. }
  exists m'. split; [exact Hrun|].
  exact (createConsciousEntity_failure_silent _ _ _ _ _ Hrun).
Qed.

(** What the calculator returns for the universe of [main], asked in the
    second of its creation. *)
Lemma main_universe_days (now : Z) (m : machine) (p : addr) :
  clock m = now ->
  heap m !! p = Some (appended (entity_of "Human2" 1)
                        (appended (entity_of "Human1" 0) (created_universe now))) ->
  calculateEndOfWorld (Some p) m = Some (697149, m).
Proof.
  intros Hclock Hp. rewrite (calculateEndOfWorld_estimate m p _ Hp), Hclock.
  unfold days_estimate, difftime. simpl creationTime. rewrite Z.sub_diag.
  vm_compute. reflexivity.
Qed.

Lemma formPrayer_refused (e : ConsciousEntity) (m : machine) :
  hd true (outcomes m) = false -> formPrayer (Some e) m = Some (None, consume m).
Proof.
  intros Hhd. unfold formPrayer.
  rewrite bind_malloc_small by (unfold MAX_PRAYER_LENGTH, PTRDIFF_MAX; lia).
  now rewrite Hhd.
Qed.

Lemma formPrayer_granted (e : ConsciousEntity) (m : machine) :
  strlen (name e) < MAX_NAME_LENGTH -> hd true (outcomes m) = true ->
  formPrayer (Some e) m = Some (Some (prayer_of e), consume m).
Proof.
  intros Hname Hhd. pose proof (strlen_prayer_of e) as Hlen.
  pose proof (strlen_nonneg (name e)) as Hpos.
  unfold formPrayer.
  change ("Prayer from " ++ name e ++ ": Please guide me.")%string with (prayer_of e).
  rewrite bind_malloc_small by (unfold MAX_PRAYER_LENGTH, PTRDIFF_MAX; lia).
  rewrite Hhd. cbn [negb].
  rewrite (proj2 (Z.ltb_ge _ _)) by lia.
  rewrite (proj2 (Z.leb_gt _ _)) by (unfold MAX_NAME_LENGTH, MAX_PRAYER_LENGTH in *; lia).
  reflexivity.
Qed.

Lemma granted_1 (m : machine) : granted 1 m = hd true (outcomes m).
Proof. rewrite granted_S_eq, granted_0. apply andb_true_r. Qed.

Lemma divinePrayerResponse_refused
    (m : machine) (pu : addr) (W : Universe) (e : ConsciousEntity) (prayer : string) :
  heap m !! pu = Some W -> well_formed W -> granted 5 m = false ->
  exists m', divinePrayerResponse (Some e) (Some prayer) (Some pu) m = Some (None, m') /\
             heap m' = heap m.
Proof.
  intros Hpu Hwf Hg.
  destruct (divineMiracle_refused m pu W None Hpu Hwf Hg) as [m' Hrun].
  exists m'. unfold divinePrayerResponse. rewrite (bind_run _ _ _ _ _ Hrun).
  split; [reflexivity|exact (divineMiracle_null_silent _ _ _ _ Hrun)].
Qed.

Lemma divineCompletion_refused (m : machine) (pu : addr) (W : Universe) :
  heap m !! pu = Some W -> well_formed W -> granted 5 m = false ->
  exists m', divineCompletion (Some pu) m = Some (None, m') /\ heap m' = heap m.
Proof.
  intros Hpu Hwf Hg.
  destruct (divineMiracle_refused m pu W None Hpu Hwf Hg) as [m' Hrun].
  exists m'. unfold divineCompletion. rewrite (bind_run _ _ _ _ _ Hrun).
  split; [reflexivity|exact (divineMiracle_null_silent _ _ _ _ Hrun)].
Qed.

(** Releasing an object that sits on top of the heap [h]. *)
Lemma freeUniverse_inserted (m : machine) (h : gmap addr Universe) (p : addr) (W : Universe) :
  h !! p = None -> heap m = <[p := W]> h ->
  numEntities W <= Z.of_nat (length (consciousEntities W)) ->
  freeUniverse (Some p) m =
    Some (tt, {| heap := h; outcomes := outcomes m; clock := clock m |}).
Proof.
  intros Hp Hm Hcount.
  assert (heap m !! p = Some W) as Hlive by (rewrite Hm; apply lookup_insert_eq).
  unfold freeUniverse. rewrite (bind_load p W) by assumption.
  rewrite (proj2 (Z.leb_le _ _) Hcount). unfold free_object. rewrite Hlive.
  rewrite Hm, delete_insert_eq, delete_id by exact Hp. reflexivity.
Qed.

(** Whatever the allocator answers, an append leaves one well-formed
    object at the address of the universe and nothing else changed. *)
Lemma createConsciousEntity_any
    (m : machine) (h : gmap addr Universe) (pu : addr) (W : Universe)
    (g : God) (name : string) :
  heap m = <[pu := W]> h -> well_formed W ->
  strlen name < MAX_NAME_LENGTH -> numEntities W < INT_MAX ->
  exists (r : option ConsciousEntity) (m' : machine) (W' : Universe),
    createConsciousEntity (Some g) (Some pu) (Some name) m = Some (r, m') /\
    heap m' = <[pu := W']> h /\ well_formed W'.
Proof.
  intros Hm Hwf Hname Hroom.
  assert (heap m !! pu = Some W) as Hpu by (rewrite Hm; apply lookup_insert_eq).
  destruct (granted 5 m) eqn:Hg.
  - eexists _, _, (appended (entity_of name (numEntities W)) W).
    split; [exact (createConsciousEntity_run m pu W g name Hpu Hwf Hg Hname Hroom)|].
    simpl. rewrite Hm, insert_insert_eq.
    split; [reflexivity|now apply appended_well_formed].
  - destruct (createConsciousEntity_refused m pu W g name Hpu Hwf Hg Hname Hroom)
      as (m' & Hrun & Hheap).
    exists None, m', W. split; [exact Hrun|]. split; [congruence|exact Hwf].
Qed.

Lemma wf_counted (W : Universe) :
  well_formed W -> numEntities W <= Z.of_nat (length (consciousEntities W)).
Proof. intros Hwf. rewrite (wf_numEntities _ Hwf). lia. Qed.

Lemma granted_prefix_refused (a b : nat) (m : machine) :
  granted a m = false -> granted (a + b) m = false.
Proof.
  intros Hg.
  rewrite (granted_split a b m
             {| heap := heap m; outcomes := drop a (outcomes m); clock := clock m |}
             eq_refl), Hg.
  reflexivity.
Qed.

(** X18. [main] as a whole.  Started with a clock in the range of
    [time_t] (the value [time] returns throughout the run), [main] always
    ends and returns an exit status, whatever the allocator answers to each
    request.  The status is 0 exactly when all 32 requests the run can make
    are granted (6 for the [God] object, 5 for the universe, 5 for each of
    the two entities, 1 for the prayer, 5 for the answered universe and 5
    for the completed one) and 1 otherwise.  On every path, failing ones
    included, the universes created on the way are released again: the
    heap at the end is the heap at the start. *)
Theorem main_outcome (m : machine) :
  LONG_MIN <= clock m <= LONG_MAX ->
  exists (status : Z) (m' : machine),
    main m = Some (status, m') /\ heap m' = heap m /\
    status = (if granted 32 m then 0 else 1).
Proof.
  intros Hclock. unfold main.
  destruct (granted 6 m) eqn:G1.
  2:{ destruct (createGod_refused m G1) as (m1 & Hrun & Hh).
      rewrite (bind_run _ _ _ _ _ Hrun). exists 1, m1.
      split; [reflexivity|]. split; [exact Hh|].
      rewrite (granted_prefix_refused 6 26 m G1 : granted 32 m = _). reflexivity. }
  rewrite (bind_run _ _ _ _ _ (createGod_granted m G1)).
  rewrite (granted_split 6 26 m _ (drop_6_consume m) : granted 32 m = _), G1. cbn [andb].
  remember (consume (consume (consume (consume (consume (consume m)))))) as M1 eqn:EM1.
  assert (heap M1 = heap m) as Hh1 by (subst M1; reflexivity).
  assert (clock M1 = clock m) as Hc1 by (subst M1; reflexivity).
  clear EM1 G1. cbv beta iota.
  destruct (granted 5 M1) eqn:G2.
  2:{ destruct (divineCreateUniverse_refused M1 G2) as [m2 Hrun].
      rewrite (bind_run _ _ _ _ _ Hrun). exists 1, m2.
      split; [reflexivity|].
      split; [rewrite (divineCreateUniverse_null_silent _ _ Hrun); exact Hh1|].
      rewrite (granted_prefix_refused 5 21 M1 G2 : granted 26 M1 = _). reflexivity. }
  rewrite (bind_run _ _ _ _ _ (divineCreateUniverse_run M1 G2)).
  pose proof (fresh_not_live M1) as Hp1.
  pose proof (created_universe_well_formed (clock M1) ltac:(lia)) as Hwf0.
  remember (fresh (dom (heap M1))) as p1 eqn:Ep1.
  remember (created_universe (clock M1)) as U0 eqn:EU0.
  assert (numEntities U0 = 0) as Hn0 by (subst U0; reflexivity).
  remember {| heap := <[p1 := U0]> (heap M1); outcomes := drop 5 (outcomes M1);
              clock := clock M1 |} as M2 eqn:EM2.
  rewrite (granted_split 5 21 M1 M2 ltac:(subst M2; reflexivity) : granted 26 M1 = _), G2.
  cbn [andb].
  assert (heap M2 = <[p1 := U0]> (heap M1)) as Hh2 by (subst M2; reflexivity).
  assert (clock M2 = clock M1) as Hc2 by (subst M2; reflexivity).
  clear EM2 G2 Ep1. cbv beta iota.
  assert (strlen "Human1" < MAX_NAME_LENGTH) as Hname1 by reflexivity.
  assert (strlen "Human2" < MAX_NAME_LENGTH) as Hname2 by reflexivity.
  assert (heap M2 !! p1 = Some U0) as Hlive2 by (rewrite Hh2; apply lookup_insert_eq).
  destruct (granted 5 M2) eqn:G3.
  2:{ destruct (createConsciousEntity_refused M2 p1 U0 omega "Human1" Hlive2 Hwf0 G3
                  Hname1 ltac:(rewrite Hn0; reflexivity)) as (m3 & Hrun3 & Hh3).
      rewrite (bind_run _ _ _ _ _ Hrun3).
      destruct (createConsciousEntity_any m3 (heap M1) p1 U0 omega "Human2"
                  ltac:(congruence) Hwf0 Hname2 ltac:(rewrite Hn0; reflexivity))
        as (r & m4 & W' & Hrun4 & Hh4 & Hwf4).
      rewrite (bind_run _ _ _ _ _ Hrun4). cbv beta iota.
      rewrite (bind_run _ _ _ _ _
                 (freeUniverse_inserted m4 (heap M1) p1 W' Hp1 Hh4 (wf_counted _ Hwf4))).
      eexists _, _. split; [reflexivity|]. split; [exact Hh1|].
      rewrite (granted_prefix_refused 5 16 M2 G3 : granted 21 M2 = _). reflexivity. }
  assert (numEntities U0 < INT_MAX) as Hroom0 by (rewrite Hn0; reflexivity).
  rewrite (bind_run _ _ _ _ _
             (createConsciousEntity_run M2 p1 U0 omega "Human1" Hlive2 Hwf0 G3 Hname1 Hroom0)).
  rewrite (granted_split 5 16 M2 (after_create p1 "Human1" U0 M2) eq_refl
             : granted 21 M2 = _), G3.
  cbn [andb]. rewrite Hn0.
  pose proof (appended_well_formed (entity_of "Human1" 0) U0 Hwf0 Hroom0) as Hwf1.
  remember (entity_of "Human1" 0) as e1 eqn:Ee1.
  remember (appended e1 U0) as U1 eqn:EU1.
  remember (after_create p1 "Human1" U0 M2) as M3 eqn:EM3.
  assert (heap M3 = <[p1 := U1]> (heap M1)) as Hh3.
  { subst M3 U1. simpl. rewrite Hn0, <- Ee1, Hh2. apply insert_insert_eq. }
  assert (clock M3 = clock M1) as Hc3 by (subst M3; exact Hc2).
  assert (numEntities U1 = 1) as Hn1 by (subst U1; simpl; rewrite Hn0; reflexivity).
  assert (numEntities U1 < INT_MAX) as Hroom1 by (rewrite Hn1; reflexivity).
  assert (heap M3 !! p1 = Some U1) as Hlive3 by (rewrite Hh3; apply lookup_insert_eq).
  clear EM3 G3 Hlive2 Hh2 Hc2 M2.
  destruct (granted 5 M3) eqn:G4.
  2:{ destruct (createConsciousEntity_refused M3 p1 U1 omega "Human2" Hlive3 Hwf1 G4
                  Hname2 Hroom1) as (m4 & Hrun4 & Hh4).
      rewrite (bind_run _ _ _ _ _ Hrun4). cbv beta iota.
      rewrite (bind_run _ _ _ _ _
                 (freeUniverse_inserted m4 (heap M1) p1 U1 Hp1 ltac:(congruence)
                    (wf_counted _ Hwf1))).
      eexists _, _. split; [reflexivity|]. split; [exact Hh1|].
      rewrite (granted_prefix_refused 5 11 M3 G4 : granted 16 M3 = _). reflexivity. }
  rewrite (bind_run _ _ _ _ _
             (createConsciousEntity_run M3 p1 U1 omega "Human2" Hlive3 Hwf1 G4 Hname2 Hroom1)).
  rewrite (granted_split 5 11 M3 (after_create p1 "Human2" U1 M3) eq_refl
             : granted 16 M3 = _), G4.
  cbn [andb]. cbv beta iota.
  pose proof (appended_well_formed (entity_of "Human2" (numEntities U1)) U1 Hwf1 Hroom1)
    as Hwf2.
  remember (after_create p1 "Human2" U1 M3) as M4 eqn:EM4.
  remember (appended (entity_of "Human2" (numEntities U1)) U1) as U2 eqn:EU2.
  assert (heap M4 = <[p1 := U2]> (heap M1)) as Hh4.
  { subst M4 U2. simpl. rewrite Hh3. apply insert_insert_eq. }
  assert (clock M4 = clock M1) as Hc4 by (subst M4; exact Hc3).
  clear EM4 G4 Hlive3 Hh3 Hc3 M3.
  assert (freeUniverse_U2 : forall mx : machine, heap mx = heap M4 ->
            freeUniverse (Some p1) mx =
              Some (tt, {| heap := heap M1; outcomes := outcomes mx; clock := clock mx |})).
  { intros mx Hmx. apply (freeUniverse_inserted mx (heap M1) p1 U2 Hp1).
    - congruence.
    - exact (wf_counted _ Hwf2). }
  assert (strlen (name e1) < MAX_NAME_LENGTH) as Hname by (subst e1; reflexivity).
  destruct (granted 1 M4) eqn:G5.
  2:{ pose proof G5 as G5'. rewrite granted_1 in G5'.
      rewrite (bind_run _ _ _ _ _ (formPrayer_refused e1 M4 G5')).
      rewrite (bind_run _ _ _ _ _ (freeUniverse_U2 (consume M4) eq_refl)).
      eexists _, _. split; [reflexivity|]. split; [exact Hh1|].
      rewrite (granted_prefix_refused 1 10 M4 G5 : granted 11 M4 = _). reflexivity. }
  rewrite (bind_run _ _ _ _ _
             (formPrayer_granted e1 M4 Hname ltac:(rewrite <- granted_1; exact G5))).
  rewrite (granted_split 1 10 M4 (consume M4) eq_refl : granted 11 M4 = _), G5.
  cbn [andb]. cbv beta iota.
  remember (consume M4) as M5 eqn:EM5.
  assert (heap M5 = heap M4) as Hh5 by (subst M5; reflexivity).
  assert (clock M5 = clock M1) as Hc5 by (subst M5; exact Hc4).
  clear EM5 G5.
  assert (heap M5 !! p1 = Some U2) as Hlive5
    by (rewrite Hh5, Hh4; apply lookup_insert_eq).
  assert (totalLifespanDays U2 < LONG_MAX) as Hdays by (subst U2 U1 U0; reflexivity).
  destruct (granted 5 M5) eqn:G6.
  2:{ destruct (divinePrayerResponse_refused M5 p1 U2 e1 (prayer_of e1) Hlive5 Hwf2 G6)
        as (m6 & Hrun6 & Hh6).
      rewrite (bind_run _ _ _ _ _ Hrun6). cbv beta iota.
      rewrite (bind_run _ _ _ _ _ (eq_refl : free_string (Some (prayer_of e1)) m6 = Some (tt, m6))).
      rewrite (bind_run _ _ _ _ _ (freeUniverse_U2 m6 ltac:(congruence))).
      eexists _, _. split; [reflexivity|]. split; [exact Hh1|].
      rewrite (granted_prefix_refused 5 5 M5 G6 : granted 10 M5 = _). reflexivity. }
  rewrite (bind_run _ _ _ _ _
             (divinePrayerResponse_run M5 p1 U2 e1 (prayer_of e1) Hlive5 Hwf2 G6 Hdays)).
  pose proof (fresh_not_live M5) as Hp2.
  remember (fresh (dom (heap M5))) as p2 eqn:Ep2.
  remember (answer_of (prayer_of e1) U2) as A eqn:EA.
  assert (numEntities A <= Z.of_nat (length (consciousEntities A))) as HcountA.
  { subst A. unfold answer_of. destruct (strstr _ _); simpl; lia. }
  remember {| heap := <[p2 := A]> (heap (after_miracle U2 M5));
              outcomes := drop 5 (outcomes M5); clock := clock M5 |} as M6 eqn:EM6.
  rewrite (granted_split 5 5 M5 M6 ltac:(subst M6; reflexivity) : granted 10 M5 = _), G6.
  cbn [andb]. cbv beta iota.
  assert (heap M6 = <[p2 := A]> (heap M5)) as Hh6.
  { subst M6. simpl. rewrite <- Ep2. apply insert_insert_eq. }
  assert (clock M6 = clock M1) as Hc6 by (subst M6; exact Hc5).
  assert (p2 <> p1) as Hne by (intros ->; congruence).
  assert (heap M6 !! p1 = Some U2) as Hlive6
    by (rewrite Hh6, lookup_insert_ne by exact Hne; exact Hlive5).
  clear EM6 G6 Ep2.
  assert (freeUniverse_A : forall mx : machine, heap mx = heap M6 ->
            freeUniverse (Some p2) mx =
              Some (tt, {| heap := heap M5; outcomes := outcomes mx; clock := clock mx |})).
  { intros mx Hmx. apply (freeUniverse_inserted mx (heap M5) p2 A Hp2); congruence. }
  assert (U2 = appended (entity_of "Human2" 1)
                 (appended (entity_of "Human1" 0) (created_universe (clock M1)))) as HU2
    by (rewrite EU2, Hn1, EU1, Ee1, EU0; reflexivity).
  rewrite HU2 in Hlive6 at 1.
  rewrite (bind_run _ _ _ _ _ (main_universe_days (clock M1) M6 p1 Hc6 Hlive6)).
  rewrite <- HU2 in Hlive6.
  destruct (granted 5 M6) eqn:G7.
  - rewrite (bind_run _ _ _ _ _ (divineCompletion_run M6 p1 U2 Hlive6 Hwf2 G7)).
    cbv beta iota.
    rewrite (bind_run _ _ _ _ _ (eq_refl : free_string (Some (prayer_of e1)) _ = Some (tt, _))).
    rewrite (bind_run _ _ _ _ _
               (freeUniverse_inserted _ (heap M6) (fresh (dom (heap M6))) (completion_of U2)
                  (fresh_not_live M6) (insert_insert_eq _ _ _ _) (Z.le_refl 0))).
    rewrite (bind_run _ _ _ _ _
               (freeUniverse_A {| heap := heap M6; outcomes := _; clock := _ |} eq_refl)).
    rewrite (bind_run _ _ _ _ _
               (freeUniverse_U2 {| heap := heap M5; outcomes := _; clock := _ |} Hh5)).
    eexists _, _. split; [reflexivity|]. split; [exact Hh1|reflexivity].
  - destruct (divineCompletion_refused M6 p1 U2 Hlive6 Hwf2 G7) as (m7 & Hrun7 & Hh7).
    rewrite (bind_run _ _ _ _ _ Hrun7). cbv beta iota.
    rewrite (bind_run _ _ _ _ _ (eq_refl : free_string (Some (prayer_of e1)) m7 = Some (tt, m7))).
    rewrite (bind_run _ _ _ _ _ (freeUniverse_A m7 Hh7)).
    rewrite (bind_run _ _ _ _ _
               (freeUniverse_U2 {| heap := heap M5; outcomes := _; clock := _ |} Hh5)).
    eexists _, _. split; [reflexivity|]. split; [exact Hh1|reflexivity].
Qed.

Lemma main_outcome_witness :
  exists (status : Z) (m' : machine),
    main (world_of (created_universe 0) 0) = Some (status, m') /\
    heap m' = heap (world_of (created_universe 0) 0) /\
    status = (if granted 32 (world_of (created_universe 0) 0) then 0 else 1).
Proof.
  apply (main_outcome (world_of (created_universe 0) 0)).
  unfold LONG_MIN, LONG_MAX. simpl. lia.
Defined.

(** ** Revelations and projections *)

(** X19. [divineRevelation] and [divineMultiverseProjection] always
    return and never touch the universes, not even to read the one they
    are given: the result is the same for a pointer to an object that is
    no longer live.  Each returns NULL exactly when one of its arguments
    is NULL or its single allocation request is refused; with a NULL
    argument no request is made at all.  A revelation that is returned
    holds 1.0. *)
Theorem revelation_and_projection_outcome
    (u : option addr) (t : option TimePoint) (multiverse : option addr) (m : machine) :
  (exists (r : option float) (m' : machine),
     divineRevelation u t m = Some (r, m') /\ heap m' = heap m /\
     (r = None <-> u = None \/ t = None \/ hd true (outcomes m) = false) /\
     (u = None \/ t = None -> m' = m) /\
     (forall x, r = Some x -> x = 1%float)) /\
  (exists (r : option unit) (m' : machine),
     divineMultiverseProjection multiverse m = Some (r, m') /\ heap m' = heap m /\
     (r = None <-> multiverse = None \/ hd true (outcomes m) = false) /\
     (multiverse = None -> m' = m)).
Proof.
  split.
  - destruct u as [pu|], t as [t|];
      try (exists None, m; repeat split; auto; discriminate).
    unfold divineRevelation.
    rewrite bind_malloc_small by (unfold sizeof_double, PTRDIFF_MAX; lia).
    destruct (hd true (outcomes m)) eqn:Hhd; cbn [negb].
    + exists (Some 1%float), (consume m). repeat split; try discriminate.
      * intros [?|[?|?]]; discriminate.
      * intros [?|?]; discriminate.
      * now intros x [= <-].
    + exists None, (consume m). repeat split; auto; try discriminate.
      intros [?|?]; discriminate.
  - destruct multiverse as [p|];
      [|exists None, m; repeat split; auto; discriminate].
    unfold divineMultiverseProjection.
    rewrite bind_malloc_small by (unfold sizeof_pointer, PTRDIFF_MAX; lia).
    destruct (hd true (outcomes m)) eqn:Hhd; cbn [negb].
    + exists (Some tt), (consume m). repeat split; try discriminate.
      intros [?|?]; discriminate.
    + exists None, (consume m). repeat split; auto; discriminate.
Qed.
